(** * CityForge: raster quality control, normalisation and scoring

    A shallow embedding of the numerical core of the CityForge backend
    (MODIS quality decoding and tile geolocation, the normalisers of
    [data_processor.py], the OMI region extraction of
    [real_nasa_apis.py] and the scoring and ranking code of
    [recommendation_engine.py]) together with the properties the
    specification states about them.

    Conventions of the embedding.
    - Python [int] and NumPy [int64] pixels are [Z]; the bit operators
      [&] and [>>] are [Z.land] and [Z.shiftr], which agree with the
      two's complement operators on negative numbers as well.
    - Python and NumPy floating point numbers are exact rationals [Q]
      where the property stated is one of order, range, shape or
      control flow, which the rounding of binary64 does not change; a
      value that may be NaN is an [fval].  Where the result depends on
      the rounding (the scores of a scenario, the truncation of the
      sub-index, the category of a flood risk next to a threshold, the
      edges of neighbouring tiles, the bounds of the region mask) the
      function is modelled on the binary64 numbers of [PrimFloat], in
      the modules [Binary64] and [Modis64] and in the bounds of [Omi].
    - NumPy arrays are lists (row-major lists of rows for grids).
    - Python dictionaries with string keys are [gmap string _];
      a dictionary whose insertion order is observed is an association
      list.
    - Where a property speaks about logging, the [logger] calls of a
      function are collected in a list of log records returned next to
      its value; the text of a record is the format string of the call
      without its leading pictograph.
      Exceptions are the [Raise] case of [result]. *)

From Stdlib Require Import ZArith QArith Qminmax Qabs Lia Lqa List Permutation Sorted Ascii.
From Stdlib Require Import Floats.
From stdpp Require Import base option list strings gmap pretty.

Local Open Scope Z_scope.

(** * Definitions *)

(** ** Numbers *)

Module Num.

Definition Qleb (x y : Q) : bool := Qle_bool x y.
Definition Qltb (x y : Q) : bool := negb (Qle_bool y x).

(** [np.maximum], [np.minimum] and [np.clip] on finite values. *)
Definition np_maximum (x y : Q) : Q := if Qltb x y then y else x.
Definition np_minimum (x y : Q) : Q := if Qltb y x then y else x.
Definition np_clip (x lo hi : Q) : Q := np_minimum (np_maximum x lo) hi.

(** Python's [max(a, b)] and [min(a, b)] of two numbers. *)
Definition py_max (a b : Q) : Q := if Qltb a b then b else a.
Definition py_min (a b : Q) : Q := if Qltb b a then b else a.

(** Python [int(x)] on a float: truncation toward zero. *)
Definition py_int (x : Q) : Z := Z.quot (Qnum x) (Zpos (Qden x)).

(** [sum] and [np.mean]. *)
Definition Qsum (l : list Q) : Q := fold_right Qplus 0%Q l.
Definition np_mean (l : list Q) : Q := (Qsum l / inject_Z (Z.of_nat (length l)))%Q.

(** [np.linspace start stop num]: [num] evenly spaced samples, the last
    one set to [stop] itself. *)
Definition linspace (start stop : Q) (num : nat) : list Q :=
  match num with
  | O => []
  | S O => [start]
  | S n =>
      let step := ((stop - start) / inject_Z (Z.of_nat n))%Q in
      map (fun i => (inject_Z (Z.of_nat i) * step + start)%Q) (seq 0 n) ++ [stop]
  end.

(** [np.meshgrid x y] with the default ['xy'] indexing: both grids have
    [len y] rows and [len x] columns. *)
Definition meshgrid (x y : list Q) : list (list Q) * list (list Q) :=
  (map (fun _ => x) y, map (fun yi => map (fun _ => yi) x) y).

(** [a.flatten()] of a grid. *)
Definition flatten {A} (g : list (list A)) : list A := concat g.

Fixpoint chunks {A} (rows cols : nat) (flat : list A) : list (list A) :=
  match rows with
  | O => []
  | S r => take cols flat :: chunks r cols (drop cols flat)
  end.

End Num.

(** ** Binary64 numbers

    The values and the order of the floating point numbers of the
    program, for the functions that are modelled on them. *)

Module Ieee.

(** The exact value of a binary64 number; [None] for an infinity and for
    NaN. *)
Definition float_Q (x : float) : option Q :=
  match Prim2SF x with
  | S754_zero _ => Some 0%Q
  | S754_finite s m e => Some (inject_Z (cond_Zopp s (Zpos m)) * Qpower 2 e)%Q
  | S754_infinity _ | S754_nan => None
  end.

(** The float a Python [int] is converted to; the conversion is exact
    for the integers of the tables. *)
Definition Zfloat (z : Z) : float :=
  if Z.ltb z 0 then PrimFloat.opp (of_uint63 (Uint63.of_Z (- z)))
  else of_uint63 (Uint63.of_Z z).

(** The place of a number in the order of the floats: the sign class,
    then the exponent, then the mantissa; NaN has none. *)
Definition order_key (x : spec_float) : option (Z * Z * Z) :=
  match x with
  | S754_nan => None
  | S754_infinity true => Some (-2, 0, 0)
  | S754_finite true m e => Some (-1, - e, Zneg m)
  | S754_zero _ => Some (0, 0, 0)
  | S754_finite false m e => Some (1, e, Zpos m)
  | S754_infinity false => Some (2, 0, 0)
  end.

Definition triple_lt (a b : Z * Z * Z) : Prop :=
  a.1.1 < b.1.1 \/ (a.1.1 = b.1.1 /\ (a.1.2 < b.1.2 \/ (a.1.2 = b.1.2 /\ a.2 < b.2))).

Definition triple_le (a b : Z * Z * Z) : Prop :=
  a.1.1 < b.1.1 \/ (a.1.1 = b.1.1 /\ (a.1.2 < b.1.2 \/ (a.1.2 = b.1.2 /\ a.2 <= b.2))).

(** [x < y] and [x <= y] on floats, read on the keys. *)
Definition float_lt (x y : float) : Prop :=
  match order_key (Prim2SF x), order_key (Prim2SF y) with
  | Some a, Some b => triple_lt a b
  | _, _ => False
  end.

Definition float_le (x y : float) : Prop :=
  match order_key (Prim2SF x), order_key (Prim2SF y) with
  | Some a, Some b => triple_le a b
  | _, _ => False
  end.

End Ieee.

(** ** Results and logs *)

Inductive result (A : Type) : Type :=
| Ok (a : A)
| Raise (e : string).
Arguments Ok {A} a.
Arguments Raise {A} e.

(** Sequencing of computations that may raise: [x ← r; k]. *)
#[global] Instance result_bind : MBind result :=
  fun A B (k : A -> result B) (r : result A) =>
    match r with
    | Ok a => k a
    | Raise e => Raise e
    end.

Inductive level : Type := INFO | WARNING | ERROR.

(** A call of [logger.info], [logger.warning] or [logger.error]. *)
Definition log_record : Type := level * string.

(** [a.reshape(shape)]: fails unless the sizes agree. *)
Definition reshape {A} (shape : nat * nat) (flat : list A) : result (list (list A)) :=
  let '(rows, cols) := shape in
  if decide (length flat = (rows * cols)%nat)
  then Ok (Num.chunks rows cols flat)
  else Raise "ValueError".

(** ** [preprocessing/modis_processor.py] *)

Module Modis.

Record bounds : Type := Bounds { left : Q; bottom : Q; right : Q; top : Q }.

(** [self.tile_size]: meters per tile. *)
Definition tile_size : Q := 11119505197665 # 10000000.

(** The format [{n:02d}]. *)
Definition fmt02d (n : nat) : string :=
  if decide (n < 10)%nat then "0" +:+ pretty n else pretty n.

Definition tile_name (h v : nat) : string := "h" +:+ fmt02d h +:+ "v" +:+ fmt02d v.

(** The box of a tile in exact arithmetic; [Modis64] has the edges as
    the program rounds them. *)
Definition tile_box (h v : nat) : bounds :=
  let l := (inject_Z (Z.of_nat h - 18) * tile_size)%Q in
  let t := (inject_Z (9 - Z.of_nat v) * tile_size)%Q in
  {| left := l; bottom := (t - tile_size)%Q; right := (l + tile_size)%Q; top := t |}.

(** [_calculate_tile_bounds]: the two nested loops filling the dictionary. *)
Definition _calculate_tile_bounds : gmap string bounds :=
  foldl (fun tiles h =>
           foldl (fun tiles v => <[tile_name h v := tile_box h v]> tiles)
                 tiles (seq 0 12))
        ∅ (seq 14 14).

(** [self.tile_bounds], set by [__init__]. *)
Definition tile_bounds : gmap string bounds := _calculate_tile_bounds.

(** *** [get_tile_from_filename] *)

(** [s.split(sep)] on a one-character separator. *)
Fixpoint split_on (sep : ascii) (s : string) : list string :=
  match s with
  | EmptyString => [EmptyString]
  | String c rest =>
      if Ascii.eqb c sep then EmptyString :: split_on sep rest
      else match split_on sep rest with
           | [] => [String c EmptyString]
           | p :: ps => String c p :: ps
           end
  end.

Fixpoint contains_char (c : ascii) (s : string) : bool :=
  match s with
  | EmptyString => false
  | String d rest => Ascii.eqb c d || contains_char c rest
  end.

Definition startswith_char (c : ascii) (s : string) : bool :=
  match s with
  | EmptyString => false
  | String d _ => Ascii.eqb c d
  end.

Definition get_tile_from_filename (filename : string) : string :=
  match List.find (fun part => startswith_char "h"%char part && contains_char "v"%char part)
                  (split_on "."%char filename) with
  | Some part => part
  | None => "h25v06"
  end.

(** *** [create_geographic_coordinates] *)

Section Coordinates.

(** The geographic coordinate type and the inverse sinusoidal projection
    [Transformer.from_crs(modis_srs, geographic_srs, always_xy=True).transform],
    applied to one point; it returns longitude, then latitude. *)
Context {C : Type} (transform : Q -> Q -> C * C).

Definition lookup_bounds (tile_id : string) : result bounds :=
  match tile_bounds !! tile_id with
  | Some b => Ok b
  | None =>
      match tile_bounds !! "h25v06" with
      | Some b => Ok b
      | None => Raise "KeyError"
      end
  end.

(** The function makes no call of the logger: its log is empty. *)
Definition create_geographic_coordinates (shape : nat * nat) (tile_id : string)
  : result (list (list C) * list (list C)) * list log_record :=
  let '(rows, cols) := shape in
  match lookup_bounds tile_id with
  | Raise e => (Raise e, [])
  | Ok b =>
      let x := Num.linspace (left b) (right b) cols in
      let y := Num.linspace (top b) (bottom b) rows in
      let '(xx, yy) := Num.meshgrid x y in
      let pts := zip_with transform (Num.flatten xx) (Num.flatten yy) in
      let lon := map fst pts in
      let lat := map snd pts in
      match reshape shape lon, reshape shape lat with
      | Ok lon_grid, Ok lat_grid => (Ok (lat_grid, lon_grid), [])
      | Raise e, _ => (Raise e, [])
      | _, Raise e => (Raise e, [])
      end
  end.

End Coordinates.

(** *** [_qc_decode] (local function of [process_modis_lst]) *)

Definition qa_mand (ok_qc : Z) : Z := Z.land ok_qc 3.
Definition qa_data (ok_qc : Z) : Z := Z.land (Z.shiftr ok_qc 2) 3.
Definition lst_err (ok_qc : Z) : Z := Z.land (Z.shiftr ok_qc 5) 1.

(** The decision for one pixel of the QC array. *)
Definition qc_decode_pixel (ok_qc qc_tol : Z) : bool :=
  let mand_ok :=
    if Z.ltb 2 qc_tol then Z.leb (qa_mand ok_qc) 2 else Z.leb (qa_mand ok_qc) 1 in
  let data_ok :=
    if Z.ltb 1 qc_tol then Z.leb (qa_data ok_qc) 2 else Z.leb (qa_data ok_qc) 1 in
  let err_ok := Z.eqb (lst_err ok_qc) 0 in
  mand_ok && data_ok && err_ok.

(** The mask of a two-dimensional QC array. *)
Definition _qc_decode (ok_qc : list (list Z)) (qc_tol : Z) : list (list bool) :=
  map (map (fun q => qc_decode_pixel q qc_tol)) ok_qc.

(** [int(mask.sum())]: the number of accepted pixels. *)
Definition count_true (mask : list (list bool)) : nat :=
  length (filter (fun b => b = true) (concat mask)).

(** A small QC raster: best quality, fair mandatory QA, poor data
    quality, the error bit, both relaxations at once, poor mandatory QA. *)
Definition qc_sample : list (list Z) := [[0; 2; 8]; [32; 10; 3]].

End Modis.

(** ** [preprocessing/data_processor.py]: class [DataNormalizer]

    The arrays handled here are flat lists of finite values, and the
    arithmetic is exact.  The module [Binary64] below has the same
    functions on binary64 numbers: there the score of 34 degrees is
    56.00000000000001, the flood risk of 33.3 mm with a soil moisture of
    0.14 is 0.7499999999999999, and the sub-index of 2.4 of NO2 is 3. *)

Module DataNormalizer.
Import Num.

(** [np.vectorize(f)(a)]: refuses an array of size 0. *)
Definition np_vectorize {A B} (f : A -> B) (a : list A) : result (list B) :=
  match a with
  | [] => Raise "ValueError"
  | _ => Ok (map f a)
  end.

(** *** [normalize_temperature] *)

Definition classify_heat_stress (temp : Q) : string :=
  if Qltb temp 30 then "Low"
  else if Qltb temp 35 then "Moderate"
  else if Qltb temp 40 then "High"
  else "Extreme".

Definition temperature_score (temp : Q) : Q :=
  np_clip ((temp - 20) / 25 * 100)%Q 0 100.

(** The dictionary returned by [normalize_temperature]; the first two
    keys are absent when the [except] branch is taken. *)
Record temperature_result : Type := {
  temperature_normalized : option (list Q);
  heat_stress_category : option (list string);
  temperature_celsius : list Q
}.

Definition normalize_temperature (temp_celsius : list Q)
  : temperature_result * list log_record :=
  match np_vectorize classify_heat_stress temp_celsius with
  | Raise e =>
      ({| temperature_normalized := None; heat_stress_category := None;
          temperature_celsius := temp_celsius |},
       [(ERROR, "Error normalizing temperature: {e}")])
  | Ok heat_categories =>
      let temp_normalized := map temperature_score temp_celsius in
      ({| temperature_normalized := Some temp_normalized;
          heat_stress_category := Some heat_categories;
          temperature_celsius := temp_celsius |}, [])
  end.

(** *** [normalize_air_quality]: the breakpoint tables and [calculate_aqi] *)

(** A breakpoint [(c_low, c_high, aqi_low, aqi_high)]. *)
Definition breakpoint : Type := Z * Z * Z * Z.

Definition aqi_breakpoints : gmap string (list breakpoint) :=
  <["pm25" := [(0, 30, 0, 50); (30, 60, 51, 100); (60, 90, 101, 200);
               (90, 120, 201, 300); (120, 250, 301, 400)]]>
  (<["pm10" := [(0, 50, 0, 50); (50, 100, 51, 100); (100, 250, 101, 200);
                (250, 350, 201, 300); (350, 430, 301, 400)]]>
  (<["no2" := [(0, 40, 0, 50); (40, 80, 51, 100); (80, 180, 101, 200);
               (180, 280, 201, 300); (280, 400, 301, 400)]]>
  (<["so2" := [(0, 40, 0, 50); (40, 80, 51, 100); (80, 380, 101, 200);
               (380, 800, 201, 300); (800, 1600, 301, 400)]]> ∅))).

(** [c_low <= concentration <= c_high]. *)
Definition in_piece (bp : breakpoint) (concentration : Q) : bool :=
  let '(c_low, c_high, _, _) := bp in
  Qleb (inject_Z c_low) concentration && Qleb concentration (inject_Z c_high).

(** The value [aqi] computed in the body of the loop for one piece. *)
Definition piece_value (bp : breakpoint) (concentration : Q) : Q :=
  let '(c_low, c_high, aqi_low, aqi_high) := bp in
  ((inject_Z (aqi_high - aqi_low) / inject_Z (c_high - c_low))
   * (concentration - inject_Z c_low) + inject_Z aqi_low)%Q.

(** The loop over the pieces: the first piece that holds the
    concentration decides, and 400 is returned when none does. *)
Fixpoint aqi_loop (breakpoints : list breakpoint) (concentration : Q) : Z :=
  match breakpoints with
  | [] => 400
  | bp :: rest =>
      if in_piece bp concentration then py_int (piece_value bp concentration)
      else aqi_loop rest concentration
  end.

Definition calculate_aqi (concentration : Q) (pollutant : string) : Z :=
  match aqi_breakpoints !! pollutant with
  | None => 50
  | Some breakpoints => aqi_loop breakpoints concentration
  end.

Definition classify_aqi (aqi : Z) : string :=
  if Z.leb aqi 50 then "Good"
  else if Z.leb aqi 100 then "Moderate"
  else if Z.leb aqi 200 then "Poor"
  else if Z.leb aqi 300 then "Very Poor"
  else "Severe".

(** *** [normalize_precipitation] *)

Definition classify_precip (precip : Q) : string :=
  if Qltb precip (5 # 2) then "Light"
  else if Qltb precip 10 then "Moderate"
  else if Qltb precip 35 then "Heavy"
  else "Very Heavy".

Definition classify_flood_risk (risk : Q) : string :=
  if Qltb risk (1 # 4) then "Low"
  else if Qltb risk (1 # 2) then "Medium"
  else if Qltb risk (3 # 4) then "High"
  else "Critical".

(** The flood risk of one pixel; [soil_moisture] is [None] when the
    argument is not given. *)
Definition flood_risk_pixel (precip : Q) (soil_moisture : option Q) : Q :=
  let flood_risk := np_clip (precip / 50)%Q 0 1 in
  match soil_moisture with
  | None => flood_risk
  | Some m =>
      let soil_factor := np_clip (m / (1 # 2))%Q 0 1 in
      np_minimum (flood_risk + soil_factor * (3 # 10))%Q 1
  end.

(** NumPy broadcasting of two one-dimensional arrays. *)
Definition broadcast2 {A B D} (f : A -> B -> D) (a : list A) (b : list B)
  : result (list D) :=
  if decide (length a = length b) then Ok (zip_with f a b)
  else match a, b with
       | [x], _ => Ok (map (f x) b)
       | _, [y] => Ok (map (fun x => f x y) a)
       | _, _ => Raise "ValueError"
       end.

Record precipitation_result : Type := {
  precipitation_mm : list Q;
  precipitation_category : option (list string);
  flood_risk_score : option (list Q);
  flood_risk_category : option (list string)
}.

Definition precipitation_failure (precip_data : list Q)
  : precipitation_result * list log_record :=
  ({| precipitation_mm := precip_data; precipitation_category := None;
      flood_risk_score := None; flood_risk_category := None |},
   [(ERROR, "Error normalizing precipitation: {e}")]).

Definition normalize_precipitation (precip_data : list Q) (soil_moisture : option (list Q))
  : precipitation_result * list log_record :=
  match np_vectorize classify_precip precip_data with
  | Raise _ => precipitation_failure precip_data
  | Ok precip_categories =>
      let flood_risk :=
        match soil_moisture with
        | None => Ok (map (fun p => flood_risk_pixel p None) precip_data)
        | Some soil => broadcast2 (fun p m => flood_risk_pixel p (Some m)) precip_data soil
        end in
      match flood_risk with
      | Raise _ => precipitation_failure precip_data
      | Ok flood_risk =>
          match np_vectorize classify_flood_risk flood_risk with
          | Raise _ => precipitation_failure precip_data
          | Ok flood_categories =>
              ({| precipitation_mm := precip_data;
                  precipitation_category := Some precip_categories;
                  flood_risk_score := Some flood_risk;
                  flood_risk_category := Some flood_categories |}, [])
          end
      end
  end.

(** The components of a breakpoint, the upper end of a table, and the
    shape every piece of the tables has. *)
Definition c_low (bp : breakpoint) : Z := bp.1.1.1.
Definition c_high (bp : breakpoint) : Z := bp.1.1.2.
Definition aqi_low (bp : breakpoint) : Z := bp.1.2.
Definition aqi_high (bp : breakpoint) : Z := bp.2.
Definition table_upper (bps : list breakpoint) : Z := c_high (List.last bps (0, 0, 0, 0)).
Definition well_formed (bp : breakpoint) : Prop :=
  c_low bp < c_high bp /\ 0 <= aqi_low bp <= aqi_high bp.

(** The temperatures of the first end-to-end scenario. *)
Definition scenario_temperatures : list Q := [28; 30; 32; 34; 36; 38]%Q.

End DataNormalizer.

(** ** [recommendations/recommendation_engine.py] *)

Module Engine.
Import Num.

Inductive InterventionType : Type :=
| AIR_QUALITY | HEAT_MITIGATION | FLOOD_DEFENSE | HEALTHCARE | GREEN_SPACE | INFRASTRUCTURE.

Inductive Priority : Type := CRITICAL | HIGH | MEDIUM | LOW.

Record Recommendation : Type := {
  ward_number : Z;
  ward_name : string;
  intervention_type : InterventionType;
  priority : Priority;
  title : string;
  description : string;
  estimated_cost_usd : Q;
  estimated_impact : string;
  implementation_timeline : string;
  affected_population : Z;
  metrics : list (string * Q);
  coordinates : option (Q * Q)
}.

(** *** Data frames

    A frame is column oriented: the length of its index and its named
    columns, each of which holds one cell per index entry. *)

Inductive cell : Type := CNum (q : Q) | CStr (s : string).

Record DataFrame : Type := {
  index_len : nat;
  columns : gmap string (list cell)
}.

Definition frame_ok (df : DataFrame) : Prop :=
  forall name col, columns df !! name = Some col -> length col = index_len df.

(** [pd.DataFrame()]. *)
Definition empty_frame : DataFrame := {| index_len := 0; columns := ∅ |}.

(** [df.empty]: some axis has length 0. *)
Definition df_empty (df : DataFrame) : bool :=
  Nat.eqb (index_len df) 0 || Nat.eqb (size (columns df)) 0.

(** [df[name]]. *)
Definition column (df : DataFrame) (name : string) : result (list cell) :=
  match columns df !! name with
  | Some col => Ok col
  | None => Raise "KeyError"
  end.

Fixpoint numeric (col : list cell) : result (list Q) :=
  match col with
  | [] => Ok []
  | CNum q :: rest => qs ← numeric rest; Ok (q :: qs)
  | CStr _ :: _ => Raise "TypeError"
  end.

(** [df[name].mean()] of a numeric column. *)
Definition column_mean (df : DataFrame) (name : string) : result Q :=
  col ← column df name;
  qs ← numeric col;
  Ok (np_mean qs).

(** [len(df[df[name] == value])]. *)
Definition count_equal (df : DataFrame) (name value : string) : result nat :=
  col ← column df name;
  Ok (length (List.filter (fun c => match c with
                                    | CStr s => String.eqb s value
                                    | CNum _ => false
                                    end) col)).

(** [len(df[df[name] >= bound])]. *)
Definition count_at_least (df : DataFrame) (name : string) (bound : Q) : result nat :=
  col ← column df name;
  qs ← numeric col;
  Ok (length (List.filter (fun q => Qleb bound q) qs)).

(** *** [generate_all_recommendations] *)

Definition priority_order (p : Priority) : Z :=
  match p with
  | CRITICAL => 0
  | HIGH => 1
  | MEDIUM => 2
  | LOW => 3
  end.

(** The sort key [(priority_order[x.priority], -x.affected_population)]. *)
Definition sort_key (x : Recommendation) : Z * Z :=
  (priority_order (priority x), - affected_population x).

(** [<] on tuples of two integers. *)
Definition tuple_ltb (a b : Z * Z) : bool :=
  Z.ltb a.1 b.1 || (Z.eqb a.1 b.1 && Z.ltb a.2 b.2).

(** [list.sort(key=...)] is a stable sort; it is modelled by the stable
    insertion sort, which compares keys with [<] only. *)
Fixpoint insert_by {A} (key : A -> Z * Z) (x : A) (l : list A) : list A :=
  match l with
  | [] => [x]
  | y :: rest =>
      if tuple_ltb (key y) (key x) then y :: insert_by key x rest
      else x :: y :: rest
  end.

Definition list_sort {A} (key : A -> Z * Z) (l : list A) : list A :=
  foldr (insert_by key) [] l.

Definition sort_recommendations (recs : list Recommendation) : list Recommendation :=
  list_sort sort_key recs.

Section Generators.

(** The [generate_recommendations] methods of the five generators; each
    catches its own exceptions and returns a list. *)
Context (air_quality_generator : DataFrame -> DataFrame -> list Recommendation).
Context (heat_mitigation_generator
           : DataFrame -> DataFrame -> DataFrame -> list Recommendation).
Context (flood_defense_generator : DataFrame -> DataFrame -> list Recommendation).
Context (healthcare_generator : DataFrame -> DataFrame -> list Recommendation).
Context (green_space_generator : DataFrame -> list Recommendation).

(** The list [all_recommendations] before it is sorted. *)
Definition collect_recommendations (analysis_results : gmap string DataFrame)
  : list Recommendation :=
  let air :=
    match analysis_results !! "ward_air_quality", analysis_results !! "air_quality_hotspots" with
    | Some w, Some h => air_quality_generator w h
    | _, _ => []
    end in
  let heat :=
    match analysis_results !! "heat_islands" with
    | Some h =>
        heat_mitigation_generator h
          (default empty_frame (analysis_results !! "cooling_analysis")) empty_frame
    | None => []
    end in
  let flood :=
    match analysis_results !! "drainage_analysis", analysis_results !! "flood_zones" with
    | Some d, Some z => flood_defense_generator d z
    | _, _ => []
    end in
  let health :=
    match analysis_results !! "healthcare_capacity", analysis_results !! "healthcare_gaps" with
    | Some c, Some g => healthcare_generator c g
    | _, _ => []
    end in
  let green :=
    match analysis_results !! "green_space_deficits" with
    | Some g => green_space_generator g
    | None => []
    end in
  air ++ heat ++ flood ++ health ++ green.

Definition generate_all_recommendations (analysis_results : gmap string DataFrame)
  : list Recommendation :=
  sort_recommendations (collect_recommendations analysis_results).

End Generators.

(** The order of the keys: [b] does not sort before [a]. *)
Definition key_le {A} (key : A -> Z * Z) (a b : A) : Prop :=
  tuple_ltb (key b) (key a) = false.

(** The order the specification describes: an earlier tier, or the same
    tier and at least as many people affected. *)
Definition ranked_before (a b : Recommendation) : Prop :=
  priority_order (priority a) < priority_order (priority b) \/
  (priority a = priority b /\ affected_population b <= affected_population a).

(** A recommendation with the given tier and affected population. *)
Definition sample_recommendation (p : Priority) (population : Z) : Recommendation :=
  {| ward_number := 1; ward_name := "Ward 1"; intervention_type := INFRASTRUCTURE;
     priority := p; title := "Sample"; description := "Sample intervention";
     estimated_cost_usd := 0;
     estimated_impact := "Medium"; implementation_timeline := "6-12 months";
     affected_population := population; metrics := []; coordinates := None |}.

#[global] Instance Priority_eq_dec : EqDecision Priority.
Proof. solve_decision. Defined.

(** Analysis results holding an empty frame under the keys the air
    quality, heat and green space generators are called for. *)
Definition three_sources : gmap string DataFrame :=
  <["ward_air_quality" := empty_frame]>
  (<["air_quality_hotspots" := empty_frame]>
  (<["heat_islands" := empty_frame]>
  (<["green_space_deficits" := empty_frame]> ∅))).

(** *** [calculate_city_resilience_score] *)

(** A dictionary from names to numbers, in insertion order. *)
Definition dict : Type := list (string * Q).

Fixpoint dict_set (k : string) (v : Q) (d : dict) : dict :=
  match d with
  | [] => [(k, v)]
  | (k', v') :: rest =>
      if String.eqb k k' then (k, v) :: rest else (k', v') :: dict_set k v rest
  end.

Fixpoint dict_get (k : string) (d : dict) : option Q :=
  match d with
  | [] => None
  | (k', v') :: rest => if String.eqb k k' then Some v' else dict_get k rest
  end.

Definition dict_values (d : dict) : list Q := map snd d.

Definition initial_scores : dict :=
  [("air_quality_score", 50%Q); ("heat_resilience_score", 50%Q);
   ("flood_resilience_score", 50%Q); ("healthcare_access_score", 50%Q);
   ("green_space_score", 50%Q); ("overall_resilience_score", 50%Q)].

(** The air quality score of a mean AQI: the chain of [if]s followed by
    [max(0, ...)]. *)
Definition air_quality_points (avg_aqi : Q) : Q :=
  let score :=
    if Qleb avg_aqi 50 then 100%Q
    else if Qleb avg_aqi 100 then (100 - (avg_aqi - 50))%Q
    else if Qleb avg_aqi 200 then (50 - (avg_aqi - 100) * (3 # 10))%Q
    else if Qleb avg_aqi 300 then (20 - (avg_aqi - 200) * (2 # 10))%Q
    else 0%Q in
  py_max 0 score.

(** A count used as a number. *)
Definition Qnat (n : nat) : Q := inject_Z (Z.of_nat n).

(** The five blocks of the function, in the order of the source: air
    quality, heat, healthcare, green space, flood.  Each one updates its
    own key of [scores] or leaves the dictionary as it is. *)
Definition score_air (analysis_results : gmap string DataFrame) (scores : dict)
  : result dict :=
  match analysis_results !! "ward_air_quality" with
  | Some ward_air =>
      if df_empty ward_air then Ok scores
      else
        avg_aqi ← column_mean ward_air "mean_aqi";
        Ok (dict_set "air_quality_score" (air_quality_points avg_aqi) scores)
  | None => Ok scores
  end.

Definition score_heat (analysis_results : gmap string DataFrame) (scores : dict)
  : result dict :=
  match analysis_results !! "heat_islands" with
  | Some heat_islands =>
      if df_empty heat_islands then Ok scores
      else
        let total_area := index_len heat_islands in
        if Nat.ltb 0 total_area then
          let heat_coverage := py_min (Qnat total_area / 1000)%Q 1 in
          Ok (dict_set "heat_resilience_score" (py_max 0 (100 - heat_coverage * 80)%Q) scores)
        else Ok scores
  | None => Ok scores
  end.

Definition score_healthcare (analysis_results : gmap string DataFrame) (scores : dict)
  : result dict :=
  match analysis_results !! "healthcare_gaps" with
  | Some health_gaps =>
      if df_empty health_gaps then Ok scores
      else
        critical_gaps ← count_equal health_gaps "priority" "Critical";
        let total_gaps := index_len health_gaps in
        if Nat.ltb 0 total_gaps then
          let gap_ratio := (Qnat critical_gaps / Qnat total_gaps)%Q in
          Ok (dict_set "healthcare_access_score" (py_max 0 (100 - gap_ratio * 100)%Q) scores)
        else Ok scores
  | None =>
      match analysis_results !! "healthcare_capacity" with
      | Some health_cap =>
          if df_empty health_cap then Ok scores
          else
            avg_facilities_per_1000 ← column_mean health_cap "facilities_per_1000";
            Ok (dict_set "healthcare_access_score"
                  (py_min 100 (avg_facilities_per_1000 * 100)%Q) scores)
      | None => Ok scores
      end
  end.

Definition score_green (analysis_results : gmap string DataFrame) (scores : dict)
  : result dict :=
  match analysis_results !! "green_space_deficits" with
  | Some green_def =>
      if df_empty green_def then Ok scores
      else
        avg_green_score ← column_mean green_def "combined_green_score";
        Ok (dict_set "green_space_score" avg_green_score scores)
  | None => Ok scores
  end.

Definition score_flood (analysis_results : gmap string DataFrame) (scores : dict)
  : result dict :=
  match analysis_results !! "flood_zones" with
  | Some flood_zones =>
      if df_empty flood_zones then Ok scores
      else
        high_risk_zones ← count_at_least flood_zones "flood_risk_score" (1 # 2);
        let total_zones := index_len flood_zones in
        if Nat.ltb 0 total_zones then
          let risk_ratio := (Qnat high_risk_zones / Qnat total_zones)%Q in
          Ok (dict_set "flood_resilience_score" (py_max 0 (100 - risk_ratio * 80)%Q) scores)
        else Ok scores
  | None =>
      match analysis_results !! "drainage_analysis" with
      | Some drainage_data =>
          if df_empty drainage_data then Ok scores
          else
            avg_flood_risk ← column_mean drainage_data "avg_flood_risk";
            Ok (dict_set "flood_resilience_score"
                  (py_max 0 (100 - avg_flood_risk * 100)%Q) scores)
      | None => Ok scores
      end
  end.

(** The dictionary [scores] at the end of the [try] block. *)
Definition calculate_scores (analysis_results : gmap string DataFrame) : result dict :=
  scores ← score_air analysis_results initial_scores;
  scores ← score_heat analysis_results scores;
  scores ← score_healthcare analysis_results scores;
  scores ← score_green analysis_results scores;
  scores ← score_flood analysis_results scores;
  Ok (dict_set "overall_resilience_score"
        (np_mean (removelast (dict_values scores))) scores).

Definition _determine_city_status (overall_score : Q) : string :=
  if Qleb 80 overall_score then "Highly Resilient"
  else if Qleb 65 overall_score then "Moderately Resilient"
  else if Qleb 50 overall_score then "Developing Resilience"
  else if Qleb 35 overall_score then "Vulnerable"
  else "Highly Vulnerable".

Record recommendations_summary : Type := {
  total_recommendations : nat;
  critical_priority : nat;
  high_priority : nat;
  medium_priority : nat;
  low_priority : nat;
  total_estimated_cost_usd : Q;
  avg_cost_per_recommendation : Q
}.

(** [rec.priority == p] on the members of the enumeration. *)
Definition priority_eqb (p q : Priority) : bool :=
  Z.eqb (priority_order p) (priority_order q).

Definition count_priority (p : Priority) (recommendations : list Recommendation) : nat :=
  length (List.filter (fun rec => priority_eqb (priority rec) p) recommendations).

Definition summarize (recommendations : list Recommendation) : recommendations_summary :=
  let total_cost := Qsum (map estimated_cost_usd recommendations) in
  {| total_recommendations := length recommendations;
     critical_priority := count_priority CRITICAL recommendations;
     high_priority := count_priority HIGH recommendations;
     medium_priority := count_priority MEDIUM recommendations;
     low_priority := count_priority LOW recommendations;
     total_estimated_cost_usd := total_cost;
     avg_cost_per_recommendation :=
       match recommendations with
       | [] => 0%Q
       | _ => (total_cost / Qnat (length recommendations))%Q
       end |}.

(** The returned dictionary; the last two keys are absent when the
    [except] branch is taken. *)
Record resilience_report : Type := {
  resilience_scores : dict;
  summary : option recommendations_summary;
  city_status : option string
}.

Definition calculate_city_resilience_score
    (analysis_results : gmap string DataFrame) (recommendations : list Recommendation)
  : resilience_report :=
  match calculate_scores analysis_results with
  | Ok scores =>
      {| resilience_scores := scores;
         summary := Some (summarize recommendations);
         city_status :=
           Some (_determine_city_status
                   (default 0%Q (dict_get "overall_resilience_score" scores))) |}
  | Raise _ =>
      {| resilience_scores := [("overall_resilience_score", 50%Q)];
         summary := None; city_status := None |}
  end.

(** [combined_green_score] as [identify_green_space_deficits] of
    [analytics/urban_analytics.py] computes it for a ward, from the green
    space per person (target 9 square metres) and the NDVI green score. *)
Definition combined_green_score (green_space_per_person ndvi_green_score : Q) : Q :=
  (green_space_per_person / 9 * 50 + ndvi_green_score / 2)%Q.

(** A city whose only analysed ward has 27 square metres of green space
    per person and no vegetation raster. *)
Definition green_city : gmap string DataFrame :=
  {[ "green_space_deficits" :=
       {| index_len := 1;
          columns := {[ "combined_green_score" := [CNum (combined_green_score 27 0)] ]} |} ]}.


(** The dictionary [scores] with its six keys. *)
Definition scores_shape (a h f hc g o : Q) : dict :=
  [("air_quality_score", a); ("heat_resilience_score", h);
   ("flood_resilience_score", f); ("healthcare_access_score", hc);
   ("green_space_score", g); ("overall_resilience_score", o)].

(** A score on the scale from 0 to 100. *)
Definition in_range (x : Q) : Prop := (0 <= x)%Q /\ (x <= 100)%Q.

End Engine.

(** ** [data_ingestion/real_nasa_apis.py]: [_process_omi_hdf_file]

    The arrays of a swath (latitude, longitude, data) are given as flat
    lists; the values they hold are binary64 numbers.  Arrays of the same
    shape are lists of the same length, and where NumPy refuses the shapes
    of two arrays the lists differ in length. *)

Module Omi.
Import Num.

(** A floating point value that may be NaN. *)
Inductive fval : Type := NaN | Fin (q : Q).

Definition fmul (a b : fval) : fval :=
  match a, b with
  | Fin x, Fin y => Fin (x * y)%Q
  | _, _ => NaN
  end.

(** [a <= b]: false as soon as one side is NaN. *)
Definition fleb (a b : fval) : bool :=
  match a, b with
  | Fin x, Fin y => Qleb x y
  | _, _ => false
  end.

(** [settings.mumbai_bounds] of [config.py]. *)
Record region : Type := { north : Q; south : Q; east : Q; west : Q }.

Definition mumbai_bounds : region :=
  {| north := 193 # 10; south := 188 # 10; east := 729 # 10; west := 727 # 10 |}.

(** The four bounds of [mumbai_mask] with [buffer = 0.1], computed on
    binary64 numbers as the program computes them: [south - buffer] is the
    float 18.7, which is below 18.7; [north + buffer] is
    19.400000000000002; [west - buffer] is 72.60000000000001 and
    [east + buffer] is 73.  The decimal literals are written as the
    quotients they round. *)
Definition float_value (x : float) : Q := default 0%Q (Ieee.float_Q x).

Definition south_bound : Q := float_value (188 / 10 - 1 / 10)%float.
Definition north_bound : Q := float_value (193 / 10 + 1 / 10)%float.
Definition west_bound : Q := float_value (727 / 10 - 1 / 10)%float.
Definition east_bound : Q := float_value (729 / 10 + 1 / 10)%float.

(** One entry of [mumbai_mask]. *)
Definition in_buffered_bounds (lat lon : fval) : bool :=
  fleb (Fin south_bound) lat
  && fleb lat (Fin north_bound)
  && fleb (Fin west_bound) lon
  && fleb lon (Fin east_bound).

(** The entries of [a] that [mask] keeps. *)
Definition select {A} (mask : list bool) (a : list A) : list A :=
  map snd (List.filter fst (zip mask a)).

(** [a[mask]]: refused unless the mask has the shape of the array. *)
Definition boolean_index {A} (mask : list bool) (a : list A) : result (list A) :=
  if decide (length mask = length a) then Ok (select mask a)
  else Raise "IndexError".

(** [x] for a value that is not NaN and is greater than 0. *)
Definition positive (v : fval) : option Q :=
  match v with
  | Fin x => if Qltb 0 x then Some x else None
  | NaN => None
  end.

(** [np.nanmean] of values that are not NaN: NaN for an empty array. *)
Definition nanmean (l : list Q) : fval :=
  match l with
  | [] => NaN
  | _ => Fin (np_mean l)
  end.

(** [np.nanmean(main_data[main_data > 0])]. *)
Definition global_mean (main_data : list fval) : fval :=
  nanmean (omap positive main_data).

(** A satellite pixel kept for the interpolation: latitude, longitude
    and a valid value. *)
Definition valid_pixel (p : fval * fval * fval) : option (Q * Q * Q) :=
  match p with
  | (Fin lat, Fin lon, v) =>
      match positive v with
      | Some x => Some (lat, lon, x)
      | None => None
      end
  | _ => None
  end.

(** The weight [1.0 / (distances**2 + 1e-10)] of a satellite pixel for a
    grid point. *)
Definition idw_weight (glat glon slat slon : Q) : Q :=
  (1 / ((glat - slat) * (glat - slat) + (glon - slon) * (glon - slon)
        + (1 # 10000000000)))%Q.

Definition idw_point (sat : list (Q * Q * Q)) (glat glon : Q) : Q :=
  let weights := map (fun p => idw_weight glat glon p.1.1 p.1.2) sat in
  (Qsum (zip_with Qmult weights (map snd sat)) / Qsum weights)%Q.

Definition idw_grid (sat : list (Q * Q * Q)) (lats lons : list Q) : list (list fval) :=
  map (fun glat => map (fun glon => Fin (idw_point sat glat glon)) lons) lats.

Definition scale (grid : list (list fval)) (k : fval) : list (list fval) :=
  map (map (fun v => fmul v k)) grid.

(** The content of an HDF-EOS file: an array of a swath with the number
    of its dimensions and its values in row-major order, a swath with its
    data fields in the order of iteration and its geolocation fields,
    and the group [f['HDFEOS']['SWATHS']] of a file, [None] when the file
    has no such group. *)
Record array : Type := { ndim : nat; values : list fval }.

Record swath : Type := {
  data_fields : list (string * array);
  geo_fields : gmap string (list fval)
}.

Definition hdf_file : Type := option (list (string * swath)).

(** The dataset returned for a product. *)
Record dataset : Type := {
  lat : list Q;
  lon : list Q;
  data_vars : list (string * list (list fval))
}.

Definition omi_data_vars (product : string) (grid_data : list (list fval))
  : list (string * list (list fval)) :=
  let index := scale grid_data (Fin (inject_Z (10 ^ 15))) in
  if String.eqb product "OMNO2" then
    [("NO2_column", grid_data); ("air_quality_index", index)]
  else if String.eqb product "OMSO2" then
    [("SO2_column", grid_data); ("air_quality_index", index)]
  else [("air_quality_index", grid_data)].

Section Swath.

(** The random draws: [np.random.lognormal(0, 0.3, (25, 25))], the draw
    [np.random.lognormal(np.log(global_mean + 1e-10), sigma, (25, 25))]
    as a function of the mean and of the standard deviation of the swath,
    and [np.nanstd]. *)
Context (lognormal_unit : list (list fval)).
Context (lognormal_from_stats : fval -> fval -> list (list fval)).
Context (nanstd : list Q -> fval).

(** The grid over the region: [grid_data], with the log of the branch
    taken, or the exception raised by the mask or by an indexing with
    it.  The texts are the format strings of the logger calls. *)
Definition region_grid (lat_data lon_data : option (list fval)) (main_data : list fval)
  : result (list (list fval) * list log_record) :=
  let lats := linspace (south mumbai_bounds) (north mumbai_bounds) 25 in
  let lons := linspace (west mumbai_bounds) (east mumbai_bounds) 25 in
  match lat_data, lon_data with
  | Some lat_data, Some lon_data =>
      mumbai_mask ← DataNormalizer.broadcast2 in_buffered_bounds lat_data lon_data;
      if existsb id mumbai_mask then
        let mumbai_pixels := length (List.filter id mumbai_mask) in
        if Nat.ltb 5 mumbai_pixels then
          mumbai_lats ← boolean_index mumbai_mask lat_data;
          mumbai_lons ← boolean_index mumbai_mask lon_data;
          mumbai_values ← boolean_index mumbai_mask main_data;
          let valid := omap valid_pixel (zip (zip mumbai_lats mumbai_lons) mumbai_values) in
          match valid with
          | _ :: _ =>
              Ok (idw_grid valid lats lons,
                  [(INFO, "REAL OMI DATA: {len(valid_values)} satellite pixels over Mumbai");
                   (INFO, "Coverage: {coverage_fraction:.1%}, Mean {var_name}: {mean_val:.2e}");
                   (INFO, "Interpolated to 25x25 Mumbai grid using real satellite observations")])
          | [] =>
              let mean := global_mean main_data in
              let std := nanstd (omap positive main_data) in
              Ok (lognormal_from_stats mean std,
                  [(INFO, "Using global swath statistics: mean={global_mean:.2e}, std={global_std:.2e}");
                   (INFO, "Created statistically-informed Mumbai grid (no valid pixels in region)")])
          end
        else
          Ok (scale lognormal_unit (global_mean main_data),
              [(INFO, "Created statistically-informed grid (only {mumbai_pixels} pixels in extended region)")])
      else
        Ok (scale lognormal_unit (global_mean main_data),
            [(INFO, "Created statistically-informed grid (swath does not cover Mumbai region)")])
  | _, _ =>
      Ok (scale lognormal_unit (global_mean main_data),
          [(INFO, "Created statistically-informed grid (no coordinate data)")])
  end.

(** The choice of the data variable: the first preferred name that is
    present, else the first field with at least two dimensions. *)
Definition preferred_variables (product : string) : list string :=
  if String.eqb product "OMNO2"
  then ["ColumnAmountNO2Trop"; "ColumnAmountNO2"; "NO2TroposphericColumn"]
  else if String.eqb product "OMSO2"
  then ["ColumnAmountSO2_PBL"; "ColumnAmountSO2"; "SO2ColumnAmount"]
  else [].

Definition field (fields : list (string * array)) (name : string) : option array :=
  snd <$> List.find (fun f => String.eqb f.1 name) fields.

Definition select_variable (product : string) (fields : list (string * array))
  : option array * list log_record :=
  match List.find (fun var => bool_decide (is_Some (field fields var)))
                  (preferred_variables product) with
  | Some var =>
      (field fields var,
       [(INFO, if String.eqb product "OMNO2" then "Found NO2 variable: {var}"
               else "Found SO2 variable: {var}")])
  | None =>
      match List.find (fun f => Nat.leb 2 (ndim f.2)) fields with
      | Some f => (Some f.2, [(INFO, "Using fallback variable: {var_key}")])
      | None => (None, [])
      end
  end.

(** [_process_omi_hdf_file]; [None] is the unavailable signal.  An
    exception raised in the body is caught by the [except] clause of the
    function, which logs an error and returns [None]. *)
Definition _process_omi_hdf_file (f : hdf_file) (product : string)
  : option dataset * list log_record :=
  let start := (INFO, "Processing OMI {product} HDF-EOS file...") in
  match f with
  | None => (None, [start; (WARNING, "Invalid HDF-EOS structure")])
  | Some swaths =>
      let found := (INFO, "Found swaths: {swath_names}") in
      match swaths with
      | [] => (None, [start; found])
      | (_, swath) :: _ =>
          let fields := (INFO, "Data fields available: {list(data_fields.keys())[:3]}") in
          let lat_data := geo_fields swath !! "Latitude" in
          let lon_data := geo_fields swath !! "Longitude" in
          let '(main_data, chosen) := select_variable product (data_fields swath) in
          match values <$> main_data with
          | Some (v :: rest) =>
              match region_grid lat_data lon_data (v :: rest) with
              | Ok (grid_data, log) =>
                  (Some {| lat := linspace (south mumbai_bounds) (north mumbai_bounds) 25;
                           lon := linspace (west mumbai_bounds) (east mumbai_bounds) 25;
                           data_vars := omi_data_vars product grid_data |},
                   [start; found; fields] ++ chosen
                   ++ [(INFO, "Extracted {var_name} with shape {main_data.shape}")] ++ log
                   ++ [(INFO, "REAL OMI DATA LOADED! Variables: {list(processed_ds.variables.keys())}")])
              | Raise _ =>
                  (None,
                   [start; found; fields] ++ chosen
                   ++ [(INFO, "Extracted {var_name} with shape {main_data.shape}");
                       (ERROR, "Error processing OMI HDF file: {e}")])
              end
          | _ =>
              (None,
               [start; found; fields] ++ chosen
               ++ [(WARNING, "No suitable data variables found in {product} file")])
          end
      end
  end.

End Swath.

(** A swath of two pixels over the Atlantic, with NO2 columns of 3e15
    and 2e15 molecules per square centimetre. *)
Definition atlantic_lat : list fval := [Fin 40; Fin (401 # 10)].
Definition atlantic_lon : list fval := [Fin (-30); Fin (-301 # 10)].
Definition atlantic_no2 : list fval :=
  [Fin (inject_Z (3 * 10 ^ 15)); Fin (inject_Z (2 * 10 ^ 15))].

(** A swath with six pixels over the city, none of which holds a valid
    value, and one valid pixel elsewhere. *)
Definition cloudy_lat : list fval :=
  [Fin 19; Fin 19; Fin 19; Fin 19; Fin 19; Fin 19; Fin 40].
Definition cloudy_lon : list fval :=
  [Fin (728 # 10); Fin (728 # 10); Fin (728 # 10); Fin (728 # 10);
   Fin (728 # 10); Fin (728 # 10); Fin (-30)].
Definition cloudy_no2 : list fval :=
  [NaN; NaN; Fin (-1); NaN; Fin 0; NaN; Fin (inject_Z (3 * 10 ^ 15))].

Definition swath_file (lat lon no2 : list fval) : hdf_file :=
  Some [("ColumnAmountNO2",
         {| data_fields := [("ColumnAmountNO2Trop", {| ndim := 2; values := no2 |})];
            geo_fields := {[ "Latitude" := lat; "Longitude" := lon ]} |})].

Definition atlantic_file : hdf_file := swath_file atlantic_lat atlantic_lon atlantic_no2.

(** Six pixels over the city, one of them at the longitude 72.6, which is
    west of the western bound 72.60000000000001. *)
Definition edge_lat : list fval := [Fin 19; Fin 19; Fin 19; Fin 19; Fin 19; Fin 19].
Definition edge_lon : list fval :=
  [Fin (726 # 10); Fin (728 # 10); Fin (728 # 10); Fin (728 # 10); Fin (728 # 10);
   Fin (728 # 10)].
Definition edge_no2 : list fval :=
  [Fin (inject_Z (3 * 10 ^ 15)); Fin (inject_Z (3 * 10 ^ 15)); Fin (inject_Z (3 * 10 ^ 15));
   Fin (inject_Z (3 * 10 ^ 15)); Fin (inject_Z (3 * 10 ^ 15)); Fin (inject_Z (3 * 10 ^ 15))].

(** Seven pixels over the city with a data array of six values. *)
Definition ragged_lat : list fval :=
  [Fin 19; Fin 19; Fin 19; Fin 19; Fin 19; Fin 19; Fin 19].
Definition ragged_lon : list fval :=
  [Fin (728 # 10); Fin (728 # 10); Fin (728 # 10); Fin (728 # 10); Fin (728 # 10);
   Fin (728 # 10); Fin (728 # 10)].
Definition ragged_file : hdf_file := swath_file ragged_lat ragged_lon edge_no2.

End Omi.

(** ** [preprocessing/data_processor.py] on binary64 numbers

    The normalisers of [DataNormalizer] once more, on the floating point
    numbers the program computes with.  A decimal literal that is not a
    binary64 number is written as the quotient it rounds: 0.3 is
    [3 / 10]. *)

Module Binary64.
Import Ieee.
Local Open Scope float_scope.

(** The loops of [np.clip], [np.maximum] and [np.minimum] on a value and
    a bound that is not NaN: a NaN value is kept, and so is the sign of
    neither zero. *)
Definition np_maximum (x y : float) : float :=
  if is_nan x then x else if y <? x then x else y.
Definition np_minimum (x y : float) : float :=
  if is_nan x then x else if x <? y then x else y.
Definition np_clip (x lo hi : float) : float := np_minimum (np_maximum x lo) hi.

(** *** [normalize_temperature] *)

Definition classify_heat_stress (temp : float) : string :=
  if temp <? 30 then "Low"
  else if temp <? 35 then "Moderate"
  else if temp <? 40 then "High"
  else "Extreme".

Record temperature_result : Type := {
  temperature_normalized : option (list float);
  heat_stress_category : option (list string);
  temperature_celsius : list float
}.

Definition normalize_temperature (temp_celsius : list float)
  : temperature_result * list log_record :=
  match DataNormalizer.np_vectorize classify_heat_stress temp_celsius with
  | Raise e =>
      ({| temperature_normalized := None; heat_stress_category := None;
          temperature_celsius := temp_celsius |},
       [(ERROR, "Error normalizing temperature: {e}")])
  | Ok heat_categories =>
      let temp_normalized :=
        map (fun t => np_clip ((t - 20) / 25 * 100) 0 100) temp_celsius in
      ({| temperature_normalized := Some temp_normalized;
          heat_stress_category := Some heat_categories;
          temperature_celsius := temp_celsius |}, [])
  end.

(** *** [calculate_aqi] *)

(** [c_low <= concentration <= c_high]. *)
Definition in_piece (bp : DataNormalizer.breakpoint) (concentration : float) : bool :=
  let '(c_low, c_high, _, _) := bp in
  (Zfloat c_low <=? concentration) && (concentration <=? Zfloat c_high).

(** The value [aqi] computed in the body of the loop for one piece; the
    quotient of the two integers is the correctly rounded one. *)
Definition piece_value (bp : DataNormalizer.breakpoint) (concentration : float) : float :=
  let '(c_low, c_high, aqi_low, aqi_high) := bp in
  Zfloat (aqi_high - aqi_low) / Zfloat (c_high - c_low) * (concentration - Zfloat c_low)
  + Zfloat aqi_low.

(** Python [int(x)] on a float: the exact value truncated toward zero;
    an infinity and NaN are refused. *)
Definition py_int (x : float) : result Z :=
  match float_Q x with
  | Some q => Ok (Num.py_int q)
  | None => Raise (if is_nan x then "ValueError" else "OverflowError")
  end.

Fixpoint aqi_loop (breakpoints : list DataNormalizer.breakpoint) (concentration : float)
  : result Z :=
  match breakpoints with
  | [] => Ok 400%Z
  | bp :: rest =>
      if in_piece bp concentration then py_int (piece_value bp concentration)
      else aqi_loop rest concentration
  end.

Definition calculate_aqi (concentration : float) (pollutant : string) : result Z :=
  match DataNormalizer.aqi_breakpoints !! pollutant with
  | None => Ok 50%Z
  | Some breakpoints => aqi_loop breakpoints concentration
  end.

(** *** [normalize_precipitation] *)

Definition classify_precip (precip : float) : string :=
  if precip <? 2.5 then "Light"
  else if precip <? 10 then "Moderate"
  else if precip <? 35 then "Heavy"
  else "Very Heavy".

Definition classify_flood_risk (risk : float) : string :=
  if risk <? 0.25 then "Low"
  else if risk <? 0.5 then "Medium"
  else if risk <? 0.75 then "High"
  else "Critical".

Record precipitation_result : Type := {
  precipitation_mm : list float;
  precipitation_category : option (list string);
  flood_risk_score : option (list float);
  flood_risk_category : option (list string)
}.

Definition precipitation_failure (precip_data : list float)
  : precipitation_result * list log_record :=
  ({| precipitation_mm := precip_data; precipitation_category := None;
      flood_risk_score := None; flood_risk_category := None |},
   [(ERROR, "Error normalizing precipitation: {e}")]).

(** The literal 0.3 is the quotient [3 / 10] rounded. *)
Definition normalize_precipitation
    (precip_data : list float) (soil_moisture : option (list float))
  : precipitation_result * list log_record :=
  match DataNormalizer.np_vectorize classify_precip precip_data with
  | Raise _ => precipitation_failure precip_data
  | Ok precip_categories =>
      let flood_risk := map (fun p => np_clip (p / 50) 0 1) precip_data in
      let flood_risk :=
        match soil_moisture with
        | None => Ok flood_risk
        | Some soil_moisture =>
            let soil_factor := map (fun m => np_clip (m / 0.5) 0 1) soil_moisture in
            DataNormalizer.broadcast2
              (fun risk factor => np_minimum (risk + factor * (3 / 10)) 1)
              flood_risk soil_factor
        end in
      match flood_risk with
      | Raise _ => precipitation_failure precip_data
      | Ok flood_risk =>
          match DataNormalizer.np_vectorize classify_flood_risk flood_risk with
          | Raise _ => precipitation_failure precip_data
          | Ok flood_categories =>
              ({| precipitation_mm := precip_data;
                  precipitation_category := Some precip_categories;
                  flood_risk_score := Some flood_risk;
                  flood_risk_category := Some flood_categories |}, [])
          end
      end
  end.

(** The reading of [clip(x, lo, hi)] and of the formula of the flood
    risk in the specification, spelled out with comparisons. *)
Definition clamp (x lo hi : float) : float :=
  if is_nan x then x else if lo <? x then (if x <? hi then x else hi) else lo.

Definition flood_risk_formula (p m : float) : float :=
  let s := clamp (p / 50) 0 1 + clamp (m / 0.5) 0 1 * (3 / 10) in
  if is_nan s then s else if s <? 1 then s else 1.

(** The temperatures of the first end-to-end scenario. *)
Definition scenario_temperatures : list float := [28; 30; 32; 34; 36; 38].

End Binary64.

(** ** The tile table of [preprocessing/modis_processor.py] on binary64
    numbers *)

Module Modis64.
Import Ieee.
Local Open Scope float_scope.

Record bounds : Type := Bounds { left : float; bottom : float; right : float; top : float }.

(** [tile_size]: the literal 1111950.5197665, which is the quotient
    below rounded. *)
Definition tile_size : float := 11119505197665 / 10000000.

Definition tile_box (h v : nat) : bounds :=
  let l := Zfloat (Z.of_nat h - 18) * tile_size in
  let t := Zfloat (9 - Z.of_nat v) * tile_size in
  {| left := l; bottom := t - tile_size; right := l + tile_size; top := t |}.

(** [_calculate_tile_bounds] on binary64 numbers. *)
Definition _calculate_tile_bounds : gmap string bounds :=
  foldl (fun tiles h =>
           foldl (fun tiles v => <[Modis.tile_name h v := tile_box h v]> tiles)
                 tiles (seq 0 12))
        ∅ (seq 14 14).

Definition tile_bounds : gmap string bounds := _calculate_tile_bounds.

(** The distance of two finite floats, as an exact number. *)
Definition distance (x y : float) : option Q :=
  match float_Q x, float_Q y with
  | Some a, Some b => Some (Qabs (a - b))
  | _, _ => None
  end.

(** [distance x y] is at most [bound]. *)
Definition within (bound : Q) (x y : float) : Prop :=
  exists d, distance x y = Some d /\ (d <= bound)%Q.

End Modis64.

(** ** Further parts of [preprocessing/modis_processor.py] *)

Module Tile.
Import Modis.

(** The test of [get_tile_from_filename] on a part of the file name:
    [part.startswith('h') and 'v' in part]. *)
Definition qualifies (part : string) : bool :=
  startswith_char "h"%char part && contains_char "v"%char part.

(** ['.'.join(parts)]. *)
Fixpoint join_dot (parts : list string) : string :=
  match parts with
  | [] => EmptyString
  | [p] => p
  | p :: rest => p +:+ String "."%char (join_dot rest)
  end.

End Tile.

(** *** [process_modis_lst]: the quality filter of the day layer, the
    window of the subset and the count of valid pixels *)

Module Lst.
Import Num Modis Omi.

(** [a < b]: false as soon as one side is NaN. *)
Definition fltb (a b : fval) : bool :=
  match a, b with
  | Fin x, Fin y => Qltb x y
  | _, _ => false
  end.

(** [(lst > 200) & (lst < 400)], on Kelvin. *)
Definition range_mask (lst : fval) : bool := fltb (Fin 200) lst && fltb lst (Fin 400).

(** [lst - 273.15]. *)
Definition celsius (lst : fval) : fval :=
  match lst with
  | Fin k => Fin (k - (27315 # 100))
  | NaN => NaN
  end.

(** [a.where(mask, np.nan)] for one pixel. *)
Definition where_nan (mask : bool) (v : fval) : fval := if mask then v else NaN.

Definition day_pixel (qc_tolerance : Z) (qc : option Z) (lst : fval) : fval :=
  match qc with
  | Some q => where_nan (qc_decode_pixel q qc_tolerance && range_mask lst) (celsius lst)
  | None => where_nan (range_mask lst) (celsius lst)
  end.

(** [lst_day_celsius] after the quality filter; [qc_day] is [None] when
    the file has no [QC_Day] layer, else it has the shape of [lst_day]. *)
Definition day_temperature (qc_tolerance : Z) (qc_day : option (list (list Z)))
    (lst_day : list (list fval)) : list (list fval) :=
  match qc_day with
  | Some qc =>
      zip_with (zip_with (fun q k => day_pixel qc_tolerance (Some q) k)) qc lst_day
  | None => map (map (day_pixel qc_tolerance None)) lst_day
  end.

(** The region the tile is clipped to. *)
Definition in_mumbai (lat lon : fval) : bool :=
  fleb (Fin (185 # 10)) lat && fleb lat (Fin (195 # 10))
  && fleb (Fin (725 # 10)) lon && fleb lon (Fin (732 # 10)).

Definition mumbai_mask (lat_grid lon_grid : list (list fval)) : list (list bool) :=
  zip_with (zip_with in_mumbai) lat_grid lon_grid.

(** [np.where(mask)]: the row and column numbers of the true entries. *)
Definition row_where (r : nat) (row : list bool) : list (Z * Z) :=
  omap id (imap (fun c (b : bool) => if b then Some (Z.of_nat r, Z.of_nat c) else None) row).

Definition np_where (mask : list (list bool)) : list (Z * Z) :=
  concat (imap row_where mask).

(** [a.min()] and [a.max()] of a non-empty array of integers. *)
Definition zmin (x : Z) (l : list Z) : Z := foldr Z.min x l.
Definition zmax (x : Z) (l : list Z) : Z := foldr Z.max x l.

Definition pad : Z := 20.

(** The window [(min_row, max_row, min_col, max_col)] of the subset,
    [None] when no pixel lies in the region. *)
Definition window (shape : nat * nat) (mask : list (list bool)) : option (Z * Z * Z * Z) :=
  match np_where mask with
  | [] => None
  | (r, c) :: rest =>
      let min_row := zmin r (map fst rest) in
      let max_row := zmax r (map fst rest) in
      let min_col := zmin c (map snd rest) in
      let max_col := zmax c (map snd rest) in
      Some (Z.max 0 (min_row - pad), Z.min (Z.of_nat shape.1) (max_row + pad + 1),
            Z.max 0 (min_col - pad), Z.min (Z.of_nat shape.2) (max_col + pad + 1))
  end.

(** [a[lo:hi]] for [0 <= lo] and [0 <= hi]. *)
Definition slice {A} (lo hi : Z) (a : list A) : list A :=
  drop (Z.to_nat lo) (take (Z.to_nat hi) a).

(** [isel(lat=slice(min_row, max_row), lon=slice(min_col, max_col))]. *)
Definition isel {A} (w : Z * Z * Z * Z) (grid : list (list A)) : list (list A) :=
  let '(min_row, max_row, min_col, max_col) := w in
  map (slice min_col max_col) (slice min_row max_row grid).

Definition is_nan (v : fval) : bool :=
  match v with
  | NaN => true
  | Fin _ => false
  end.

(** [attrs['valid_pixel_count']]: the number of values of the clipped
    day layer that are not NaN. *)
Definition valid_pixel_count (qc_tolerance : Z) (qc_day : option (list (list Z)))
    (lst_day : list (list fval)) (shape : nat * nat) (mask : list (list bool)) : nat :=
  let temperature := day_temperature qc_tolerance qc_day lst_day in
  let clipped :=
    match window shape mask with
    | Some w => isel w temperature
    | None => temperature
    end in
  length (List.filter (fun v => negb (is_nan v)) (concat clipped)).

(** A value that is valid stays valid. *)
Definition keeps (a b : fval) : Prop := is_nan b = true -> is_nan a = true.

(** A tile of two rows: a pixel at 300 K of best quality, one at 310 K
    with poor data quality, one at 150 K and one with the error bit. *)
Definition lst_sample : list (list fval) := [[Fin 300; Fin 310]; [Fin 150; Fin 305]].
Definition qc_day_sample : list (list Z) := [[0; 8]; [0; 32]].

End Lst.

(** ** [data_ingestion/real_nasa_apis.py]: the granule selection of
    [fetch_lst_data] *)

Module ModisFetch.

Section Fetch.

(** An opened granule, the processed dataset,
    [processor.process_modis_lst(ds, file_path.name, qc_tolerance=qc_tol)]
    and [int(processed.attrs.get('valid_pixel_count', 0))]. *)
Context {Dataset Processed : Type}.
Context (process_modis_lst : Dataset -> string -> Z -> result Processed).
Context (valid_pixel_count : Processed -> Z).

(** The loop [for qc_tol in (1, 2, 3)]; [Some processed] is the
    [return processed] of the function. *)
Fixpoint try_tolerances (ds : Dataset) (name : string) (tolerances : list Z)
  : result (option Processed) :=
  match tolerances with
  | [] => Ok None
  | qc_tol :: rest =>
      processed ← process_modis_lst ds name qc_tol;
      if Z.ltb 1000 (valid_pixel_count processed) then Ok (Some processed)
      else try_tolerances ds name rest
  end.

(** A granule of the search result: [None] when the download or the
    opening of the file fails, else the dataset and the file name. *)
Definition candidate : Type := option (Dataset * string).

(** The loop [for candidate in results]. *)
Fixpoint try_candidates (results : list candidate) : result (option Processed) :=
  match results with
  | [] => Ok None
  | None :: rest => try_candidates rest
  | Some (ds, name) :: rest =>
      r ← try_tolerances ds name [1; 2; 3];
      match r with
      | Some processed => Ok (Some processed)
      | None => try_candidates rest
      end
  end.

(** The loop [for backoff in date_backoffs]; a window is the outcome of
    its search. *)
Fixpoint try_windows (windows : list (result (list candidate))) : result Processed :=
  match windows with
  | [] => Raise "No usable MODIS granules with valid pixels over Mumbai in recent windows"
  | w :: rest =>
      results ← w;
      r ← try_candidates results;
      match r with
      | Some processed => Ok processed
      | None => try_windows rest
      end
  end.

(** [fetch_lst_data] from the search on: every exception ends in
    [return None]. *)
Definition fetch_lst_data (windows : list (result (list candidate))) : option Processed :=
  match try_windows windows with
  | Ok processed => Some processed
  | Raise _ => None
  end.

(** The calls of [process_modis_lst] in the order of the three loops,
    with a search that raises in the place of its window. *)
Definition attempt : Type := Dataset * string * Z.

Definition attempts_of (c : candidate) : list attempt :=
  match c with
  | None => []
  | Some (ds, name) => map (fun qc_tol => (ds, name, qc_tol)) [1; 2; 3]
  end.

Definition schedule (windows : list (result (list candidate))) : list (result attempt) :=
  concat (map (fun w : result (list candidate) =>
                 match w with
                 | Ok results => map Ok (concat (map attempts_of results))
                 | Raise e => [Raise e]
                 end) windows).

Definition run (a : result attempt) : result Processed :=
  x ← a; process_modis_lst x.1.1 x.1.2 x.2.

Definition rejected (a : result attempt) : Prop :=
  exists processed, run a = Ok processed /\ valid_pixel_count processed <= 1000.

Definition usable (a : result attempt) (processed : Processed) : Prop :=
  run a = Ok processed /\ 1000 < valid_pixel_count processed.

Fixpoint scan (l : list (result attempt)) : result (option Processed) :=
  match l with
  | [] => Ok None
  | a :: rest =>
      processed ← run a;
      if Z.ltb 1000 (valid_pixel_count processed) then Ok (Some processed)
      else scan rest
  end.

End Fetch.

(** Two granules described by their numbers of valid pixels; processing
    fails for a granule without pixels. *)
Definition process_sample (ds : Z) (name : string) (qc_tol : Z) : result Z :=
  if Z.eqb ds 0 then Raise "ValueError" else Ok ds.

Definition windows_sample : list (result (list (@candidate Z))) :=
  [Ok [Some (0, "MOD11A1.A2023365.h25v06.061.hdf");
       Some (5000, "MOD11A1.A2023364.h25v06.061.hdf")]].

End ModisFetch.

(** ** Further parts of [DataNormalizer]: [normalize_ndvi] and the shape
    of the breakpoint tables *)

Module Ndvi.
Import Num.

(** One value of [normalize_ndvi]: the clipped index on the scale from 0
    to 100, cut to an integer by [astype(int)].  The arithmetic is exact;
    the program cuts the rounded product, which can be one less: 0.16
    gives 57 there and 58 here. *)
Definition green_score (ndvi : Q) : Z := py_int ((np_clip ndvi (-1) 1 + 1) / 2 * 100)%Q.

Definition normalize_ndvi (ndvi_values : list Q) : list Z := map green_score ndvi_values.

End Ndvi.

Module Tables.
Import Num DataNormalizer.

(** The pieces of a table follow one another: each starts at the
    concentration where the one before ends, above its index, and no
    index exceeds 400. *)
Fixpoint ordered (bps : list breakpoint) : Prop :=
  match bps with
  | [] => True
  | bp :: rest =>
      well_formed bp /\ aqi_high bp <= 400 /\
      match rest with
      | [] => True
      | next :: _ => c_low next = c_high bp /\ aqi_high bp <= aqi_low next
      end /\ ordered rest
  end.

End Tables.

(** ** [preprocessing/data_processor.py]: [normalize_air_quality] and
    [_process_air_quality_data] *)

Module AirQuality.
Import Num DataNormalizer Omi.

(** [calculate_aqi] on a value that may be NaN: every comparison with
    NaN is false, so no piece of a table holds it and the loop falls
    through to 400. *)
Definition calculate_aqi_value (concentration : fval) (pollutant : string) : Z :=
  match concentration with
  | Fin c => calculate_aqi c pollutant
  | NaN =>
      match aqi_breakpoints !! pollutant with
      | None => 50
      | Some _ => 400
      end
  end.

(** The values of the dictionary [results]: a pollutant array, an array
    of indices, an array of categories. *)
Inductive entry : Type :=
| Values (a : list fval)
| Index (a : list Z)
| Category (a : list string).

(** [results], in insertion order. *)
Definition results : Type := list (string * entry).

Fixpoint set_item (k : string) (v : entry) (d : results) : results :=
  match d with
  | [] => [(k, v)]
  | (k', v') :: rest =>
      if String.eqb k k' then (k, v) :: rest else (k', v') :: set_item k v rest
  end.

Fixpoint get_item (k : string) (d : results) : option entry :=
  match d with
  | [] => None
  | (k', v') :: rest => if String.eqb k k' then Some v' else get_item k rest
  end.

(** The body of the loop over [pollutant_data.items()], on [results]
    and [aqi_values]. *)
Definition add_pollutant (state : results * list (list Z)) (item : string * list fval)
  : results * list (list Z) :=
  match aqi_breakpoints !! item.1 with
  | Some _ =>
      let pollutant_aqi := map (fun val => calculate_aqi_value val item.1) item.2 in
      (set_item item.1 (Values item.2)
         (set_item (item.1 +:+ "_aqi") (Index pollutant_aqi) state.1),
       state.2 ++ [pollutant_aqi])
  | None => (set_item item.1 (Values item.2) state.1, state.2)
  end.

(** [np.maximum.reduce(arrays)] on a list of arrays of integers: the
    arrays are stacked, which needs equal lengths. *)
Definition maximum_reduce (arrays : list (list Z)) : result (list Z) :=
  match arrays with
  | [] => Raise "ValueError"
  | a :: rest =>
      if forallb (fun b => Nat.eqb (length b) (length a)) rest
      then Ok (foldl (zip_with Z.max) a rest)
      else Raise "ValueError"
  end.

(** [normalize_air_quality]; the [except] branch returns the input. *)
Definition normalize_air_quality (pollutant_data : list (string * list fval))
  : results * list log_record :=
  let state := foldl add_pollutant ([], []) pollutant_data in
  match state.2 with
  | [] => (state.1, [])
  | _ =>
      match (overall_aqi ← maximum_reduce state.2;
             aqi_categories ← np_vectorize classify_aqi overall_aqi;
             Ok (overall_aqi, aqi_categories)) with
      | Ok (overall_aqi, aqi_categories) =>
          (set_item "aqi_category" (Category aqi_categories)
             (set_item "overall_aqi" (Index overall_aqi) state.1), [])
      | Raise _ =>
          (map (fun item : string * list fval => (item.1, Values item.2)) pollutant_data,
           [(ERROR, "Error normalizing air quality: {e}")])
      end
  end.

(** *** [_process_air_quality_data] *)

(** [np.clip(x, lo, hi)] on a value that may be NaN. *)
Definition fclip (x : fval) (lo hi : Q) : fval :=
  match x with
  | Fin q => Fin (np_clip q lo hi)
  | NaN => NaN
  end.

(** [np.clip(no2_values * 1e15 / 50.0, 0, 200)] and
    [so2_values * 1e15 / 3.0] for one value. *)
Definition no2_concentration (v : fval) : fval :=
  fclip (fmul v (Fin (inject_Z (10 ^ 15) / 50))) 0 200.

Definition so2_concentration (v : fval) : fval :=
  fmul v (Fin (inject_Z (10 ^ 15) / 3)).

(** [dataset[name]] of a dataset, when the variable is present. *)
Definition data_var (ds : dataset) (name : string) : option (list (list fval)) :=
  snd <$> List.find (fun var => String.eqb var.1 name) (data_vars ds).

(** The dictionary [pollutant_data] built from the dataset. *)
Definition pollutant_data_of (ds : dataset) : list (string * list fval) :=
  match data_var ds "NO2_column" with
  | Some no2_values => [("no2", map no2_concentration (flatten no2_values))]
  | None => []
  end
  ++ match data_var ds "SO2_column" with
     | Some so2_values => [("so2", map so2_concentration (flatten so2_values))]
     | None => []
     end.

(** The variables [_process_air_quality_data] adds to the dataset. *)
Definition _process_air_quality_data (ds : dataset) : results :=
  match pollutant_data_of ds with
  | [] => []
  | pollutant_data => (normalize_air_quality pollutant_data).1
  end.

(** The pollutants of [pollutant_data] that have a table, with their
    arrays of indices. *)
Definition sub_indices (pollutant_data : list (string * list fval)) : list (list Z) :=
  map (fun item : string * list fval =>
         map (fun val => calculate_aqi_value val item.1) item.2)
      (List.filter (fun item : string * list fval =>
                      bool_decide (is_Some (aqi_breakpoints !! item.1))) pollutant_data).

End AirQuality.

(** ** [recommendations/recommendation_engine.py]: the report of
    [calculate_city_resilience_score] *)

Module Report.
Import Num Engine.

(** The dictionary returned by the [except] branch of
    [calculate_city_resilience_score]. *)
Definition fallback_report : resilience_report :=
  {| resilience_scores := [("overall_resilience_score", 50%Q)];
     summary := None; city_status := None |}.

(** One of the blocks of the function raises. *)
Definition block_raises (analysis_results : gmap string DataFrame) : Prop :=
  exists (scores : dict) (e : string),
    score_air analysis_results scores = Raise e
    \/ score_heat analysis_results scores = Raise e
    \/ score_healthcare analysis_results scores = Raise e
    \/ score_green analysis_results scores = Raise e
    \/ score_flood analysis_results scores = Raise e.

(** A frame of two wards without the column of the green score. *)
Definition frame_without_scores : DataFrame :=
  {| index_len := 2; columns := {[ "ward_name" := [CStr "A"; CStr "B"] ]} |}.

(** Two wards with a mean index of 60 and 80, the only frame of a city,
    and the scores computed for it. *)
Definition air_frame : DataFrame :=
  {| index_len := 2; columns := {[ "mean_aqi" := [CNum 60; CNum 80] ]} |}.

Definition air_city : gmap string DataFrame := {[ "ward_air_quality" := air_frame ]}.

Definition air_scores : dict :=
  match calculate_scores air_city with
  | Ok scores => scores
  | Raise _ => []
  end.

End Report.

(** ** [recommendations/recommendation_engine.py]: [create_ward_summary]
    and the heat mitigation generator *)

Module WardSummary.
Import Num Engine.

(** The [value] of the members of the two enumerations. *)
Definition intervention_value (t : InterventionType) : string :=
  match t with
  | AIR_QUALITY => "air_quality"
  | HEAT_MITIGATION => "heat_mitigation"
  | FLOOD_DEFENSE => "flood_defense"
  | HEALTHCARE => "healthcare"
  | GREEN_SPACE => "green_space"
  | INFRASTRUCTURE => "infrastructure"
  end.

Definition priority_value (p : Priority) : string :=
  match p with
  | CRITICAL => "Critical"
  | HIGH => "High"
  | MEDIUM => "Medium"
  | LOW => "Low"
  end.

(** An entry of [summary['recommendations']]. *)
Record summary_item : Type := {
  item_title : string;
  item_description : string;
  item_priority : string;
  item_cost : Q;
  item_timeline : string;
  item_impact : string
}.

(** The summary of a ward; [intervention_types] is built as a set and
    turned into a list at the end, in no fixed order, and is kept as a
    set here. *)
Record ward_summary : Type := {
  ws_ward_number : Z;
  ws_ward_name : string;
  ws_total_recommendations : Z;
  ws_critical_priority : Z;
  ws_high_priority : Z;
  ws_medium_priority : Z;
  ws_low_priority : Z;
  ws_total_estimated_cost : Q;
  ws_intervention_types : gset string;
  ws_affected_population : Z;
  ws_recommendations : list summary_item
}.

(** The summary created for a ward that is seen for the first time. *)
Definition new_summary (rec : Recommendation) : ward_summary :=
  {| ws_ward_number := ward_number rec;
     ws_ward_name := ward_name rec;
     ws_total_recommendations := 0;
     ws_critical_priority := 0;
     ws_high_priority := 0;
     ws_medium_priority := 0;
     ws_low_priority := 0;
     ws_total_estimated_cost := 0;
     ws_intervention_types := ∅;
     ws_affected_population := 0;
     ws_recommendations := [] |}.

Definition item_of (rec : Recommendation) : summary_item :=
  {| item_title := title rec;
     item_description := description rec;
     item_priority := priority_value (priority rec);
     item_cost := estimated_cost_usd rec;
     item_timeline := implementation_timeline rec;
     item_impact := estimated_impact rec |}.

(** The updates of [summary] in the body of the loop. *)
Definition add_recommendation (summary : ward_summary) (rec : Recommendation)
  : ward_summary :=
  {| ws_ward_number := ws_ward_number summary;
     ws_ward_name := ws_ward_name summary;
     ws_total_recommendations := ws_total_recommendations summary + 1;
     ws_critical_priority :=
       if priority_eqb (priority rec) CRITICAL then ws_critical_priority summary + 1
       else ws_critical_priority summary;
     ws_high_priority :=
       if priority_eqb (priority rec) CRITICAL then ws_high_priority summary
       else if priority_eqb (priority rec) HIGH then ws_high_priority summary + 1
       else ws_high_priority summary;
     ws_medium_priority :=
       if priority_eqb (priority rec) CRITICAL then ws_medium_priority summary
       else if priority_eqb (priority rec) HIGH then ws_medium_priority summary
       else if priority_eqb (priority rec) MEDIUM then ws_medium_priority summary + 1
       else ws_medium_priority summary;
     ws_low_priority :=
       if priority_eqb (priority rec) CRITICAL then ws_low_priority summary
       else if priority_eqb (priority rec) HIGH then ws_low_priority summary
       else if priority_eqb (priority rec) MEDIUM then ws_low_priority summary
       else ws_low_priority summary + 1;
     ws_total_estimated_cost := (ws_total_estimated_cost summary + estimated_cost_usd rec)%Q;
     ws_intervention_types :=
       {[ intervention_value (intervention_type rec) ]} ∪ ws_intervention_types summary;
     ws_affected_population :=
       Z.max (ws_affected_population summary) (affected_population rec);
     ws_recommendations := ws_recommendations summary ++ [item_of rec] |}.

(** The body of the loop over the recommendations. *)
Definition ward_step (ward_summaries : gmap Z ward_summary) (rec : Recommendation)
  : gmap Z ward_summary :=
  let ward_num := ward_number rec in
  let summary := default (new_summary rec) (ward_summaries !! ward_num) in
  <[ward_num := add_recommendation summary rec]> ward_summaries.

Definition create_ward_summary (recommendations : list Recommendation)
  : gmap Z ward_summary :=
  foldl ward_step ∅ recommendations.

(** The recommendations of a ward, in the order of the list. *)
Definition of_ward (w : Z) (recommendations : list Recommendation) : list Recommendation :=
  List.filter (fun rec => Z.eqb (ward_number rec) w) recommendations.

(** A count as an integer. *)
Definition count_priority_Z (p : Priority) (recommendations : list Recommendation) : Z :=
  Z.of_nat (count_priority p recommendations).

(** A recommendation for a ward, and a list for two wards. *)
Definition ward_recommendation (w : Z) (name : string) (p : Priority) (cost : Q)
    (population : Z) : Recommendation :=
  {| ward_number := w; ward_name := name; intervention_type := FLOOD_DEFENSE;
     priority := p; title := "Flood Defense - Create retention";
     description := "Create retention ponds";
     estimated_cost_usd := cost;
     estimated_impact := "High"; implementation_timeline := "12-18 months";
     affected_population := population; metrics := []; coordinates := None |}.

Definition two_wards : list Recommendation :=
  [ward_recommendation 7 "Ward G" HIGH 400000 12000;
   ward_recommendation 3 "Ward C" MEDIUM 150000 8000;
   ward_recommendation 7 "Ward G (south)" CRITICAL 800000 20000].

End WardSummary.

Module HeatGenerator.
Import Num Engine.

(** The words of a text with single blanks, as [text.split()] gives them. *)
Definition words (text : string) : list string :=
  List.filter (fun w => negb (String.eqb w EmptyString)) (Modis.split_on " "%char text).

(** [f"{prefix}{intervention.split()[0]} {intervention.split()[1]}"]. *)
Definition short_title (prefix intervention : string) : result string :=
  match words intervention with
  | first :: second :: _ => Ok (prefix +:+ first +:+ " " +:+ second)
  | _ => Raise "IndexError"
  end.

Definition heat_interventions : list string :=
  ["Install cool roofing systems on public buildings";
   "Create urban forest corridors";
   "Implement misting systems in public areas";
   "Develop pocket parks with shade structures"].

(** The name [index] of line 150: neither the function nor the module
    binds it and it is no builtin, so its evaluation raises. *)
Definition index : result Z := Raise "NameError".

(** [for x in xs: ...] on a body that may raise, collecting what the
    body appends. *)
Fixpoint for_each {A B} (body : A -> result (list B)) (xs : list A) : result (list B) :=
  match xs with
  | [] => Ok []
  | x :: rest =>
      appended ← body x;
      more ← for_each body rest;
      Ok (appended ++ more)
  end.

(** A row of [heat_island_areas]: the rounded latitude and longitude of
    a cluster and the number of heat islands in it. *)
Definition area : Type := Q * Q * Z.

(** The body of the loop over the clusters. *)
Definition area_recommendations (a : area) : result (list Recommendation) :=
  let heat_island_count := a.2 in
  if Z.leb 3 heat_island_count then
    let priority := if Z.leb 5 heat_island_count then HIGH else MEDIUM in
    let cost : Q := if priority_eqb priority HIGH then 200000%Q else 100000%Q in
    let timeline := "9-15 months" in
    index ← index;
    let ward_num := index mod 24 + 1 in
    let ward_name := "Ward " +:+ pretty ward_num in
    for_each
      (fun intervention =>
         title ← short_title "Heat Island Mitigation - " intervention;
         Ok [ {| ward_number := ward_num;
                 ward_name := ward_name;
                 intervention_type := HEAT_MITIGATION;
                 priority := priority;
                 title := title;
                 description := intervention;
                 estimated_cost_usd := (cost / 2)%Q;
                 estimated_impact := if priority_eqb priority HIGH then "High" else "Medium";
                 implementation_timeline := timeline;
                 affected_population := 5000;
                 metrics :=
                   [("heat_islands_count", inject_Z heat_island_count);
                    ("expected_temp_reduction",
                     if priority_eqb priority HIGH then (5 # 2)%Q else (3 # 2)%Q)];
                 coordinates := Some (a.1.2, a.1.1) |} ])
      (take 2 heat_interventions)
  else Ok [].

Section Heat.

(** [heat_islands.groupby([y.round(2), x.round(2)]).size()
    .reset_index(name='heat_island_count')], which may raise. *)
Context (heat_island_areas : DataFrame -> result (list area)).

(** [HeatMitigationRecommendationGenerator.generate_recommendations]. *)
Definition heat_generate (heat_islands cooling_analysis ward_data : DataFrame)
  : list Recommendation * list log_record :=
  let recommendations :=
    if df_empty heat_islands then Ok []
    else
      areas ← heat_island_areas heat_islands;
      for_each area_recommendations areas in
  match recommendations with
  | Ok recommendations =>
      (recommendations,
       [(INFO, "Generated {len(recommendations)} heat mitigation recommendations")])
  | Raise _ =>
      ([], [(ERROR, "Error generating heat mitigation recommendations: {e}")])
  end.

End Heat.

(** Six heat islands around one place, and their cluster. *)
Definition six_islands : DataFrame :=
  {| index_len := 6; columns := {[ "geometry" := [] ]} |}.

Definition cluster_of_six : list area := [((1907 # 100)%Q, (7288 # 100)%Q, 6)].

End HeatGenerator.

(** ** [data_ingestion/real_nasa_apis.py]: interpolation and the
    collection of the sources *)

Module Interpolation.
Import Num Omi.


(** The number of pixels in the buffered bounds. *)
Definition mumbai_pixels (lat_data lon_data : list fval) : nat :=
  length (List.filter id (zip_with in_buffered_bounds lat_data lon_data)).

(** The grid of the region. *)
Definition grid_lats : list Q := linspace (south mumbai_bounds) (north mumbai_bounds) 25.
Definition grid_lons : list Q := linspace (west mumbai_bounds) (east mumbai_bounds) 25.


End Interpolation.

(** ** [analytics/urban_analytics.py] *)

Module Analytics.
Import Num HeatGenerator.

(** [a[i, j]] of a two-dimensional array. *)
Definition at2 {A} (a : list (list A)) (i j : nat) : result A :=
  match a !! i ≫= (.!! j) with
  | Some x => Ok x
  | None => Raise "IndexError"
  end.

(** [enumerate(xs)]. *)
Definition enumerate {A} (xs : list A) : list (nat * A) := imap pair xs.

(** *** [FloodRiskAnalyzer.assess_flood_risk] *)

(** [self.risk_thresholds], in the order of the dictionary. *)
Definition risk_thresholds : list (string * (Q * Q)) :=
  [("Low", (0, 1 # 4)); ("Medium", (1 # 4, 1 # 2));
   ("High", (1 # 2, 3 # 4)); ("Critical", (3 # 4, 1))]%Q.

(** The loop over the thresholds, left at the first band with
    [low <= adjusted_risk < high]; [category] is the value set before it. *)
Fixpoint risk_band (thresholds : list (string * (Q * Q))) (adjusted_risk : Q)
    (category : string) : string :=
  match thresholds with
  | [] => category
  | (cat, (low, high)) :: rest =>
      if Qleb low adjusted_risk && Qltb adjusted_risk high then cat
      else risk_band rest adjusted_risk category
  end.

Definition adjust_risk (risk_score elevation : Q) : Q :=
  let elevation_factor := py_max 0 ((20 - elevation) / 20)%Q in
  py_min 1 (risk_score + elevation_factor * (3 # 10))%Q.

Definition zone_priority_of (adjusted_risk : Q) : string :=
  if Qleb (3 # 4) adjusted_risk then "Critical"
  else if Qleb (1 # 2) adjusted_risk then "High"
  else "Medium".

(** A row of [flood_zones]; the geometry is the point (longitude,
    latitude). *)
Record flood_zone : Type := {
  zone_geometry : Q * Q;
  zone_risk_score : Q;
  zone_risk_category : string;
  zone_priority : string;
  zone_elevation_m : Q;
  zone_precipitation_mm : Q;
  zone_latitude : Q;
  zone_longitude : Q
}.

(** The body of the two loops for the pixel [(i, j)]; the precipitation
    is read only for a zone that is kept. *)
Definition pixel_zone (risk_values elevation_data : list (list Q))
    (precipitation_mm : option (list (list Q))) (i : nat) (lat : Q) (j : nat) (lon : Q)
  : result (list flood_zone) :=
  risk_score ← at2 risk_values i j;
  elevation ← at2 elevation_data i j;
  let adjusted_risk := adjust_risk risk_score elevation in
  if Qleb (1 # 4) adjusted_risk then
    let category := risk_band risk_thresholds adjusted_risk "Low" in
    let priority := zone_priority_of adjusted_risk in
    precipitation ←
      match precipitation_mm with
      | Some values => at2 values i j
      | None => Raise "KeyError"
      end;
    Ok [ {| zone_geometry := (lon, lat);
            zone_risk_score := adjusted_risk;
            zone_risk_category := category;
            zone_priority := priority;
            zone_elevation_m := elevation;
            zone_precipitation_mm := precipitation;
            zone_latitude := lat;
            zone_longitude := lon |} ]
  else Ok [].

(** [assess_flood_risk] on the variable [flood_risk_score] of the
    dataset ([None] when it is absent), the elevation used (the one given
    or the one drawn) and the variable [precipitation_mm]. *)
Definition assess_flood_risk (lats lons : list Q) (risk_values : option (list (list Q)))
    (elevation_data : list (list Q)) (precipitation_mm : option (list (list Q)))
  : list flood_zone :=
  match risk_values with
  | None => []
  | Some risk_values =>
      match for_each
              (fun row : nat * Q =>
                 for_each
                   (fun col : nat * Q =>
                      pixel_zone risk_values elevation_data precipitation_mm
                        row.1 row.2 col.1 col.2)
                   (enumerate lons))
              (enumerate lats) with
      | Ok flood_zones => flood_zones
      | Raise _ => []
      end
  end.

(** *** [AirQualityAnalyzer.analyze_ward_air_quality] *)

(** [self.aqi_thresholds], in the order of the dictionary. *)
Definition aqi_thresholds : list (string * (Q * Q)) :=
  [("Good", (0, 50)); ("Moderate", (51, 100)); ("Poor", (101, 200));
   ("Very Poor", (201, 300)); ("Severe", (301, 500))]%Q.

(** The loop over the thresholds, left at the first band with
    [low <= mean_aqi <= high]. *)
Fixpoint aqi_band (thresholds : list (string * (Q * Q))) (mean_aqi : Q)
    (category : string) : string :=
  match thresholds with
  | [] => category
  | (cat, (low, high)) :: rest =>
      if Qleb low mean_aqi && Qleb mean_aqi high then cat
      else aqi_band rest mean_aqi category
  end.

(** A ward: its number, name and population, and
    [ward.geometry.contains(Point(lon, lat))]. *)
Record ward : Type := {
  number : Z;
  name : string;
  population : Z;
  contains : Q -> Q -> bool
}.

(** A row of the frame returned. *)
Record ward_stat : Type := {
  stat_ward_number : Z;
  stat_ward_name : string;
  stat_mean_aqi : Q;
  stat_max_aqi : Q;
  stat_aqi_category : string;
  stat_population : Z;
  stat_affected_population : Z
}.

(** [np.max] of a non-empty array. *)
Definition np_max (x : Q) (rest : list Q) : Q := foldl np_maximum x rest.

(** [ward_aqi_values]: the values of the grid points inside the ward. *)
Definition ward_aqi_values (w : ward) (lats lons : list Q) (aqi_values : list (list Q))
  : result (list Q) :=
  for_each
    (fun row : nat * Q =>
       for_each
         (fun col : nat * Q =>
            if contains w col.2 row.2 then
              v ← at2 aqi_values row.1 col.1; Ok [v]
            else Ok [])
         (enumerate lons))
    (enumerate lats).

(** The row appended for a ward with values. *)
Definition ward_row (w : ward) (values : list Q) : list ward_stat :=
  match values with
  | [] => []
  | v :: rest =>
      let mean_aqi := np_mean values in
      [ {| stat_ward_number := number w;
           stat_ward_name := name w;
           stat_mean_aqi := mean_aqi;
           stat_max_aqi := np_max v rest;
           stat_aqi_category := aqi_band aqi_thresholds mean_aqi "Good";
           stat_population := population w;
           stat_affected_population := if Qltb 100 mean_aqi then population w else 0 |} ]
  end.

(** [analyze_ward_air_quality] on the variable [overall_aqi] of the
    dataset ([None] when it is absent). *)
Definition analyze_ward_air_quality (lats lons : list Q)
    (overall_aqi : option (list (list Q))) (wards : list ward) : list ward_stat :=
  match overall_aqi with
  | None => []
  | Some aqi_values =>
      match for_each
              (fun w => values ← ward_aqi_values w lats lons aqi_values;
                        Ok (ward_row w values))
              wards with
      | Ok ward_stats => ward_stats
      | Raise _ => []
      end
  end.

(** A ward that holds every point, on a grid of two points with the
    indices 100 and 101. *)
Definition whole_city : ward :=
  {| number := 12; name := "Ward L"; population := 900000; contains := fun _ _ => true |}.

Definition whole_city_row : ward_stat :=
  {| stat_ward_number := 12; stat_ward_name := "Ward L";
     stat_mean_aqi := np_mean [100; 101]%Q; stat_max_aqi := 101;
     stat_aqi_category := "Good"; stat_population := 900000;
     stat_affected_population := 900000 |}.

End Analytics.

(** ** [recommendations/recommendation_engine.py]: the air quality
    generator *)

Module AirGenerator.
Import Num Engine HeatGenerator.

(** A row of [ward_air_quality] as [iterrows] yields it: the columns the
    generator reads, with the types the analysis gives them. *)
Record air_row : Type := {
  row_ward_number : Z;
  row_ward_name : string;
  row_mean_aqi : Q;
  row_affected_population : Z
}.

(** The priority, the interventions, the cost and the timeline chosen
    for a mean index above 100. *)
Definition air_plan (mean_aqi : Q) : Priority * list string * Q * string :=
  if Qltb 200 mean_aqi then
    (CRITICAL,
     ["Implement emergency pollution control measures";
      "Deploy air purification systems in public spaces";
      "Restrict heavy vehicle traffic during peak hours"],
     500000%Q, "3-6 months")
  else if Qltb 150 mean_aqi then
    (HIGH,
     ["Install air quality monitoring stations";
      "Promote electric vehicle adoption";
      "Implement green belt around industrial areas"],
     300000%Q, "6-12 months")
  else
    (MEDIUM,
     ["Increase urban tree plantation";
      "Promote public transportation usage";
      "Implement dust control measures"],
     150000%Q, "12-18 months").

(** The body of the loop over the wards. *)
Definition row_recommendations (ward : air_row) : result (list Recommendation) :=
  if Qltb 100 (row_mean_aqi ward) then
    let plan := air_plan (row_mean_aqi ward) in
    let priority := plan.1.1.1 in
    let interventions := plan.1.1.2 in
    let cost := plan.1.2 in
    let timeline := plan.2 in
    for_each
      (fun intervention =>
         title ← short_title "Air Quality Improvement - " intervention;
         Ok [ {| ward_number := row_ward_number ward;
                 ward_name := row_ward_name ward;
                 intervention_type := AIR_QUALITY;
                 priority := priority;
                 title := title;
                 description := intervention;
                 estimated_cost_usd := (cost / Qnat (length interventions))%Q;
                 estimated_impact :=
                   if Qltb 150 (row_mean_aqi ward) then "High" else "Medium";
                 implementation_timeline := timeline;
                 affected_population := row_affected_population ward;
                 metrics :=
                   [("current_aqi", row_mean_aqi ward);
                    ("target_aqi_reduction", py_min 50 (row_mean_aqi ward - 100)%Q);
                    ("population_benefited", inject_Z (row_affected_population ward))];
                 coordinates := None |} ])
      interventions
  else Ok [].

(** [AirQualityRecommendationGenerator.generate_recommendations]; the
    hot spots are not read. *)
Definition air_generate {H} (ward_air_quality : list air_row) (air_hotspots : H)
  : list Recommendation * list log_record :=
  match for_each row_recommendations ward_air_quality with
  | Ok recommendations =>
      (recommendations,
       [(INFO, "Generated {len(recommendations)} air quality recommendations")])
  | Raise _ =>
      ([], [(ERROR, "Error generating air quality recommendations: {e}")])
  end.

(** The tier and the budget of a ward. *)
Definition air_priority (mean_aqi : Q) : Priority :=
  if Qltb 200 mean_aqi then CRITICAL else if Qltb 150 mean_aqi then HIGH else MEDIUM.

Definition air_budget (mean_aqi : Q) : Q :=
  if Qltb 200 mean_aqi then 500000 else if Qltb 150 mean_aqi then 300000 else 150000.

(** What the recommendations [g] of the ward [ward] are. *)
Definition ward_group (ward : air_row) (g : list Recommendation) : Prop :=
  if Qltb 100 (row_mean_aqi ward) then
    length g = 3%nat
    /\ Forall (fun rec =>
                 ward_number rec = row_ward_number ward
                 /\ ward_name rec = row_ward_name ward
                 /\ intervention_type rec = AIR_QUALITY
                 /\ priority rec = air_priority (row_mean_aqi ward)
                 /\ affected_population rec = row_affected_population ward) g
    /\ (Qsum (map estimated_cost_usd g) == air_budget (row_mean_aqi ward))%Q
  else g = [].

(** Three wards with a mean index of 90, 100.5 and 230. *)
Definition three_rows : list air_row :=
  [ {| row_ward_number := 1; row_ward_name := "Ward A"; row_mean_aqi := 90;
       row_affected_population := 0 |};
    {| row_ward_number := 2; row_ward_name := "Ward B"; row_mean_aqi := 201 # 2;
       row_affected_population := 900000 |};
    {| row_ward_number := 3; row_ward_name := "Ward C"; row_mean_aqi := 230;
       row_affected_population := 400000 |} ].

End AirGenerator.

(** * Properties *)

Module NumFacts.
Import Num.

Lemma Qleb_spec x y : Qleb x y = true <-> (x <= y)%Q.
Proof. apply Qle_bool_iff. Qed.

Lemma Qltb_spec x y : Qltb x y = true <-> (x < y)%Q.
Proof.
  unfold Qltb. rewrite negb_true_iff. split.
  - intros H. apply Qnot_le_lt. intros Hle.
    apply Qle_bool_iff in Hle. congruence.
  - intros H. destruct (Qle_bool y x) eqn:E; [|reflexivity].
    apply Qle_bool_iff in E. exfalso. eapply Qlt_not_le; eauto.
Qed.

Lemma Qltb_false x y : Qltb x y = false <-> (y <= x)%Q.
Proof.
  unfold Qltb. rewrite negb_false_iff. apply Qle_bool_iff.
Qed.

Lemma Qleb_false x y : Qleb x y = false <-> (y < x)%Q.
Proof.
  rewrite <- Qltb_spec. unfold Qltb, Qleb.
  destruct (Qle_bool x y); simpl; intuition congruence.
Qed.

Lemma np_maximum_lb x y : (y <= np_maximum x y)%Q /\ (x <= np_maximum x y)%Q.
Proof.
  unfold np_maximum. destruct (Qltb x y) eqn:E.
  - apply Qltb_spec in E. split; [apply Qle_refl | apply Qlt_le_weak, E].
  - apply Qltb_false in E. split; [exact E | apply Qle_refl].
Qed.

Lemma np_minimum_ub x y : (np_minimum x y <= y)%Q /\ (np_minimum x y <= x)%Q.
Proof.
  unfold np_minimum. destruct (Qltb y x) eqn:E.
  - apply Qltb_spec in E. split; [apply Qle_refl | apply Qlt_le_weak, E].
  - apply Qltb_false in E. split; [exact E | apply Qle_refl].
Qed.

Lemma np_clip_bounds x lo hi : (lo <= hi)%Q -> (lo <= np_clip x lo hi <= hi)%Q.
Proof.
  intros Hlh. unfold np_clip. split.
  - unfold np_minimum. destruct (Qltb hi (np_maximum x lo)); [exact Hlh|].
    apply np_maximum_lb.
  - apply np_minimum_ub.
Qed.

(** Decide the comparisons of rationals in the goal, innermost first. *)
Ltac no_branch t :=
  lazymatch t with
  | context [if _ then _ else _] => fail
  | _ => idtac
  end.

Ltac q_cases :=
  repeat match goal with
  | |- context [Qltb ?x ?y] =>
      no_branch x; no_branch y;
      let E := fresh "E" in
      destruct (Qltb x y) eqn:E;
      [apply Qltb_spec in E | apply Qltb_false in E]
  | |- context [Qleb ?x ?y] =>
      no_branch x; no_branch y;
      let E := fresh "E" in
      destruct (Qleb x y) eqn:E;
      [apply Qleb_spec in E | apply Qleb_false in E]
  end.

End NumFacts.

Module ModisFacts.
Import Modis.

(** *** Tile table and coordinate grids *)

Lemma length_linspace a b n : length (Num.linspace a b n) = n.
Proof.
  destruct n as [|[|n]]; simpl; try reflexivity.
  rewrite length_app, !length_map, length_seq. simpl. lia.
Qed.

Lemma length_meshgrid_fst (x y : list Q) :
  length (Num.flatten (fst (Num.meshgrid x y))) = (length y * length x)%nat.
Proof.
  unfold Num.flatten, Num.meshgrid. simpl.
  induction y as [|yi y IH]; simpl; [reflexivity|].
  rewrite length_app, IH. reflexivity.
Qed.

Lemma length_meshgrid_snd (x y : list Q) :
  length (Num.flatten (snd (Num.meshgrid x y))) = (length y * length x)%nat.
Proof.
  unfold Num.flatten, Num.meshgrid. simpl.
  induction y as [|yi y IH]; simpl; [reflexivity|].
  rewrite length_app, IH, length_map. reflexivity.
Qed.

Lemma default_tile_known : tile_bounds !! "h25v06" = Some (tile_box 25 6).
Proof. vm_compute. reflexivity. Qed.

Lemma lookup_bounds_ok (tile_id : string) : exists b, lookup_bounds tile_id = Ok b.
Proof.
  unfold lookup_bounds. destruct (tile_bounds !! tile_id) as [b|]; [eauto|].
  rewrite default_tile_known. eauto.
Qed.

Lemma lookup_bounds_fallback (tile_id : string) :
  tile_bounds !! tile_id = None -> lookup_bounds tile_id = lookup_bounds "h25v06".
Proof.
  intros H. unfold lookup_bounds. rewrite H, default_tile_known. reflexivity.
Qed.

Lemma chunks_concat {A} (g : list (list A)) (cols : nat) :
  Forall (fun row => length row = cols) g ->
  Num.chunks (length g) cols (concat g) = g.
Proof.
  induction 1 as [|row g Hrow _ IH]; simpl; [reflexivity|].
  rewrite take_app_length', drop_app_length' by (symmetry; exact Hrow).
  rewrite IH. reflexivity.
Qed.

Lemma meshgrid_points {C} (transform : Q -> Q -> C * C) (x y : list Q) :
  zip_with transform (Num.flatten (fst (Num.meshgrid x y))) (Num.flatten (snd (Num.meshgrid x y)))
  = concat (map (fun yi => map (fun xj => transform xj yi) x) y).
Proof.
  unfold Num.flatten, Num.meshgrid. simpl.
  induction y as [|yi y IH]; simpl; [reflexivity|].
  rewrite zip_with_app by (rewrite length_map; reflexivity).
  rewrite IH. f_equal.
  clear IH. induction x as [|xj x IHx]; simpl; [reflexivity|].
  rewrite IHx. reflexivity.
Qed.

Lemma map_concat_grid {A B} (f : A -> B) (g : list (list A)) :
  map f (concat g) = concat (map (map f) g).
Proof.
  induction g as [|row g IH]; simpl; [reflexivity|].
  rewrite map_app, IH. reflexivity.
Qed.

(** The grids in closed form: row [i], column [j] holds the image of the
    point [(x_j, y_i)]. *)
Lemma create_geographic_coordinates_grid
    {C : Type} (transform : Q -> Q -> C * C) (rows cols : nat) (tile_id : string)
    (b : bounds) :
  lookup_bounds tile_id = Ok b ->
  let x := Num.linspace (left b) (right b) cols in
  let y := Num.linspace (top b) (bottom b) rows in
  create_geographic_coordinates transform (rows, cols) tile_id
  = (Ok (map (fun yi => map (fun xj => snd (transform xj yi)) x) y,
         map (fun yi => map (fun xj => fst (transform xj yi)) x) y), []).
Proof.
  intros Hb x y. unfold create_geographic_coordinates. rewrite Hb.
  fold x y.
  pose proof (meshgrid_points transform x y) as Hp.
  destruct (Num.meshgrid x y) as [xx yy]. simpl in Hp. rewrite Hp.
  rewrite !map_concat_grid, !map_map.
  unfold reshape.
  assert (Hlen : forall f : C * C -> C,
    length (concat (map (fun yi => map f (map (fun xj => transform xj yi) x)) y))
    = (rows * cols)%nat).
  { intros f. rewrite <- (length_linspace (top b) (bottom b) rows) at 1.
    fold y. clear. induction y as [|yi y IH]; simpl; [reflexivity|].
    rewrite length_app, IH, !length_map. unfold x. rewrite length_linspace. reflexivity. }
  rewrite !decide_True by apply Hlen.
  assert (Hch : forall f : C * C -> C,
    Num.chunks rows cols (concat (map (fun yi => map f (map (fun xj => transform xj yi) x)) y))
    = map (fun yi => map (fun xj => f (transform xj yi)) x) y).
  { intros f.
    replace rows with (length (map (fun yi => map f (map (fun xj => transform xj yi) x)) y))
      by (rewrite length_map; apply length_linspace).
    rewrite chunks_concat.
    - apply map_ext. intros yi. apply map_map.
    - apply List.Forall_forall. intros row Hin. apply in_map_iff in Hin as (yi & <- & _).
      rewrite !length_map. apply length_linspace. }
  rewrite !Hch. reflexivity.
Qed.

(** C9 (amended): the grid construction returns a pair of grids for
    every shape and every tile identifier, an identifier missing from
    the table gives the grids of tile h25v06, and the function emits no
    log record at all, so the fallback is silent. *)
Theorem create_geographic_coordinates_fallback
    {C : Type} (transform : Q -> Q -> C * C) (shape : nat * nat) (tile_id : string) :
  (exists lat_grid lon_grid,
     create_geographic_coordinates transform shape tile_id
     = (Ok (lat_grid, lon_grid), [])) /\
  (tile_bounds !! tile_id = None ->
   create_geographic_coordinates transform shape tile_id
   = create_geographic_coordinates transform shape "h25v06").
Proof.
  destruct shape as [rows cols]. split.
  - unfold create_geographic_coordinates.
    destruct (lookup_bounds_ok tile_id) as [b ->].
    set (x := Num.linspace (left b) (right b) cols).
    set (y := Num.linspace (top b) (bottom b) rows).
    pose proof (length_meshgrid_fst x y) as Hxx.
    pose proof (length_meshgrid_snd x y) as Hyy.
    destruct (Num.meshgrid x y) as [xx yy]. simpl in Hxx, Hyy.
    unfold x, y in Hxx, Hyy. rewrite !length_linspace in Hxx, Hyy.
    unfold reshape.
    rewrite !length_map, length_zip_with, Hxx, Hyy, Nat.min_id.
    rewrite !decide_True by reflexivity. eauto.
  - intros Hnone. unfold create_geographic_coordinates.
    rewrite (lookup_bounds_fallback tile_id Hnone). reflexivity.
Qed.

Lemma create_geographic_coordinates_fallback_witness :
  tile_bounds !! "h99v99" = None /\
  create_geographic_coordinates (fun x y : Q => (x, y)) (2%nat, 3%nat) "h99v99"
  = create_geographic_coordinates (fun x y : Q => (x, y)) (2%nat, 3%nat) "h25v06".
Proof.
  split; [vm_compute; reflexivity|].
  apply (create_geographic_coordinates_fallback (fun x y : Q => (x, y)) (2%nat, 3%nat) "h99v99").
  vm_compute. reflexivity.
Defined.

(** The specification asks for a log record of the fallback: for an
    identifier that is not in the table nothing is logged. *)
Lemma create_geographic_coordinates_logs_nothing :
  tile_bounds !! "h99v99" = None /\
  ~ (exists r : log_record,
       In r (snd (create_geographic_coordinates
                    (fun x y : Q => (x, y)) (2%nat, 3%nat) "h99v99"))).
Proof.
  split; [vm_compute; reflexivity|].
  intros [r Hr]. vm_compute in Hr. exact Hr.
Qed.

Example tile_table_size : size tile_bounds = 168%nat.
Proof. vm_compute. reflexivity. Qed.

Example tile_of_modis_filename :
  get_tile_from_filename "MOD11A1.A2023365.h14v04.061.2024004135620.hdf" = "h14v04".
Proof. reflexivity. Qed.

Example tile_of_other_filename :
  get_tile_from_filename "MOD11A1.A2023365.hdf" = "h25v06"
  /\ get_tile_from_filename "MOD11A1.h25v06_v2.hdf" = "h25v06_v2"
  /\ tile_bounds !! "h25v06_v2" = None.
Proof. repeat split; vm_compute; reflexivity. Qed.

(** *** Quality control *)

Lemma lst_err_testbit q : lst_err q = Z.b2z (Z.testbit q 5).
Proof.
  unfold lst_err.
  change 1 with (Z.ones 1). rewrite Z.land_ones by lia.
  change (2 ^ 1) with 2. rewrite <- Z.bit0_mod.
  rewrite Z.shiftr_spec by lia. reflexivity.
Qed.

(** C2: a pixel is accepted only if bit 5 of its QC code, the LST error
    bit, is 0, whatever the tolerance. *)
Theorem qc_decode_error_bit (ok_qc qc_tol : Z) :
  qc_decode_pixel ok_qc qc_tol = true -> Z.testbit ok_qc 5 = false.
Proof.
  unfold qc_decode_pixel. intros H.
  apply andb_prop in H as [_ Herr].
  apply Z.eqb_eq in Herr. rewrite lst_err_testbit in Herr.
  destruct (Z.testbit ok_qc 5); [discriminate | reflexivity].
Qed.

Lemma qc_decode_error_bit_witness :
  qc_decode_pixel 5 3 = true /\ Z.testbit 5 5 = false.
Proof.
  split; [reflexivity | apply (qc_decode_error_bit 5 3); reflexivity].
Defined.

Lemma qc_decode_pixel_mono (q t1 t2 : Z) :
  t1 <= t2 -> qc_decode_pixel q t1 = true -> qc_decode_pixel q t2 = true.
Proof.
  unfold qc_decode_pixel. intros Ht H.
  apply andb_prop in H as [H Herr]. apply andb_prop in H as [Hm Hd].
  rewrite Herr, andb_true_r. apply andb_true_intro. split.
  - destruct (Z.ltb_spec 2 t1), (Z.ltb_spec 2 t2);
      first [lia | exact Hm | apply Z.leb_le; apply Z.leb_le in Hm; lia].
  - destruct (Z.ltb_spec 1 t1), (Z.ltb_spec 1 t2);
      first [lia | exact Hd | apply Z.leb_le; apply Z.leb_le in Hd; lia].
Qed.

Lemma count_row_mono (f g : Z -> bool) (row : list Z) :
  (forall q, f q = true -> g q = true) ->
  (length (filter (fun b => b = true) (map f row))
   <= length (filter (fun b => b = true) (map g row)))%nat.
Proof.
  intros Hfg. induction row as [|q row IH]; simpl; [lia|].
  rewrite !filter_cons.
  destruct (f q) eqn:Ef.
  - rewrite (Hfg q Ef). repeat case_decide; try congruence. simpl. lia.
  - repeat case_decide; try congruence; simpl; lia.
Qed.

Lemma count_true_mono (f g : Z -> bool) (r : list (list Z)) :
  (forall q, f q = true -> g q = true) ->
  (count_true (map (map f) r) <= count_true (map (map g) r))%nat.
Proof.
  intros Hfg. unfold count_true.
  induction r as [|row r IH]; simpl; [lia|].
  rewrite !filter_app, !length_app.
  pose proof (count_row_mono f g row Hfg). lia.
Qed.

(** C3: relaxing the tolerance never rejects a pixel that was accepted,
    so the number of accepted pixels of a QC raster does not decrease. *)
Theorem qc_decode_monotone (ok_qc : list (list Z)) (t1 t2 : Z) :
  t1 < t2 ->
  (forall (i j : nat) (row : list Z) (q : Z),
     ok_qc !! i = Some row -> row !! j = Some q ->
     qc_decode_pixel q t1 = true -> qc_decode_pixel q t2 = true) /\
  (count_true (_qc_decode ok_qc t1) <= count_true (_qc_decode ok_qc t2))%nat.
Proof.
  intros Hlt. split.
  - intros i j row q _ _. apply qc_decode_pixel_mono. lia.
  - unfold _qc_decode. apply count_true_mono.
    intros q. apply qc_decode_pixel_mono. lia.
Qed.

Lemma qc_decode_monotone_witness :
  1 < 3 /\
  (count_true (_qc_decode qc_sample 1) <= count_true (_qc_decode qc_sample 3))%nat.
Proof.
  split; [lia | apply (qc_decode_monotone qc_sample 1 3); lia].
Defined.

Example qc_counts_by_tolerance :
  map (fun t => count_true (_qc_decode qc_sample t)) [1; 2; 3]
  = [1%nat; 2%nat; 4%nat].
Proof. reflexivity. Qed.

End ModisFacts.

Module DataNormalizerFacts.
Import Num NumFacts DataNormalizer.

(** *** Temperature *)

Lemma classify_heat_stress_thresholds (t : Q) :
  ((t < 30)%Q -> classify_heat_stress t = "Low") /\
  ((30 <= t)%Q -> (t < 35)%Q -> classify_heat_stress t = "Moderate") /\
  ((35 <= t)%Q -> (t < 40)%Q -> classify_heat_stress t = "High") /\
  ((40 <= t)%Q -> classify_heat_stress t = "Extreme").
Proof.
  unfold classify_heat_stress. repeat split; intros; q_cases; try reflexivity; lra.
Qed.

(** The categories the scenario expects are not the ones computed:
    34 is below 35 and 38 is below 40. *)
Lemma scenario_categories_differ :
  heat_stress_category (fst (normalize_temperature scenario_temperatures))
  <> Some ["Low"; "Moderate"; "Moderate"; "High"; "High"; "Extreme"].
Proof. vm_compute. discriminate. Qed.

(** *** Air quality index *)

Lemma aqi_tables (p : string) (bps : list breakpoint) :
  aqi_breakpoints !! p = Some bps ->
  (p = "pm25" \/ p = "pm10" \/ p = "no2" \/ p = "so2") /\ aqi_breakpoints !! p = Some bps.
Proof.
  intros H. split; [|exact H]. unfold aqi_breakpoints in H.
  repeat (apply lookup_insert_Some in H as [[<- _]|[_ H]]; [tauto|]).
  rewrite lookup_empty in H. discriminate.
Qed.

(** Split a goal about a pollutant with a table into the four tables. *)
Ltac table_cases H :=
  let Hp := fresh "Hp" in
  destruct (aqi_tables _ _ H) as [Hp _];
  destruct Hp as [-> | [-> | [-> | ->]]]; vm_compute in H; injection H; intros <-; clear H.

Lemma py_int_nonneg (x : Q) :
  (0 <= x)%Q -> (inject_Z (py_int x) <= x)%Q /\ (x < inject_Z (py_int x + 1))%Q.
Proof.
  destruct x as [n d]. unfold Qle, Qlt, py_int. simpl. intros Hn.
  rewrite Z.mul_1_r in Hn.
  rewrite Z.quot_div_nonneg by lia. rewrite !Z.mul_1_r. split.
  - rewrite Z.mul_comm. apply Z.mul_div_le. lia.
  - rewrite Z.mul_comm. pose proof (Z.mul_succ_div_gt n (Z.pos d)). lia.
Qed.

Lemma in_piece_false (lo hi al ah : Z) (c : Q) :
  in_piece (lo, hi, al, ah) c = false <-> (c < inject_Z lo \/ inject_Z hi < c)%Q.
Proof.
  unfold in_piece. rewrite andb_false_iff, !Qleb_false. tauto.
Qed.

Example calculate_aqi_samples :
  calculate_aqi (-1 # 10) "no2" = 400 /\
  calculate_aqi 1601 "so2" = 400 /\
  (piece_value (0, 40, 0, 50)%Z 1 == 5 # 4)%Q /\
  calculate_aqi 1 "no2" = 1 /\
  calculate_aqi 250 "pm25" = 400 /\
  calculate_aqi 10 "ozone" = 50.
Proof. repeat split; vm_compute; reflexivity. Qed.

(** At the concentration 40 the lower NO2 piece gives 50 and the upper
    one 51: the pieces do not meet at the boundary. *)
Lemma no2_pieces_disagree_at_40 :
  aqi_breakpoints !! "no2"
  = Some [(0, 40, 0, 50); (40, 80, 51, 100); (80, 180, 101, 200);
          (180, 280, 201, 300); (280, 400, 301, 400)] /\
  ~ (py_int (piece_value (0, 40, 0, 50) 40) = 50 /\
     py_int (piece_value (40, 80, 51, 100) 40) = 50).
Proof.
  split; [vm_compute; reflexivity|].
  intros [_ H]. vm_compute in H. discriminate.
Qed.

(** C5 (amended): at the boundary shared by two adjacent pieces of a
    table the lower piece takes its upper index and the upper piece its
    lower index, which is one more; [calculate_aqi] returns the value of
    the lower piece, so 40 of NO2 has index 50. *)
Theorem aqi_boundary_values
    (pollutant : string) (bps : list breakpoint) (i : nat) (b1 b2 : breakpoint) :
  aqi_breakpoints !! pollutant = Some bps ->
  bps !! i = Some b1 -> bps !! S i = Some b2 ->
  c_high b1 = c_low b2 /\
  (piece_value b1 (inject_Z (c_high b1)) == inject_Z (aqi_high b1))%Q /\
  (piece_value b2 (inject_Z (c_low b2)) == inject_Z (aqi_low b2))%Q /\
  aqi_low b2 = aqi_high b1 + 1 /\
  calculate_aqi (inject_Z (c_high b1)) pollutant = aqi_high b1.
Proof.
  intros H H1 H2. table_cases H.
  all: do 5 (try destruct i as [|i]); simpl in H1, H2; try discriminate.
  all: injection H1; intros <-; injection H2; intros <-.
  all: repeat split; vm_compute; reflexivity.
Qed.

Lemma aqi_boundary_values_witness :
  aqi_breakpoints !! "no2"
  = Some [(0, 40, 0, 50); (40, 80, 51, 100); (80, 180, 101, 200);
          (180, 280, 201, 300); (280, 400, 301, 400)] /\
  calculate_aqi 40 "no2" = 50.
Proof.
  split; [vm_compute; reflexivity|].
  refine (proj2 (proj2 (proj2 (proj2
    (aqi_boundary_values "no2" _ 0 (0, 40, 0, 50) (40, 80, 51, 100) _ _ _))))).
  - vm_compute. reflexivity.
  - reflexivity.
  - reflexivity.
Defined.

(** *** Precipitation and flood risk *)

Lemma classify_flood_risk_thresholds (s : Q) :
  ((s < 1 # 4)%Q -> classify_flood_risk s = "Low") /\
  ((1 # 4 <= s)%Q -> (s < 1 # 2)%Q -> classify_flood_risk s = "Medium") /\
  ((1 # 2 <= s)%Q -> (s < 3 # 4)%Q -> classify_flood_risk s = "High") /\
  ((3 # 4 <= s)%Q -> classify_flood_risk s = "Critical").
Proof.
  unfold classify_flood_risk. repeat split; intros; q_cases; try reflexivity; lra.
Qed.

End DataNormalizerFacts.

Module EngineFacts.
Import Num NumFacts Engine.

(** *** The stable sort *)

Section Sorting.
Context {A : Type} (key : A -> Z * Z).

Lemma tuple_ltb_spec (a b : Z * Z) :
  tuple_ltb a b = true <-> (a.1 < b.1 \/ (a.1 = b.1 /\ a.2 < b.2)).
Proof.
  unfold tuple_ltb. rewrite orb_true_iff, andb_true_iff, !Z.ltb_lt, Z.eqb_eq. tauto.
Qed.

Lemma tuple_ltb_false (a b : Z * Z) :
  tuple_ltb a b = false <-> (b.1 < a.1 \/ (a.1 = b.1 /\ b.2 <= a.2)).
Proof.
  destruct (tuple_ltb a b) eqn:E.
  - apply tuple_ltb_spec in E. split; [discriminate | lia].
  - split; [intros _ | reflexivity].
    assert (H : ~ (a.1 < b.1 \/ (a.1 = b.1 /\ a.2 < b.2))).
    { intros H. apply tuple_ltb_spec in H. congruence. }
    lia.
Qed.

Lemma key_le_trans (a b c : A) : key_le key a b -> key_le key b c -> key_le key a c.
Proof. unfold key_le. rewrite !tuple_ltb_false. lia. Qed.

Lemma key_le_of_lt (a b : A) : tuple_ltb (key a) (key b) = true -> key_le key a b.
Proof. unfold key_le. rewrite tuple_ltb_spec, tuple_ltb_false. lia. Qed.

Lemma insert_by_perm (x : A) (l : list A) : Permutation (x :: l) (insert_by key x l).
Proof.
  induction l as [|y l IH]; simpl; [reflexivity|].
  destruct (tuple_ltb (key y) (key x)); [|reflexivity].
  rewrite perm_swap. apply perm_skip, IH.
Qed.

Lemma list_sort_perm (l : list A) : Permutation l (list_sort key l).
Proof.
  induction l as [|x l IH]; simpl; [reflexivity|].
  rewrite <- insert_by_perm. apply perm_skip, IH.
Qed.

Lemma insert_by_sorted (x : A) (l : list A) :
  StronglySorted (key_le key) l -> StronglySorted (key_le key) (insert_by key x l).
Proof.
  induction 1 as [|y l Hs IH Hall]; simpl.
  - repeat constructor.
  - destruct (tuple_ltb (key y) (key x)) eqn:E.
    + constructor; [exact IH|].
      rewrite <- (insert_by_perm x l). constructor; [|exact Hall].
      apply key_le_of_lt, E.
    + constructor; [constructor; assumption|].
      constructor; [exact E|].
      rewrite List.Forall_forall in *. intros z Hz.
      apply (key_le_trans x y z); [exact E | apply Hall, Hz].
Qed.

Lemma list_sort_sorted (l : list A) : StronglySorted (key_le key) (list_sort key l).
Proof.
  induction l as [|x l IH]; simpl; [constructor|].
  apply insert_by_sorted, IH.
Qed.

(** Stability: the elements with a given key keep their order. *)
Lemma insert_by_filter (k : Z * Z) (x : A) (l : list A) :
  StronglySorted (key_le key) l ->
  filter (fun y => key y = k) (insert_by key x l)
  = filter (fun y => key y = k) (x :: l).
Proof.
  induction 1 as [|y l Hs IH Hall]; simpl; [reflexivity|].
  destruct (tuple_ltb (key y) (key x)) eqn:E; [|reflexivity].
  rewrite !filter_cons in *.
  destruct (decide (key y = k)) as [Hy|Hy], (decide (key x = k)) as [Hx|Hx];
    rewrite ?IH; try reflexivity.
  rewrite Hx, Hy in E. apply tuple_ltb_spec in E. lia.
Qed.

Lemma list_sort_stable (k : Z * Z) (l : list A) :
  filter (fun y => key y = k) (list_sort key l) = filter (fun y => key y = k) l.
Proof.
  induction l as [|x l IH]; simpl; [reflexivity|].
  rewrite insert_by_filter by apply list_sort_sorted.
  rewrite !filter_cons, IH. reflexivity.
Qed.

End Sorting.

Lemma priority_order_inj p q : priority_order p = priority_order q -> p = q.
Proof. destruct p, q; simpl; intros H; try reflexivity; discriminate. Qed.

Lemma key_le_ranked (a b : Recommendation) : key_le sort_key a b <-> ranked_before a b.
Proof.
  unfold key_le, ranked_before. rewrite tuple_ltb_false. unfold sort_key. simpl.
  split.
  - intros [H|[H1 H2]]; [left; exact H|right].
    split; [symmetry; apply priority_order_inj, H1 | lia].
  - intros [H|[H1 H2]]; [left; exact H|right]. rewrite H1. lia.
Qed.

Lemma sort_recommendations_ranked (recs : list Recommendation) :
  StronglySorted ranked_before (sort_recommendations recs).
Proof.
  pose proof (list_sort_sorted sort_key recs) as H.
  unfold sort_recommendations.
  induction H as [|x l Hs IH Hall]; constructor; [exact IH|].
  eapply List.Forall_impl; [|exact Hall]. intros b. apply key_le_ranked.
Qed.

Lemma insert_by_map {A B} (f : A -> B) (key : B -> Z * Z) (x : A) (l : list A) :
  map f (insert_by (fun a => key (f a)) x l) = insert_by key (f x) (map f l).
Proof.
  induction l as [|y l IH]; simpl; [reflexivity|].
  destruct (tuple_ltb (key (f y)) (key (f x))); simpl; [rewrite IH|]; reflexivity.
Qed.

Lemma list_sort_map {A B} (f : A -> B) (key : B -> Z * Z) (l : list A) :
  map f (list_sort (fun a => key (f a)) l) = list_sort key (map f l).
Proof.
  induction l as [|x l IH]; simpl; [reflexivity|].
  rewrite insert_by_map, IH. reflexivity.
Qed.

(** C7: the list returned holds exactly the recommendations the
    generators produce for the frames that are present, each generator
    being called when its keys are present; every recommendation precedes
    only those of a later tier, or of the same tier with at most its
    affected population, and recommendations with the same tier and
    population keep the order in which they were produced.  When the
    generators produce Medium 500, Critical 200, High 800, Critical 900,
    the list returned is Critical 900, Critical 200, High 800,
    Medium 500. *)
Theorem generate_all_recommendations_ranked
    (air_quality_generator : DataFrame -> DataFrame -> list Recommendation)
    (heat_mitigation_generator : DataFrame -> DataFrame -> DataFrame -> list Recommendation)
    (flood_defense_generator : DataFrame -> DataFrame -> list Recommendation)
    (healthcare_generator : DataFrame -> DataFrame -> list Recommendation)
    (green_space_generator : DataFrame -> list Recommendation)
    (analysis_results : gmap string DataFrame) :
  let air_recs :=
    match analysis_results !! "ward_air_quality",
          analysis_results !! "air_quality_hotspots" with
    | Some ward_air_quality, Some hotspots =>
        air_quality_generator ward_air_quality hotspots
    | _, _ => []
    end in
  let heat_recs :=
    match analysis_results !! "heat_islands" with
    | Some heat_islands =>
        heat_mitigation_generator heat_islands
          (default empty_frame (analysis_results !! "cooling_analysis")) empty_frame
    | None => []
    end in
  let flood_recs :=
    match analysis_results !! "drainage_analysis", analysis_results !! "flood_zones" with
    | Some drainage, Some zones => flood_defense_generator drainage zones
    | _, _ => []
    end in
  let health_recs :=
    match analysis_results !! "healthcare_capacity",
          analysis_results !! "healthcare_gaps" with
    | Some capacity, Some gaps => healthcare_generator capacity gaps
    | _, _ => []
    end in
  let green_recs :=
    match analysis_results !! "green_space_deficits" with
    | Some deficits => green_space_generator deficits
    | None => []
    end in
  let produced := air_recs ++ heat_recs ++ flood_recs ++ health_recs ++ green_recs in
  let returned :=
    generate_all_recommendations air_quality_generator heat_mitigation_generator
      flood_defense_generator healthcare_generator green_space_generator
      analysis_results in
  Permutation produced returned /\
  StronglySorted ranked_before returned /\
  (forall tier population,
     filter (fun r => priority r = tier /\ affected_population r = population) returned
     = filter (fun r => priority r = tier /\ affected_population r = population) produced) /\
  (map (fun r => (priority r, affected_population r)) produced
   = [(MEDIUM, 500); (CRITICAL, 200); (HIGH, 800); (CRITICAL, 900)] ->
   map (fun r => (priority r, affected_population r)) returned
   = [(CRITICAL, 900); (CRITICAL, 200); (HIGH, 800); (MEDIUM, 500)]).
Proof.
  intros air_recs heat_recs flood_recs health_recs green_recs produced returned.
  assert (E : returned = sort_recommendations produced) by reflexivity.
  rewrite E. clearbody produced. clear E returned.
  split; [apply list_sort_perm|]. split; [apply sort_recommendations_ranked|]. split.
  - intros tier population.
    pose proof (list_sort_stable sort_key (priority_order tier, - population) produced) as H.
    unfold sort_recommendations.
    assert (Hext : forall l : list Recommendation,
               filter (fun r => priority r = tier /\ affected_population r = population) l
               = filter (fun r => sort_key r = (priority_order tier, - population)) l).
    { intros l. apply list_filter_iff. intros r. unfold sort_key. split.
      - intros [-> ->]. reflexivity.
      - intros [= Hp Ha]. apply priority_order_inj in Hp. split; [exact Hp | lia]. }
    rewrite !Hext. exact H.
  - intros H. unfold sort_recommendations.
    change sort_key
      with (fun r => (fun p : Priority * Z => (priority_order p.1, - p.2))
                       (priority r, affected_population r)).
    rewrite (list_sort_map (fun r => (priority r, affected_population r))
               (fun p : Priority * Z => (priority_order p.1, - p.2))).
    rewrite H. reflexivity.
Qed.

Lemma generate_all_recommendations_ranked_witness :
  map (fun r => (priority r, affected_population r))
      (generate_all_recommendations
         (fun _ _ => [sample_recommendation MEDIUM 500; sample_recommendation CRITICAL 200])
         (fun _ _ _ => [sample_recommendation HIGH 800])
         (fun _ _ => [sample_recommendation LOW 7])
         (fun _ _ => [sample_recommendation LOW 9])
         (fun _ => [sample_recommendation CRITICAL 900])
         three_sources)
  = [(CRITICAL, 900); (CRITICAL, 200); (HIGH, 800); (MEDIUM, 500)].
Proof.
  apply (generate_all_recommendations_ranked
           (fun _ _ => [sample_recommendation MEDIUM 500; sample_recommendation CRITICAL 200])
           (fun _ _ _ => [sample_recommendation HIGH 800])
           (fun _ _ => [sample_recommendation LOW 7])
           (fun _ _ => [sample_recommendation LOW 9])
           (fun _ => [sample_recommendation CRITICAL 900])
           three_sources).
  vm_compute. reflexivity.
Defined.

(** *** The resilience score *)

Lemma air_quality_points_range (avg_aqi : Q) : in_range (air_quality_points avg_aqi).
Proof.
  unfold in_range, air_quality_points, py_max. q_cases; split; lra.
Qed.

Lemma py_max_0_range (x : Q) : (x <= 100)%Q -> in_range (py_max 0 x).
Proof. unfold in_range, py_max. intros H. q_cases; split; lra. Qed.

Lemma Qnat_nonneg (n : nat) : (0 <= Qnat n)%Q.
Proof. unfold Qnat. change 0%Q with (inject_Z 0). rewrite <- Zle_Qle. lia. Qed.

Lemma ratio_nonneg (n m : nat) : (0 <= Qnat n / Qnat m)%Q.
Proof.
  destruct m as [|m].
  - unfold Qdiv. change (/ Qnat 0)%Q with 0%Q. lra.
  - apply Qle_shift_div_l; [|pose proof (Qnat_nonneg n); lra].
    unfold Qnat. change 0%Q with (inject_Z 0). rewrite <- Zlt_Qlt. lia.
Qed.

Lemma heat_points_range (n : nat) :
  in_range (py_max 0 (100 - py_min (Qnat n / 1000) 1 * 80)).
Proof.
  apply py_max_0_range. unfold py_min.
  pose proof (ratio_nonneg n 1000) as H. change (Qnat 1000) with 1000%Q in H.
  q_cases; lra.
Qed.

Ltac step_cases H :=
  repeat match type of H with
  | context [match ?m !! ?k with _ => _ end] => destruct (m !! k) eqn:?
  | context [if df_empty ?d then _ else _] => destruct (df_empty d)
  | context [if Nat.ltb ?a ?b then _ else _] => destruct (Nat.ltb a b)
  | context [mbind _ ?r] => destruct r eqn:?; cbn [mbind result_bind] in H
  end; try discriminate; injection H; intros <-.

Lemma score_air_shape ar a h f hc g o s :
  score_air ar (scores_shape a h f hc g o) = Ok s ->
  exists a', s = scores_shape a' h f hc g o /\ (a' = a \/ in_range a').
Proof.
  unfold score_air. intros H. step_cases H; eauto.
  eexists. split; [reflexivity|]. right. apply air_quality_points_range.
Qed.

Lemma score_heat_shape ar a h f hc g o s :
  score_heat ar (scores_shape a h f hc g o) = Ok s ->
  exists h', s = scores_shape a h' f hc g o /\ (h' = h \/ in_range h').
Proof.
  unfold score_heat. intros H. step_cases H; eauto.
  eexists. split; [reflexivity|]. right. apply heat_points_range.
Qed.

Lemma score_healthcare_shape ar a h f hc g o s :
  score_healthcare ar (scores_shape a h f hc g o) = Ok s ->
  exists hc', s = scores_shape a h f hc' g o /\
    (hc' = hc \/ ((hc' <= 100)%Q /\ (is_Some (ar !! "healthcare_gaps") -> (0 <= hc')%Q))).
Proof.
  unfold score_healthcare. intros H. step_cases H; eauto.
  - eexists. split; [reflexivity|]. right.
    match goal with |- context [(Qnat ?n / Qnat ?m)%Q] => pose proof (ratio_nonneg n m) end.
    unfold py_max. q_cases; split; intros; lra.
  - eexists. split; [reflexivity|]. right. split.
    + unfold py_min. q_cases; lra.
    + intros [? ?]. discriminate.
Qed.

Lemma score_green_shape ar a h f hc g o s :
  score_green ar (scores_shape a h f hc g o) = Ok s ->
  exists g', s = scores_shape a h f hc g' o /\
    (is_Some (ar !! "green_space_deficits") \/ g' = g).
Proof.
  unfold score_green. intros H. step_cases H; eauto.
Qed.

Lemma score_flood_shape ar a h f hc g o s :
  score_flood ar (scores_shape a h f hc g o) = Ok s ->
  exists f', s = scores_shape a h f' hc g o /\
    (f' = f \/ ((0 <= f')%Q /\ (is_Some (ar !! "flood_zones") -> (f' <= 100)%Q))).
Proof.
  unfold score_flood. intros H. step_cases H; eauto.
  - eexists. split; [reflexivity|]. right.
    match goal with |- context [(Qnat ?n / Qnat ?m)%Q] => pose proof (ratio_nonneg n m) end.
    unfold py_max. q_cases; split; intros; lra.
  - eexists. split; [reflexivity|]. right. split.
    + unfold py_max. q_cases; lra.
    + intros [? ?]. discriminate.
Qed.

(** When the [try] block completes, the dictionary has its six keys in
    order, the overall score is the mean of the five others, the air
    quality and heat scores lie between 0 and 100, and the other three are
    bounded on one side only unless the frame named is given. *)
Lemma calculate_scores_shape (ar : gmap string DataFrame) (scores : dict) :
  calculate_scores ar = Ok scores ->
  exists a h f hc g o,
    scores = scores_shape a h f hc g o /\
    (o == (a + h + f + hc + g) / 5)%Q /\
    in_range a /\ in_range h /\
    (0 <= f)%Q /\ (is_Some (ar !! "flood_zones") -> (f <= 100)%Q) /\
    (hc <= 100)%Q /\ (is_Some (ar !! "healthcare_gaps") -> (0 <= hc)%Q) /\
    (is_Some (ar !! "green_space_deficits") \/ g = 50%Q).
Proof.
  unfold calculate_scores. change initial_scores with (scores_shape 50 50 50 50 50 50).
  intros H.
  destruct (score_air ar _) as [s1|] eqn:E1; cbn [mbind result_bind] in H; [|discriminate].
  apply score_air_shape in E1 as (a & -> & Ha).
  destruct (score_heat ar _) as [s2|] eqn:E2; cbn [mbind result_bind] in H; [|discriminate].
  apply score_heat_shape in E2 as (h & -> & Hh).
  destruct (score_healthcare ar _) as [s3|] eqn:E3; cbn [mbind result_bind] in H; [|discriminate].
  apply score_healthcare_shape in E3 as (hc & -> & Hhc).
  destruct (score_green ar _) as [s4|] eqn:E4; cbn [mbind result_bind] in H; [|discriminate].
  apply score_green_shape in E4 as (g & -> & Hg).
  destruct (score_flood ar _) as [s5|] eqn:E5; cbn [mbind result_bind] in H; [|discriminate].
  apply score_flood_shape in E5 as (f & -> & Hf).
  injection H; intros <-.
  eexists a, h, f, hc, g, _. split; [reflexivity|].
  assert (R50 : in_range 50) by (unfold in_range; lra).
  repeat split.
  - unfold np_mean, Qsum, dict_values. simpl. field.
  - destruct Ha as [->|Ha]; [apply R50 | apply Ha].
  - destruct Ha as [->|Ha]; [apply R50 | apply Ha].
  - destruct Hh as [->|Hh]; [apply R50 | apply Hh].
  - destruct Hh as [->|Hh]; [apply R50 | apply Hh].
  - destruct Hf as [->|Hf]; [lra | apply Hf].
  - destruct Hf as [->|Hf]; [lra | apply Hf].
  - destruct Hhc as [->|Hhc]; [lra | apply Hhc].
  - destruct Hhc as [->|Hhc]; [lra | apply Hhc].
  - exact Hg.
Qed.

(** C6 (the code departs from it): the green space score is the mean of
    [combined_green_score] as it is, so one ward with 27 square metres
    per person gives a green space score of 150 and an overall score of
    70; the overall score is the mean of the five domain scores. *)
Theorem green_space_score_exceeds_100 :
  exists scores status g o,
    calculate_city_resilience_score green_city []
    = {| resilience_scores := scores;
         summary := Some (summarize []);
         city_status := Some status |} /\
    dict_get "green_space_score" scores = Some g /\
    (g == 150)%Q /\ ~ in_range g /\
    dict_get "overall_resilience_score" scores = Some o /\
    (o == (50 + 50 + 50 + 50 + g) / 5)%Q /\ (o == 70)%Q.
Proof.
  eexists _, _, _, _. split; [vm_compute; reflexivity|].
  split; [reflexivity|]. split; [reflexivity|]. split.
  - unfold in_range. intros [_ H]. revert H. apply Qlt_not_le. reflexivity.
  - split; [reflexivity|]. split; reflexivity.
Qed.

End EngineFacts.

Module OmiFacts.
Import Num Omi.

(** The bounds of the mask: the exact values of the four floats. *)
Lemma buffered_bounds_values :
  (south_bound == 5263582064489267 # 281474976710656)%Q
  /\ (north_bound == 5460614548186727 # 281474976710656)%Q
  /\ (west_bound == 5108770827298407 # 70368744177664)%Q
  /\ (east_bound == 73)%Q.
Proof. repeat split; vm_compute; reflexivity. Qed.

(** The southern bound is below 18.7, the northern one above 19.4 and the
    western one above 72.6: a pixel at the latitude 18.7 or 19.4 is in
    the mask, a pixel at the longitude 72.6 is not. *)
Example buffered_bounds_rounding :
  (south_bound < 187 # 10)%Q /\ (194 # 10 < north_bound)%Q /\ (726 # 10 < west_bound)%Q
  /\ in_buffered_bounds (Fin (187 # 10)) (Fin (728 # 10)) = true
  /\ in_buffered_bounds (Fin (194 # 10)) (Fin (728 # 10)) = true
  /\ in_buffered_bounds (Fin 19) (Fin (726 # 10)) = false
  /\ in_buffered_bounds (Fin 19) (Fin 73) = true.
Proof. repeat split; vm_compute; reflexivity. Qed.

Section Swath.
Context (lognormal_unit : list (list fval)).
Context (lognormal_from_stats : fval -> fval -> list (list fval)).
Context (nanstd : list Q -> fval).

Lemma broadcast2_same_length {A B D} (f : A -> B -> D) (a : list A) (b : list B) :
  length b = length a -> DataNormalizer.broadcast2 f a b = Ok (zip_with f a b).
Proof.
  intros H. unfold DataNormalizer.broadcast2. rewrite decide_True by congruence. reflexivity.
Qed.

Lemma boolean_index_same_length {A B E} (f : A -> B -> bool) (a : list A) (b : list B)
    (e : list E) :
  length b = length a -> length e = length a ->
  boolean_index (zip_with f a b) e = Ok (select (zip_with f a b) e).
Proof.
  intros Hb He. unfold boolean_index.
  rewrite decide_True; [reflexivity|].
  rewrite length_zip_with. lia.
Qed.

(** For arrays of one shape the body of [region_grid] is the one without
    exceptions. *)
Lemma region_grid_same_shape (lat_data lon_data main_data : list fval) :
  length lon_data = length lat_data -> length main_data = length lat_data ->
  region_grid lognormal_unit lognormal_from_stats nanstd
    (Some lat_data) (Some lon_data) main_data
  = let mumbai_mask := zip_with in_buffered_bounds lat_data lon_data in
    if existsb id mumbai_mask then
      if Nat.ltb 5 (length (List.filter id mumbai_mask)) then
        match omap valid_pixel
                (zip (zip (select mumbai_mask lat_data) (select mumbai_mask lon_data))
                     (select mumbai_mask main_data)) with
        | p :: valid =>
            Ok (idw_grid (p :: valid)
                  (linspace (south mumbai_bounds) (north mumbai_bounds) 25)
                  (linspace (west mumbai_bounds) (east mumbai_bounds) 25),
                [(INFO, "REAL OMI DATA: {len(valid_values)} satellite pixels over Mumbai");
                 (INFO, "Coverage: {coverage_fraction:.1%}, Mean {var_name}: {mean_val:.2e}");
                 (INFO, "Interpolated to 25x25 Mumbai grid using real satellite observations")])
        | [] =>
            Ok (lognormal_from_stats (global_mean main_data)
                  (nanstd (omap positive main_data)),
                [(INFO, "Using global swath statistics: mean={global_mean:.2e}, std={global_std:.2e}");
                 (INFO, "Created statistically-informed Mumbai grid (no valid pixels in region)")])
        end
      else
        Ok (scale lognormal_unit (global_mean main_data),
            [(INFO, "Created statistically-informed grid (only {mumbai_pixels} pixels in extended region)")])
    else
      Ok (scale lognormal_unit (global_mean main_data),
          [(INFO, "Created statistically-informed grid (swath does not cover Mumbai region)")]).
Proof.
  intros Hlon Hmain. unfold region_grid.
  rewrite (broadcast2_same_length in_buffered_bounds lat_data lon_data Hlon).
  cbn [mbind result_bind]. cbv zeta.
  destruct (existsb id (zip_with in_buffered_bounds lat_data lon_data)); [|reflexivity].
  destruct (Nat.ltb 5 _); [|reflexivity].
  rewrite (boolean_index_same_length in_buffered_bounds lat_data lon_data lat_data Hlon eq_refl).
  rewrite (boolean_index_same_length in_buffered_bounds lat_data lon_data lon_data Hlon Hlon).
  rewrite (boolean_index_same_length in_buffered_bounds lat_data lon_data main_data Hlon Hmain).
  cbn [mbind result_bind].
  destruct (omap valid_pixel _); reflexivity.
Qed.

(** Arrays of one shape, or a swath without coordinates: a grid is
    returned, and every record of the log is an information. *)
Lemma region_grid_returns (lat_data lon_data : option (list fval)) (main_data : list fval) :
  match lat_data, lon_data with
  | Some lat_data, Some lon_data =>
      length lon_data = length lat_data /\ length main_data = length lat_data
  | _, _ => True
  end ->
  exists grid_data log,
    region_grid lognormal_unit lognormal_from_stats nanstd lat_data lon_data main_data
    = Ok (grid_data, log)
    /\ Forall (fun record => record.1 = INFO) log.
Proof.
  destruct lat_data as [lat_data|], lon_data as [lon_data|];
    try (intros _; eexists _, _; split; [reflexivity|]; repeat constructor).
  intros [Hlon Hmain]. rewrite (region_grid_same_shape _ _ _ Hlon Hmain). cbv zeta.
  destruct (existsb id _); [|eexists _, _; split; [reflexivity|]; repeat constructor].
  destruct (Nat.ltb 5 _); [|eexists _, _; split; [reflexivity|]; repeat constructor].
  destruct (omap valid_pixel _); eexists _, _; (split; [reflexivity|]); repeat constructor.
Qed.

(** With no pixel inside the buffered bounds the grid is the random draw
    scaled by the mean of the positive values of the whole swath. *)
Lemma region_grid_no_coverage lat_data lon_data main_data :
  length lon_data = length lat_data -> length main_data = length lat_data ->
  existsb id (zip_with in_buffered_bounds lat_data lon_data) = false ->
  region_grid lognormal_unit lognormal_from_stats nanstd
    (Some lat_data) (Some lon_data) main_data
  = Ok (scale lognormal_unit (global_mean main_data),
        [(INFO, "Created statistically-informed grid (swath does not cover Mumbai region)")]).
Proof.
  intros Hlon Hmain H. rewrite (region_grid_same_shape _ _ _ Hlon Hmain). cbv zeta.
  rewrite H. reflexivity.
Qed.

(** With pixels inside the bounds of which none is valid, the grid is
    the draw made from the statistics of the whole swath. *)
Lemma region_grid_no_valid_values :
  region_grid lognormal_unit lognormal_from_stats nanstd
    (Some cloudy_lat) (Some cloudy_lon) cloudy_no2
  = Ok (lognormal_from_stats (Fin (inject_Z (3 * 10 ^ 15)))
          (nanstd [inject_Z (3 * 10 ^ 15)]),
        [(INFO, "Using global swath statistics: mean={global_mean:.2e}, std={global_std:.2e}");
         (INFO, "Created statistically-informed Mumbai grid (no valid pixels in region)")]).
Proof. vm_compute. reflexivity. Qed.

(** With six pixels over the city of which one lies at the longitude
    72.6, five pixels are in the mask and the grid is the scaled draw. *)
Lemma region_grid_edge_pixel :
  region_grid lognormal_unit lognormal_from_stats nanstd
    (Some edge_lat) (Some edge_lon) edge_no2
  = Ok (scale lognormal_unit (global_mean edge_no2),
        [(INFO, "Created statistically-informed grid (only {mumbai_pixels} pixels in extended region)")]).
Proof.
  rewrite region_grid_same_shape by reflexivity. cbv zeta.
  assert (E : zip_with in_buffered_bounds edge_lat edge_lon
              = [false; true; true; true; true; true]) by (vm_compute; reflexivity).
  rewrite E. reflexivity.
Qed.

End Swath.

(** C1 (the code departs from it): for a swath with no pixel inside the
    buffered bounds of the region the function does not report that the
    data is unavailable; it returns a dataset whose NO2 column is the
    random draw scaled by the mean of the swath, and logs that real data
    was loaded. *)
Theorem omi_no_coverage_returns_synthetic_grid
    (lognormal_unit : list (list fval))
    (lognormal_from_stats : fval -> fval -> list (list fval))
    (nanstd : list Q -> fval) :
  existsb id (zip_with in_buffered_bounds atlantic_lat atlantic_lon) = false /\
  exists ds log,
    _process_omi_hdf_file lognormal_unit lognormal_from_stats nanstd
      atlantic_file "OMNO2"
    = (Some ds, log) /\
    data_vars ds !! 0%nat
    = Some ("NO2_column",
            scale lognormal_unit (Fin (inject_Z (5 * 10 ^ 15) / 2))) /\
    In (INFO, "Created statistically-informed grid (swath does not cover Mumbai region)")
       log /\
    In (INFO, "REAL OMI DATA LOADED! Variables: {list(processed_ds.variables.keys())}")
       log.
Proof.
  split; [vm_compute; reflexivity|].
  eexists _, _. split; [vm_compute; reflexivity|]. split; [reflexivity|].
  split; simpl; tauto.
Qed.

End OmiFacts.

(** ** Binary64 numbers

    The comparisons of floats are read on the keys of their order. *)

Module IeeeFacts.
Import Ieee.

Lemma SFcompare_key (x y : spec_float) :
  match order_key x, order_key y with
  | Some a, Some b =>
      (SFcompare x y = Some Lt /\ triple_lt a b)
      \/ (SFcompare x y = Some Eq /\ a = b)
      \/ (SFcompare x y = Some Gt /\ triple_lt b a)
  | _, _ => SFcompare x y = None
  end.
Proof.
  destruct x as [[|]|[|]| |[|] m1 e1], y as [[|]|[|]| |[|] m2 e2]; cbn -[Z.compare];
    unfold triple_lt; cbn [fst snd];
    try reflexivity; try (left; split; [reflexivity | lia]);
    try (right; left; split; reflexivity);
    try (right; right; split; [reflexivity | lia]).
  - destruct (Z.compare_spec e1 e2) as [->|H|H].
    + rewrite Pos.compare_cont_spec. cbn [Pos.switch_Eq].
      destruct (Pos.compare_spec m1 m2) as [->|Hm|Hm]; cbn [CompOpp].
      * right. left. split; reflexivity.
      * right. right. split; [reflexivity | lia].
      * left. split; [reflexivity | lia].
    + right. right. split; [reflexivity | lia].
    + left. split; [reflexivity | lia].
  - destruct (Z.compare_spec e1 e2) as [->|H|H].
    + rewrite Pos.compare_cont_spec. cbn [Pos.switch_Eq].
      destruct (Pos.compare_spec m1 m2) as [->|Hm|Hm].
      * right. left. split; reflexivity.
      * left. split; [reflexivity | lia].
      * right. right. split; [reflexivity | lia].
    + left. split; [reflexivity | lia].
    + right. right. split; [reflexivity | lia].
Qed.

Lemma triple_lt_irrefl a : ~ triple_lt a a.
Proof. unfold triple_lt. lia. Qed.

Lemma triple_lt_asym a b : triple_lt a b -> ~ triple_lt b a.
Proof. unfold triple_lt. lia. Qed.

Lemma ltb_true_iff (x y : float) : (x <? y)%float = true <-> float_lt x y.
Proof.
  rewrite ltb_spec. unfold SFltb, float_lt.
  pose proof (SFcompare_key (Prim2SF x) (Prim2SF y)) as H.
  destruct (order_key (Prim2SF x)) as [a|], (order_key (Prim2SF y)) as [b|];
    try (rewrite H; split; [discriminate | tauto]).
  destruct H as [[-> H]|[[-> H]|[-> H]]].
  - tauto.
  - subst b. split; [discriminate | intros H; exfalso; exact (triple_lt_irrefl a H)].
  - split; [discriminate | intros H'; exfalso; exact (triple_lt_asym _ _ H H')].
Qed.

Lemma triple_le_lt a b : triple_le a b <-> triple_lt a b \/ a = b.
Proof.
  destruct a as [[a1 a2] a3], b as [[b1 b2] b3]. unfold triple_le, triple_lt. cbn [fst snd].
  split.
  - intros H. destruct (decide (a1 = b1 /\ a2 = b2 /\ a3 = b3)) as [(-> & -> & ->)|Hn];
      [right; reflexivity | left; lia].
  - intros [H|H]; [lia | injection H; lia].
Qed.

Lemma leb_true_iff (x y : float) : (x <=? y)%float = true <-> float_le x y.
Proof.
  rewrite leb_spec. unfold SFleb, float_le.
  pose proof (SFcompare_key (Prim2SF x) (Prim2SF y)) as H.
  destruct (order_key (Prim2SF x)) as [a|], (order_key (Prim2SF y)) as [b|];
    try (rewrite H; split; [discriminate | tauto]).
  rewrite triple_le_lt.
  destruct H as [[-> H]|[[-> H]|[-> H]]].
  - tauto.
  - tauto.
  - split; [discriminate|]. intros [H'| ->]; exfalso.
    + exact (triple_lt_asym _ _ H H').
    + exact (triple_lt_irrefl _ H).
Qed.

Lemma ltb_false_iff (x y : float) : (x <? y)%float = false <-> ~ float_lt x y.
Proof. rewrite <- ltb_true_iff. destruct (x <? y)%float; split; congruence. Qed.

Lemma leb_false_iff (x y : float) : (x <=? y)%float = false <-> ~ float_le x y.
Proof. rewrite <- leb_true_iff. destruct (x <=? y)%float; split; congruence. Qed.

End IeeeFacts.

(** ** The normalisers on binary64 numbers *)

Module Binary64Facts.
Import Ieee IeeeFacts Binary64 DataNormalizerFacts.
Local Open Scope float_scope.

Lemma is_nan_iff (x : float) : is_nan x = true <-> order_key (Prim2SF x) = None.
Proof.
  unfold is_nan. rewrite FloatAxioms.eqb_spec. unfold SFeqb.
  pose proof (SFcompare_key (Prim2SF x) (Prim2SF x)) as H.
  destruct (order_key (Prim2SF x)) as [a|].
  - destruct H as [[_ H]|[[-> _]|[_ H]]];
      [exfalso; exact (triple_lt_irrefl a H) | split; discriminate
      | exfalso; exact (triple_lt_irrefl a H)].
  - rewrite H. tauto.
Qed.

Lemma is_nan_false_iff (x : float) :
  is_nan x = false <-> exists a, order_key (Prim2SF x) = Some a.
Proof.
  pose proof (is_nan_iff x) as H. destruct (is_nan x).
  - split; [discriminate|]. intros [a Ha]. destruct H as [H _].
    rewrite H in Ha by reflexivity. discriminate.
  - split; [|reflexivity]. intros _.
    destruct (order_key (Prim2SF x)) as [a|]; [eauto|].
    destruct H as [_ H]. specialize (H eq_refl). discriminate.
Qed.

(** Comparisons of floats, one side of which may be a variable, are
    decided on the keys. *)
Ltac float_order :=
  rewrite ?ltb_true_iff, ?ltb_false_iff, ?leb_true_iff, ?leb_false_iff,
          ?is_nan_iff, ?is_nan_false_iff in *;
  unfold float_lt, float_le in *;
  repeat match goal with
  | x : float |- _ =>
      match goal with
      | |- context [order_key (Prim2SF x)] => idtac
      | _ : context [order_key (Prim2SF x)] |- _ => idtac
      end;
      let k := fresh "k" in let e := fresh "e" in let m := fresh "m" in
      destruct (order_key (Prim2SF x)) as [[[k e] m]|]
  end;
  repeat match goal with
  | |- context [order_key (Prim2SF ?c)] =>
      let v := eval vm_compute in (order_key (Prim2SF c)) in
      change (order_key (Prim2SF c)) with v
  | H : context [order_key (Prim2SF ?c)] |- _ =>
      let v := eval vm_compute in (order_key (Prim2SF c)) in
      change (order_key (Prim2SF c)) with v in H
  end;
  unfold triple_lt, triple_le in *; cbn [fst snd] in *.

Lemma classify_heat_stress_bands (t : float) :
  ((t <? 30) = true -> classify_heat_stress t = "Low") /\
  ((30 <=? t) = true -> (t <? 35) = true -> classify_heat_stress t = "Moderate") /\
  ((35 <=? t) = true -> (t <? 40) = true -> classify_heat_stress t = "High") /\
  ((40 <=? t) = true -> classify_heat_stress t = "Extreme").
Proof.
  unfold classify_heat_stress. repeat split.
  - intros ->. reflexivity.
  - intros H1 H2. rewrite H2.
    assert (E : (t <? 30) = false) by (float_order; lia). rewrite E. reflexivity.
  - intros H1 H2. rewrite H2.
    assert (E1 : (t <? 30) = false) by (float_order; lia).
    assert (E2 : (t <? 35) = false) by (float_order; lia).
    rewrite E1, E2. reflexivity.
  - intros H1.
    assert (E1 : (t <? 30) = false) by (float_order; lia).
    assert (E2 : (t <? 35) = false) by (float_order; lia).
    assert (E3 : (t <? 40) = false) by (float_order; lia).
    rewrite E1, E2, E3. reflexivity.
Qed.


Lemma np_clip_clamp (x lo hi : float) :
  is_nan lo = false -> (lo <? hi) = true -> np_clip x lo hi = clamp x lo hi.
Proof.
  intros Hlo Hlt. unfold np_clip, np_maximum, np_minimum, clamp.
  destruct (is_nan x) eqn:En; [rewrite En; reflexivity|].
  destruct (lo <? x); [rewrite En; reflexivity|].
  rewrite Hlo, Hlt. reflexivity.
Qed.

(** The categories and the scores the scenario expects are not the ones
    computed: 34 is below 35, 38 is below 40, and the score of 34 is the
    float next above 56. *)
Lemma scenario_outcome_differs :
  heat_stress_category (normalize_temperature scenario_temperatures).1
  <> Some ["Low"; "Moderate"; "Moderate"; "High"; "High"; "Extreme"]
  /\ temperature_normalized (normalize_temperature scenario_temperatures).1
     <> Some [32; 40; 48; 56; 64; 72].
Proof.
  split.
  - vm_compute. discriminate.
  - intros H.
    apply (f_equal (fun scores =>
                      match scores with
                      | Some [_; _; _; s; _; _] => s =? 56
                      | _ => true
                      end)) in H.
    vm_compute in H. discriminate.
Qed.

(** C4 (amended): with the thresholds below 30 Low, below 35 Moderate,
    below 40 High and Extreme from 40 on, and the score
    clip((T-20)/25*100, 0, 100) computed on binary64 numbers, the
    temperatures 28, 30, 32, 34, 36, 38 are classified Low, Moderate,
    Moderate, Moderate, High, High and scored 32, 40, 48,
    56.00000000000001, 64, 72: the score of 34 is the float next above
    56, which is 56 + 2^-47. *)
Theorem normalize_temperature_scenario :
  (forall t : float,
     ((t <? 30) = true -> classify_heat_stress t = "Low") /\
     ((30 <=? t) = true -> (t <? 35) = true -> classify_heat_stress t = "Moderate") /\
     ((35 <=? t) = true -> (t <? 40) = true -> classify_heat_stress t = "High") /\
     ((40 <=? t) = true -> classify_heat_stress t = "Extreme")) /\
  (forall temp_celsius : list float,
     temp_celsius <> [] ->
     normalize_temperature temp_celsius
     = ({| temperature_normalized :=
             Some (map (fun t =>
                          let x := (t - 20) / 25 * 100 in
                          if is_nan x then x
                          else if 0 <? x then (if x <? 100 then x else 100) else 0)
                       temp_celsius);
           heat_stress_category := Some (map classify_heat_stress temp_celsius);
           temperature_celsius := temp_celsius |}, [])) /\
  normalize_temperature scenario_temperatures
  = ({| temperature_normalized := Some [32; 40; 48; next_up 56; 64; 72];
        heat_stress_category :=
          Some ["Low"; "Moderate"; "Moderate"; "Moderate"; "High"; "High"];
        temperature_celsius := scenario_temperatures |}, []) /\
  (56 <? next_up 56) = true /\
  exists q, float_Q (next_up 56) = Some q /\ (q == 56 + (1 # 2 ^ 47))%Q.
Proof.
  split; [exact classify_heat_stress_bands|]. split; [|split; [|split]].
  - intros temp_celsius Hne. unfold normalize_temperature, DataNormalizer.np_vectorize.
    destruct temp_celsius as [|t rest]; [congruence|].
    do 3 f_equal. apply map_ext. intros t'. apply (np_clip_clamp _ 0 100); reflexivity.
  - vm_compute. reflexivity.
  - vm_compute. reflexivity.
  - eexists. split; [vm_compute; reflexivity|]. vm_compute. reflexivity.
Qed.

Lemma normalize_temperature_scenario_witness :
  (30 <=? 34) = true /\ (34 <? 35) = true /\ classify_heat_stress 34 = "Moderate".
Proof.
  split; [reflexivity|]. split; [reflexivity|].
  apply (proj1 (proj2 (proj1 normalize_temperature_scenario 34))); reflexivity.
Defined.


(** *** Air quality index *)

Ltac float_finish := first [lia | tauto | intuition (first [lia | congruence])].

Lemma aqi_loop_none (bps : list DataNormalizer.breakpoint) (c : float) :
  (forall bp, In bp bps -> in_piece bp c = false) -> aqi_loop bps c = Ok 400%Z.
Proof.
  induction bps as [|bp bps IH]; intros H; simpl; [reflexivity|].
  rewrite (H bp) by (left; reflexivity).
  apply IH. intros bp' Hin. apply H. right. exact Hin.
Qed.

Lemma aqi_loop_at (bps : list DataNormalizer.breakpoint) (c : float) (i : nat)
    (bp : DataNormalizer.breakpoint) :
  bps !! i = Some bp -> in_piece bp c = true ->
  (forall (j : nat) bp', (j < i)%nat -> bps !! j = Some bp' -> in_piece bp' c = false) ->
  aqi_loop bps c = py_int (piece_value bp c).
Proof.
  revert i. induction bps as [|b bps IH]; intros i Hi Hin Hfirst; [discriminate|].
  destruct i as [|i]; simpl in Hi.
  - injection Hi; intros ->. simpl. rewrite Hin. reflexivity.
  - simpl. rewrite (Hfirst 0%nat b) by (simpl; first [lia | reflexivity]).
    apply (IH i); [exact Hi | exact Hin |].
    intros j bp' Hj Hl. apply (Hfirst (S j)); [lia | exact Hl].
Qed.

(** The pieces of a table hold exactly the numbers from 0 to its last
    upper bound. *)
Lemma no_piece_iff (p : string) (bps : list DataNormalizer.breakpoint) (c : float) :
  DataNormalizer.aqi_breakpoints !! p = Some bps ->
  ((c <? 0) = true \/ (Zfloat (DataNormalizer.table_upper bps) <? c) = true
   \/ is_nan c = true)
  <-> (forall bp, In bp bps -> in_piece bp c = false).
Proof.
  intros H. table_cases H.
  all: unfold DataNormalizer.table_upper, DataNormalizer.c_high;
    simpl List.last; simpl snd; simpl fst.
  all: split.
  all: try (intros Hc bp Hin; simpl in Hin;
    repeat (destruct Hin as [<-|Hin]); try (destruct Hin);
    unfold in_piece; apply andb_false_iff; float_order; float_finish).
  all: intros Hall;
    pose proof (Hall _ (or_introl eq_refl)) as H1;
    pose proof (Hall _ (or_intror (or_introl eq_refl))) as H2;
    pose proof (Hall _ (or_intror (or_intror (or_introl eq_refl)))) as H3;
    pose proof (Hall _ (or_intror (or_intror (or_intror (or_introl eq_refl))))) as H4;
    pose proof (Hall _ (or_intror (or_intror (or_intror (or_intror (or_introl eq_refl)))))) as H5;
    clear Hall; unfold in_piece in H1, H2, H3, H4, H5;
    apply andb_false_iff in H1, H2, H3, H4, H5;
    float_order; float_finish.
Qed.

Lemma py_int_nonpos (x : Q) :
  (x <= 0)%Q -> (inject_Z (Num.py_int x - 1) < x)%Q /\ (x <= inject_Z (Num.py_int x))%Q.
Proof.
  destruct x as [n d]. unfold Qle, Qlt, Num.py_int. simpl. intros Hn.
  rewrite Z.mul_1_r in Hn. rewrite !Z.mul_1_r.
  assert (E : Z.quot n (Z.pos d) = (- (- n / Z.pos d))%Z).
  { rewrite <- (Z.opp_involutive n) at 1. rewrite Z.quot_opp_l by lia.
    rewrite Z.quot_div_nonneg by lia. reflexivity. }
  rewrite E.
  pose proof (Z.mul_div_le (- n)%Z (Z.pos d) ltac:(lia)).
  pose proof (Z.mul_succ_div_gt (- n)%Z (Z.pos d) ltac:(lia)).
  split; nia.
Qed.


(** C10: for a pollutant with a table, a concentration below 0, above
    the last upper bound of the table or NaN lies in no piece, and these
    are the only ones; its sub-index is 400.  A concentration in a piece
    has the sub-index [int] of
    (aqi_high - aqi_low) / (c_high - c_low) * (c - c_low) + aqi_low,
    computed on binary64 numbers for the first piece that holds it;
    [int] cuts the fraction of the exact value of that float off, toward
    zero.  So 1 of NO2 has index 1 (of 1.25), 39.99 has 49 (of 49.9875)
    and 2.4 has 3, the product being the float 3. *)
Theorem calculate_aqi_outside_and_truncation
    (pollutant : string) (bps : list DataNormalizer.breakpoint) (c : float) :
  DataNormalizer.aqi_breakpoints !! pollutant = Some bps ->
  (((c <? 0) = true \/ (Zfloat (DataNormalizer.table_upper bps) <? c) = true
    \/ is_nan c = true)
   <-> (forall c_low c_high aqi_low aqi_high,
          In (c_low, c_high, aqi_low, aqi_high) bps ->
          (Zfloat c_low <=? c) && (c <=? Zfloat c_high) = false)) /\
  ((forall c_low c_high aqi_low aqi_high,
      In (c_low, c_high, aqi_low, aqi_high) bps ->
      (Zfloat c_low <=? c) && (c <=? Zfloat c_high) = false) ->
   calculate_aqi c pollutant = Ok 400%Z) /\
  (forall (i : nat) (c_low c_high aqi_low aqi_high : Z),
     bps !! i = Some (c_low, c_high, aqi_low, aqi_high) ->
     (Zfloat c_low <=? c) = true -> (c <=? Zfloat c_high) = true ->
     (forall (j : nat) l h al ah,
        (j < i)%nat -> bps !! j = Some (l, h, al, ah) ->
        (Zfloat l <=? c) && (c <=? Zfloat h) = false) ->
     calculate_aqi c pollutant
     = py_int (Zfloat (aqi_high - aqi_low) / Zfloat (c_high - c_low) * (c - Zfloat c_low)
               + Zfloat aqi_low)) /\
  (forall (x : float) (q : Q),
     float_Q x = Some q ->
     exists z : Z,
       py_int x = Ok z /\
       ((0 <= q)%Q -> (inject_Z z <= q)%Q /\ (q < inject_Z (z + 1))%Q) /\
       ((q <= 0)%Q -> (inject_Z (z - 1) < q)%Q /\ (q <= inject_Z z)%Q)) /\
  calculate_aqi 1 "no2" = Ok 1%Z /\
  calculate_aqi (3999 / 100) "no2" = Ok 49%Z /\
  calculate_aqi (24 / 10) "no2" = Ok 3%Z /\
  calculate_aqi (-1 / 10) "no2" = Ok 400%Z /\
  calculate_aqi 251 "pm25" = Ok 400%Z.
Proof.
  intros H.
  assert (Hpieces : forall P : DataNormalizer.breakpoint -> Prop,
             (forall bp, In bp bps -> P bp)
             <-> (forall c_low c_high aqi_low aqi_high,
                    In (c_low, c_high, aqi_low, aqi_high) bps ->
                    P (c_low, c_high, aqi_low, aqi_high))).
  { intros P. split; [intros HP ? ? ? ? Hin; exact (HP _ Hin)|].
    intros HP [[[l h] al] ah] Hin. exact (HP _ _ _ _ Hin). }
  split; [|split; [|split; [|split]]].
  - rewrite (no_piece_iff pollutant bps c H).
    apply (Hpieces (fun bp => in_piece bp c = false)).
  - intros Hnone. unfold calculate_aqi. rewrite H. apply aqi_loop_none.
    apply (Hpieces (fun bp => in_piece bp c = false)). exact Hnone.
  - intros i c_low c_high aqi_low aqi_high Hi Hlo Hhi Hfirst.
    unfold calculate_aqi. rewrite H.
    rewrite (aqi_loop_at bps c i (c_low, c_high, aqi_low, aqi_high) Hi).
    + reflexivity.
    + unfold in_piece. rewrite Hlo, Hhi. reflexivity.
    + intros j [[[l h] al] ah] Hj Hl. exact (Hfirst j l h al ah Hj Hl).
  - intros x q Hq. exists (Num.py_int q). unfold py_int. rewrite Hq.
    split; [reflexivity|]. split.
    + apply DataNormalizerFacts.py_int_nonneg.
    + apply py_int_nonpos.
  - repeat split; vm_compute; reflexivity.
Qed.

Lemma calculate_aqi_outside_and_truncation_witness :
  DataNormalizer.aqi_breakpoints !! "no2"
  = Some [(0, 40, 0, 50); (40, 80, 51, 100); (80, 180, 101, 200);
          (180, 280, 201, 300); (280, 400, 301, 400)]%Z /\
  calculate_aqi (3999 / 100) "no2"
  = py_int (Zfloat (50 - 0) / Zfloat (40 - 0) * (3999 / 100 - Zfloat 0) + Zfloat 0).
Proof.
  split; [vm_compute; reflexivity|].
  refine (proj1 (proj2 (proj2 (calculate_aqi_outside_and_truncation "no2" _ (3999 / 100) _)))
            0%nat 0%Z 40%Z 0%Z 50%Z _ _ _ _).
  - vm_compute. reflexivity.
  - reflexivity.
  - reflexivity.
  - reflexivity.
  - intros j l h al ah Hj. lia.
Defined.

(** The value of the product at 2.4 of NO2 is the float 3, so the index
    is 3; the exact value of 1.25 times the float next to 2.4 is below 3. *)
Example no2_rounds_up_before_truncation :
  piece_value (0, 40, 0, 50)%Z (24 / 10) = 3
  /\ exists q, float_Q (24 / 10) = Some q
               /\ Num.py_int (DataNormalizer.piece_value (0, 40, 0, 50)%Z q) = 2%Z.
Proof.
  split; [vm_compute; reflexivity|].
  eexists. split; [vm_compute; reflexivity|]. vm_compute. reflexivity.
Qed.

(** *** Precipitation and flood risk *)

Lemma classify_flood_risk_bands (s : float) :
  ((s <? 0.25) = true -> classify_flood_risk s = "Low") /\
  ((0.25 <=? s) = true -> (s <? 0.5) = true -> classify_flood_risk s = "Medium") /\
  ((0.5 <=? s) = true -> (s <? 0.75) = true -> classify_flood_risk s = "High") /\
  ((0.75 <=? s) = true -> classify_flood_risk s = "Critical").
Proof.
  unfold classify_flood_risk. repeat split.
  - intros ->. reflexivity.
  - intros H1 H2. rewrite H2.
    assert (E : (s <? 0.25) = false) by (float_order; lia). rewrite E. reflexivity.
  - intros H1 H2. rewrite H2.
    assert (E1 : (s <? 0.25) = false) by (float_order; lia).
    assert (E2 : (s <? 0.5) = false) by (float_order; lia).
    rewrite E1, E2. reflexivity.
  - intros H1.
    assert (E1 : (s <? 0.25) = false) by (float_order; lia).
    assert (E2 : (s <? 0.5) = false) by (float_order; lia).
    assert (E3 : (s <? 0.75) = false) by (float_order; lia).
    rewrite E1, E2, E3. reflexivity.
Qed.

Lemma flood_risk_pixel_formula (p m : float) :
  np_minimum (np_clip (p / 50) 0 1 + np_clip (m / 0.5) 0 1 * (3 / 10)) 1
  = flood_risk_formula p m.
Proof.
  unfold flood_risk_formula, np_minimum.
  rewrite !np_clip_clamp by reflexivity. reflexivity.
Qed.

(** C8: for arrays of the same shape, the flood risk of every pixel is
    min(clip(p/50, 0, 1) + clip(m/0.5, 0, 1) * 0.3, 1.0) computed on
    binary64 numbers, and its category is the one of that score: Low
    below 0.25, Medium below 0.5, High below 0.75, else Critical.  40 mm
    with a soil moisture of 0.5 scores 1.0 and is Critical; 33.3 mm with
    0.14 scores 0.7499999999999999, the float next below 0.75, and is
    High. *)
Theorem flood_risk_score_formula (precip_data soil_moisture : list float) :
  precip_data <> [] -> length soil_moisture = length precip_data ->
  (let scores :=
     zip_with
       (fun p m =>
          let a := p / 50 in
          let risk := if is_nan a then a else if 0 <? a then (if a <? 1 then a else 1) else 0 in
          let b := m / 0.5 in
          let factor := if is_nan b then b else if 0 <? b then (if b <? 1 then b else 1) else 0 in
          let s := risk + factor * (3 / 10) in
          if is_nan s then s else if s <? 1 then s else 1)
       precip_data soil_moisture in
   normalize_precipitation precip_data (Some soil_moisture)
   = ({| precipitation_mm := precip_data;
         precipitation_category := Some (map classify_precip precip_data);
         flood_risk_score := Some scores;
         flood_risk_category := Some (map classify_flood_risk scores) |}, [])) /\
  (forall s : float,
     ((s <? 0.25) = true -> classify_flood_risk s = "Low") /\
     ((0.25 <=? s) = true -> (s <? 0.5) = true -> classify_flood_risk s = "Medium") /\
     ((0.5 <=? s) = true -> (s <? 0.75) = true -> classify_flood_risk s = "High") /\
     ((0.75 <=? s) = true -> classify_flood_risk s = "Critical")) /\
  normalize_precipitation [40] (Some [0.5])
  = ({| precipitation_mm := [40];
        precipitation_category := Some ["Very Heavy"];
        flood_risk_score := Some [1];
        flood_risk_category := Some ["Critical"] |}, []) /\
  normalize_precipitation [333 / 10] (Some [14 / 100])
  = ({| precipitation_mm := [333 / 10];
        precipitation_category := Some ["Heavy"];
        flood_risk_score := Some [next_down 0.75];
        flood_risk_category := Some ["High"] |}, []).
Proof.
  intros Hne Hlen. split; [|split; [exact classify_flood_risk_bands|]].
  - cbv zeta.
    change (fun p m : float => _) with flood_risk_formula.
    unfold normalize_precipitation, DataNormalizer.np_vectorize.
    destruct precip_data as [|p precip]; [congruence|].
    destruct soil_moisture as [|m soil]; [discriminate|].
    unfold DataNormalizer.broadcast2.
    rewrite decide_True by (rewrite !length_map; congruence).
    rewrite zip_with_fmap_l, zip_with_fmap_r.
    rewrite (zip_with_ext _ flood_risk_formula _ _ _ _
               flood_risk_pixel_formula eq_refl eq_refl).
    reflexivity.
  - split; vm_compute; reflexivity.
Qed.

Lemma flood_risk_score_formula_witness :
  normalize_precipitation [333 / 10; 40; 0] (Some [14 / 100; 0.5; 0.5])
  = ({| precipitation_mm := [333 / 10; 40; 0];
        precipitation_category := Some ["Heavy"; "Very Heavy"; "Light"];
        flood_risk_score := Some [next_down 0.75; 1; 3 / 10];
        flood_risk_category := Some ["High"; "Critical"; "Medium"] |}, []).
Proof.
  pose proof (proj1 (flood_risk_score_formula [333 / 10; 40; 0] [14 / 100; 0.5; 0.5]
                       ltac:(discriminate) eq_refl)) as H.
  cbv zeta in H. rewrite H. vm_compute. reflexivity.
Defined.

(** The green score of the index 0.16: the product is the float next
    below 58, which [astype(int)] cuts to 57. *)
Example green_score_rounding :
  (np_clip (16 / 100) (-1) 1 + 1) / 2 * 100 = next_down 58
  /\ py_int ((np_clip (16 / 100) (-1) 1 + 1) / 2 * 100) = Ok 57%Z.
Proof. split; vm_compute; reflexivity. Qed.

(** At the ends of every piece of the four tables the value is the
    index of that end, without rounding. *)
Example pieces_at_their_ends64 :
  forallb
    (fun pollutant =>
       match DataNormalizer.aqi_breakpoints !! pollutant with
       | Some bps =>
           forallb
             (fun bp =>
                (piece_value bp (Zfloat (DataNormalizer.c_low bp))
                 =? Zfloat (DataNormalizer.aqi_low bp))
                && (piece_value bp (Zfloat (DataNormalizer.c_high bp))
                    =? Zfloat (DataNormalizer.aqi_high bp)))
             bps
       | None => false
       end)
    ["pm25"; "pm10"; "no2"; "so2"] = true.
Proof. vm_compute. reflexivity. Qed.

End Binary64Facts.

Module TileFacts.
Import Num NumFacts Modis ModisFacts Tile.

(** *** The tile table *)

Lemma foldl_insert_lookup {A} (key : A -> string) (val : A -> bounds)
    (l : list A) (m : gmap string bounds) (s : string) (b : bounds) :
  foldl (fun tiles a => <[key a := val a]> tiles) m l !! s = Some b ->
  m !! s = Some b \/ exists a, In a l /\ s = key a /\ b = val a.
Proof.
  revert m. induction l as [|a l IH]; intros m H; simpl in *; [left; exact H|].
  apply IH in H as [H|(a' & Hin & Hs & Hb)].
  - apply lookup_insert_Some in H as [[<- <-]|[_ H]]; [|left; exact H].
    right. exists a. auto.
  - right. exists a'. auto.
Qed.

Lemma nested_insert_lookup (hs vs : list nat) (m : gmap string bounds)
    (s : string) (b : bounds) :
  foldl (fun tiles h =>
           foldl (fun tiles v => <[tile_name h v := tile_box h v]> tiles) tiles vs)
        m hs !! s = Some b ->
  m !! s = Some b \/
  exists h v, In h hs /\ In v vs /\ s = tile_name h v /\ b = tile_box h v.
Proof.
  revert m. induction hs as [|h hs IH]; intros m H; simpl in H; [left; exact H|].
  apply IH in H as [H|(h' & v & Hh & Hv & Hs & Hb)].
  - apply (foldl_insert_lookup (tile_name h) (tile_box h)) in H
      as [H|(v & Hv & Hs & Hb)]; [left; exact H|].
    right. exists h, v. simpl. auto.
  - right. exists h', v. simpl. auto.
Qed.

Lemma tile_bounds_complete (h v : nat) :
  In h (seq 14 14) -> In v (seq 0 12) ->
  tile_bounds !! tile_name h v = Some (tile_box h v).
Proof.
  intros Hh Hv. simpl in Hh, Hv.
  repeat (destruct Hh as [<-|Hh]; [repeat (destruct Hv as [<-|Hv]; [vm_compute; reflexivity|]); destruct Hv|]).
  destruct Hh.
Qed.

(** The table of tile bounds holds exactly the tiles h14 to h27, v00 to
    v11, each with the box computed from its numbers. *)
Theorem tile_bounds_lookup (s : string) (b : bounds) :
  tile_bounds !! s = Some b <->
  exists h v : nat,
    (14 <= h < 28)%nat /\ (v < 12)%nat /\ s = tile_name h v /\ b = tile_box h v.
Proof.
  split.
  - intros H. apply nested_insert_lookup in H as [H|(h & v & Hh & Hv & Hs & Hb)].
    + rewrite lookup_empty in H. discriminate.
    + exists h, v. apply in_seq in Hh. apply in_seq in Hv. repeat split; auto; lia.
  - intros (h & v & Hh & Hv & -> & ->). apply tile_bounds_complete; apply in_seq; lia.
Qed.

(** *** Tile identifiers *)

(** The tile identifier taken from a file name either is the default
    h25v06 or is one of the parts of the name between dots; in both cases
    it starts with h and contains a v. *)
Theorem get_tile_from_filename_shape (filename : string) :
  qualifies (get_tile_from_filename filename) = true /\
  (get_tile_from_filename filename = "h25v06" \/
   In (get_tile_from_filename filename) (split_on "."%char filename)).
Proof.
  unfold get_tile_from_filename, qualifies.
  destruct (List.find _ _) as [part|] eqn:E.
  - apply List.find_some in E as [Hin Hq]. auto.
  - split; [reflexivity | left; reflexivity].
Qed.

Lemma split_on_app (p rest : string) :
  contains_char "."%char p = false ->
  split_on "."%char (p +:+ String "."%char rest) = p :: split_on "."%char rest.
Proof.
  induction p as [|c p IH]; intros H.
  - reflexivity.
  - cbn [contains_char] in H. apply orb_false_iff in H as [Hc Hp].
    rewrite Ascii.eqb_sym in Hc.
    change (String c p +:+ String "."%char rest)
      with (String c (p +:+ String "."%char rest)).
    cbn [split_on]. rewrite Hc, (IH Hp). reflexivity.
Qed.

Lemma split_on_single (p : string) :
  contains_char "."%char p = false -> split_on "."%char p = [p].
Proof.
  induction p as [|c p IH]; intros H; [reflexivity|].
  cbn [contains_char] in H. apply orb_false_iff in H as [Hc Hp].
  rewrite Ascii.eqb_sym in Hc.
  cbn [split_on]. rewrite Hc, (IH Hp). reflexivity.
Qed.

Lemma split_on_join (parts : list string) :
  parts <> [] ->
  Forall (fun p => contains_char "."%char p = false) parts ->
  split_on "."%char (join_dot parts) = parts.
Proof.
  intros Hne Hall. induction Hall as [|p rest Hp Hrest IH]; [congruence|].
  destruct rest as [|q rest].
  - simpl. apply split_on_single, Hp.
  - change (join_dot (p :: q :: rest)) with (p +:+ String "."%char (join_dot (q :: rest))).
    rewrite split_on_app by exact Hp. rewrite IH by discriminate. reflexivity.
Qed.

(** For a name made of parts joined by dots, the identifier is the
    first part that starts with h and contains a v. *)
Theorem get_tile_from_filename_first_match (before after : list string) (tile : string) :
  Forall (fun p => contains_char "."%char p = false) (before ++ tile :: after) ->
  Forall (fun p => qualifies p = false) before ->
  qualifies tile = true ->
  get_tile_from_filename (join_dot (before ++ tile :: after)) = tile.
Proof.
  intros Hdots Hbefore Htile. unfold get_tile_from_filename.
  rewrite split_on_join; [|destruct before; discriminate|exact Hdots].
  clear Hdots.
  change (fun part => startswith_char "h"%char part && contains_char "v"%char part)
    with qualifies.
  induction Hbefore as [|p before Hp _ IH]; cbn [app List.find].
  - rewrite Htile. reflexivity.
  - rewrite Hp. exact IH.
Qed.

Lemma get_tile_from_filename_first_match_witness :
  get_tile_from_filename "MOD11A1.A2023365.h25v06.061.2024004135620.hdf" = "h25v06".
Proof.
  apply (get_tile_from_filename_first_match
           ["MOD11A1"; "A2023365"] ["061"; "2024004135620"; "hdf"] "h25v06").
  - repeat constructor.
  - repeat constructor.
  - reflexivity.
Defined.

(** *** Coordinate grids *)

Lemma create_geographic_coordinates_grid_witness :
  lookup_bounds "h25v06" = Ok (tile_box 25 6) /\
  create_geographic_coordinates (fun x y : Q => (x, y)) (2%nat, 3%nat) "h25v06"
  = (Ok (map (fun yi => map (fun xj : Q => yi)
                          (linspace (left (tile_box 25 6)) (right (tile_box 25 6)) 3))
             (linspace (top (tile_box 25 6)) (bottom (tile_box 25 6)) 2),
         map (fun yi : Q => map (fun xj : Q => xj)
                          (linspace (left (tile_box 25 6)) (right (tile_box 25 6)) 3))
             (linspace (top (tile_box 25 6)) (bottom (tile_box 25 6)) 2)), []).
Proof.
  split; [vm_compute; reflexivity|].
  apply (create_geographic_coordinates_grid (fun x y : Q => (x, y)) 2 3 "h25v06"
           (tile_box 25 6)).
  vm_compute. reflexivity.
Defined.

End TileFacts.

Module Modis64Facts.
Import Ieee Modis64.
Local Open Scope float_scope.

Lemma tile_bounds_complete64 (h v : nat) :
  In h (seq 14 14) -> In v (seq 0 12) ->
  tile_bounds !! Modis.tile_name h v = Some (tile_box h v).
Proof.
  intros Hh Hv. simpl in Hh, Hv.
  repeat (destruct Hh as [<-|Hh];
          [repeat (destruct Hv as [<-|Hv]; [vm_compute; reflexivity|]); destruct Hv|]).
  destruct Hh.
Qed.

Lemma tile_box_geometry64 (h v : nat) :
  In h (seq 14 13) -> In v (seq 0 11) ->
  (left (tile_box h v) <? right (tile_box h v)) = true /\
  (bottom (tile_box h v) <? top (tile_box h v)) = true /\
  within (1 # 2 ^ 30) (left (tile_box (S h) v)) (right (tile_box h v)) /\
  within (1 # 2 ^ 30) (top (tile_box h (S v))) (bottom (tile_box h v)).
Proof.
  intros Hh Hv. simpl in Hh, Hv.
  repeat (destruct Hh as [<-|Hh];
          [repeat (destruct Hv as [<-|Hv];
                   [split; [vm_compute; reflexivity|]; split; [vm_compute; reflexivity|];
                    split; (eexists; split; [vm_compute; reflexivity | vm_compute; discriminate])
                   |]); destruct Hv|]).
  destruct Hh.
Qed.

(** Every tile of the table is a box with its left edge left of its
    right edge and its bottom below its top.  The tile to its east starts
    where it ends and the tile to its south lies directly below it, up to
    the rounding of the products and sums: the edges are at most 2^-30
    metres apart.  They are not always equal: the top of h25v07 is above
    the bottom of h25v06. *)
Theorem tile_table_adjacent (h v : nat) :
  (14 <= h < 27)%nat -> (v < 11)%nat ->
  (exists b east south,
     tile_bounds !! Modis.tile_name h v = Some b /\
     tile_bounds !! Modis.tile_name (S h) v = Some east /\
     tile_bounds !! Modis.tile_name h (S v) = Some south /\
     (left b <? right b) = true /\ (bottom b <? top b) = true /\
     within (1 # 2 ^ 30) (left east) (right b) /\
     within (1 # 2 ^ 30) (top south) (bottom b)) /\
  (exists b south,
     tile_bounds !! "h25v06" = Some b /\ tile_bounds !! "h25v07" = Some south /\
     (bottom b <? top south) = true).
Proof.
  intros Hh Hv. split.
  - exists (tile_box h v), (tile_box (S h) v), (tile_box h (S v)).
    destruct (tile_box_geometry64 h v) as (H1 & H2 & H3 & H4); try (apply in_seq; lia).
    repeat split; try (apply tile_bounds_complete64; apply in_seq; lia); assumption.
  - exists (tile_box 25 6), (tile_box 25 7).
    repeat split; vm_compute; reflexivity.
Qed.

Lemma tile_table_adjacent_witness :
  exists b east south,
    tile_bounds !! "h25v06" = Some b /\
    tile_bounds !! "h26v06" = Some east /\
    tile_bounds !! "h25v07" = Some south /\
    (left b <? right b) = true /\ (bottom b <? top b) = true /\
    within (1 # 2 ^ 30) (left east) (right b) /\
    within (1 # 2 ^ 30) (top south) (bottom b).
Proof. apply (tile_table_adjacent 25 6); lia. Defined.

End Modis64Facts.

Module LstFacts.
Import Num NumFacts Modis ModisFacts Omi Lst.

Lemma day_pixel_fin (tol : Z) (qc : option Z) (lst : fval) (c : Q) :
  day_pixel tol qc lst = Fin c ->
  exists k, lst = Fin k /\ (200 < k)%Q /\ (k < 400)%Q /\ c = (k - (27315 # 100))%Q
            /\ match qc with
               | Some q => qc_decode_pixel q tol = true
               | None => True
               end.
Proof.
  unfold day_pixel, where_nan, range_mask, fltb, celsius.
  destruct qc as [q|], lst as [|k]; try discriminate;
    rewrite ?andb_false_r; try discriminate.
  - destruct (qc_decode_pixel q tol); simpl; [|discriminate].
    destruct (Qltb 200 k) eqn:E1; [|discriminate].
    destruct (Qltb k 400) eqn:E2; [|discriminate].
    simpl. intros [= <-]. apply Qltb_spec in E1, E2. eauto 10.
  - destruct (Qltb 200 k) eqn:E1; [|discriminate].
    destruct (Qltb k 400) eqn:E2; [|discriminate].
    simpl. intros [= <-]. apply Qltb_spec in E1, E2. eauto 10.
Qed.

(** Every value of the filtered day layer that is not NaN comes from a
    pixel between 200 K and 400 K, lies between -73.15 and 126.85 degrees,
    and passed the quality decoding when the file has a QC layer. *)
Theorem day_temperature_values (tol : Z) (qc_day : option (list (list Z)))
    (lst_day : list (list fval)) (i j : nat) (c : Q) :
  day_temperature tol qc_day lst_day !! i ≫= (.!! j) = Some (Fin c) ->
  (exists k, lst_day !! i ≫= (.!! j) = Some (Fin k) /\ (200 < k)%Q /\ (k < 400)%Q
             /\ c = (k - (27315 # 100))%Q)
  /\ (-7315 # 100 < c)%Q /\ (c < 12685 # 100)%Q
  /\ (forall qc, qc_day = Some qc ->
        exists q, qc !! i ≫= (.!! j) = Some q /\ qc_decode_pixel q tol = true
                  /\ Z.testbit q 5 = false).
Proof.
  intros H.
  assert (Hpix : exists qo k, lst_day !! i ≫= (.!! j) = Some k
                   /\ day_pixel tol qo k = Fin c
                   /\ forall qc, qc_day = Some qc ->
                        exists q, qo = Some q /\ qc !! i ≫= (.!! j) = Some q).
  { unfold day_temperature in H. destruct qc_day as [qc|].
    - destruct (zip_with _ qc lst_day !! i) as [row|] eqn:Ei; [|discriminate].
      simpl in H. apply lookup_zip_with_Some in Ei as (qrow & lrow & -> & Hq & Hl).
      apply lookup_zip_with_Some in H as (q & k & Hc & Hqj & Hlj).
      exists (Some q), k. rewrite Hl. simpl. repeat split; auto.
      intros qc' [= <-]. exists q. rewrite Hq. auto.
    - rewrite list_lookup_fmap in H.
      destruct (lst_day !! i) as [row|] eqn:Ei; [|discriminate].
      simpl in H |- *. rewrite list_lookup_fmap in H.
      destruct (row !! j) as [k|] eqn:Ej; [|discriminate].
      simpl in H. injection H; intros Hc.
      exists None, k. repeat split; auto. discriminate. }
  destruct Hpix as (qo & k0 & Hl & Hd & Hq).
  apply day_pixel_fin in Hd as (k & -> & Hlo & Hhi & -> & Hok).
  split; [eauto 10|]. split; [lra|]. split; [lra|].
  intros qc Hqc. destruct (Hq qc Hqc) as (q & -> & Hqq).
  exists q. repeat split; auto.
  unfold qc_decode_pixel in Hok.
  apply andb_true_iff in Hok as [_ Herr]. apply Z.eqb_eq in Herr.
  rewrite lst_err_testbit in Herr. destruct (Z.testbit q 5); [discriminate|reflexivity].
Qed.

Lemma day_temperature_values_witness :
  day_temperature 1 (Some qc_day_sample) lst_sample !! 0%nat ≫= (.!! 0%nat)
  = Some (Fin (300 - (27315 # 100)))
  /\ (-7315 # 100 < 300 - (27315 # 100))%Q.
Proof.
  split; [reflexivity|].
  apply (day_temperature_values 1 (Some qc_day_sample) lst_sample 0 0
           (300 - (27315 # 100))%Q).
  reflexivity.
Defined.

(** *** The window of the subset *)

Lemma zmin_le (x : Z) (l : list Z) : zmin x l <= x /\ forall y, In y l -> zmin x l <= y.
Proof.
  unfold zmin. induction l as [|a l [IH1 IH2]]; simpl.
  - split; [lia | tauto].
  - split; [lia|]. intros y [-> | Hy]; [lia|]. specialize (IH2 y Hy). lia.
Qed.

Lemma zmax_ge (x : Z) (l : list Z) : x <= zmax x l /\ forall y, In y l -> y <= zmax x l.
Proof.
  unfold zmax. induction l as [|a l [IH1 IH2]]; simpl.
  - split; [lia | tauto].
  - split; [lia|]. intros y [-> | Hy]; [lia|]. specialize (IH2 y Hy). lia.
Qed.

Lemma np_where_true (mask : list (list bool)) (r c : nat) :
  mask !! r ≫= (.!! c) = Some true -> In (Z.of_nat r, Z.of_nat c) (np_where mask).
Proof.
  intros H. destruct (mask !! r) as [row|] eqn:Er; [|discriminate]. simpl in H.
  unfold np_where. apply in_concat. exists (row_where r row). split.
  - apply list_elem_of_In, elem_of_lookup_imap. eauto.
  - apply list_elem_of_In. unfold row_where. apply list_elem_of_omap.
    exists (Some (Z.of_nat r, Z.of_nat c)). split; [|reflexivity].
    apply elem_of_lookup_imap. exists c, true. auto.
Qed.

Lemma slice_lookup {A} (lo hi : Z) (a : list A) (i : nat) :
  0 <= lo <= Z.of_nat i -> Z.of_nat i < hi ->
  slice lo hi a !! (i - Z.to_nat lo)%nat = a !! i.
Proof.
  intros Hlo Hhi. unfold slice. rewrite lookup_drop, lookup_take_lt by lia.
  f_equal. lia.
Qed.

(** The subset taken around the region stays inside the tile and keeps
    every pixel of the region, at the position shifted by the corner of
    the window. *)
Theorem window_keeps_region_pixels {A} (rows cols : nat) (mask : list (list bool))
    (grid : list (list A)) (r c : nat) :
  length mask = rows -> Forall (fun row => length row = cols) mask ->
  mask !! r ≫= (.!! c) = Some true ->
  exists min_row max_row min_col max_col,
    window (rows, cols) mask = Some (min_row, max_row, min_col, max_col)
    /\ 0 <= min_row <= Z.of_nat r /\ Z.of_nat r < max_row <= Z.of_nat rows
    /\ 0 <= min_col <= Z.of_nat c /\ Z.of_nat c < max_col <= Z.of_nat cols
    /\ isel (min_row, max_row, min_col, max_col) grid
          !! (r - Z.to_nat min_row)%nat ≫= (.!! (c - Z.to_nat min_col)%nat)
        = grid !! r ≫= (.!! c).
Proof.
  intros Hrows Hcols Hrc.
  assert (Hr : (r < rows)%nat).
  { destruct (mask !! r) eqn:E; [|discriminate]. apply lookup_lt_Some in E. lia. }
  assert (Hc : (c < cols)%nat).
  { destruct (mask !! r) as [row|] eqn:E; [|discriminate]. simpl in Hrc.
    apply lookup_lt_Some in Hrc.
    assert (length row = cols) as <-; [|exact Hrc].
    eapply (proj1 (List.Forall_forall _ _) Hcols).
    apply list_elem_of_In. eapply list_elem_of_lookup_2. exact E. }
  pose proof (np_where_true mask r c Hrc) as Hin.
  unfold window. destruct (np_where mask) as [|[r0 c0] rest]; [destruct Hin|].
  cbn [fst snd].
  destruct (zmin_le r0 (map fst rest)) as [Hr1 Hr2].
  destruct (zmax_ge r0 (map fst rest)) as [Hr3 Hr4].
  destruct (zmin_le c0 (map snd rest)) as [Hc1 Hc2].
  destruct (zmax_ge c0 (map snd rest)) as [Hc3 Hc4].
  assert (Hrow : zmin r0 (map fst rest) <= Z.of_nat r <= zmax r0 (map fst rest)).
  { destruct Hin as [[= -> ->] | Hin]; [lia|].
    apply (in_map fst) in Hin. simpl in Hin. split; auto. }
  assert (Hcol : zmin c0 (map snd rest) <= Z.of_nat c <= zmax c0 (map snd rest)).
  { destruct Hin as [[= -> ->] | Hin]; [lia|].
    apply (in_map snd) in Hin. simpl in Hin. split; auto. }
  unfold pad. do 4 eexists. split; [reflexivity|].
  repeat (split; [lia|]).
  unfold isel. rewrite list_lookup_fmap, slice_lookup by lia.
  destruct (grid !! r) as [row|]; [|reflexivity]. simpl.
  apply slice_lookup; lia.
Qed.

Lemma window_keeps_region_pixels_witness :
  exists min_row max_row min_col max_col,
    window (3%nat, 2%nat) [[false; false]; [false; true]; [false; false]]
    = Some (min_row, max_row, min_col, max_col)
    /\ 0 <= min_row <= Z.of_nat 1 /\ Z.of_nat 1 < max_row <= Z.of_nat 3
    /\ 0 <= min_col <= Z.of_nat 1 /\ Z.of_nat 1 < max_col <= Z.of_nat 2
    /\ isel (min_row, max_row, min_col, max_col) [[1; 2]; [3; 4]; [5; 6]]
          !! (1 - Z.to_nat min_row)%nat ≫= (.!! (1 - Z.to_nat min_col)%nat)
        = [[1; 2]; [3; 4]; [5; 6]] !! 1%nat ≫= (.!! 1%nat).
Proof.
  apply (window_keeps_region_pixels 3 2 [[false; false]; [false; true]; [false; false]]
           [[1; 2]; [3; 4]; [5; 6]] 1 1);
    [reflexivity | repeat constructor | reflexivity].
Defined.

(** *** The count of valid pixels *)

Lemma day_pixel_keeps (t1 t2 : Z) (qc : option Z) (k : fval) :
  t1 <= t2 -> keeps (day_pixel t1 qc k) (day_pixel t2 qc k).
Proof.
  intros Ht. unfold keeps, day_pixel, where_nan. destruct qc as [q|]; [|auto].
  destruct (qc_decode_pixel q t1) eqn:E1.
  - rewrite (qc_decode_pixel_mono q t1 t2 Ht E1). auto.
  - reflexivity.
Qed.

Lemma day_temperature_keeps (t1 t2 : Z) qc_day lst_day :
  t1 <= t2 ->
  Forall2 (Forall2 keeps) (day_temperature t1 qc_day lst_day)
                          (day_temperature t2 qc_day lst_day).
Proof.
  intros Ht. unfold day_temperature. destruct qc_day as [qc|].
  - revert lst_day. induction qc as [|qrow qc IH]; intros [|lrow lst]; simpl;
      try constructor; [|apply IH].
    revert lrow. induction qrow as [|q qrow IHq]; intros [|k lrow]; simpl;
      try constructor; [|apply IHq].
    exact (day_pixel_keeps t1 t2 (Some q) k Ht).
  - induction lst_day as [|row lst IH]; simpl; constructor; [|exact IH].
    induction row as [|k row IHr]; simpl; constructor; [|exact IHr].
    exact (day_pixel_keeps t1 t2 None k Ht).
Qed.

Lemma isel_keeps (w : Z * Z * Z * Z) (g1 g2 : list (list fval)) :
  Forall2 (Forall2 keeps) g1 g2 -> Forall2 (Forall2 keeps) (isel w g1) (isel w g2).
Proof.
  destruct w as [[[a b] c] d]. intros H. unfold isel, slice.
  apply Forall2_fmap. eapply Forall2_impl.
  - apply Forall2_drop, Forall2_take, H.
  - intros r1 r2 Hr. simpl. apply Forall2_drop, Forall2_take, Hr.
Qed.

Lemma count_keeps (g1 g2 : list (list fval)) :
  Forall2 (Forall2 keeps) g1 g2 ->
  (length (List.filter (fun v => negb (is_nan v)) (concat g1))
   <= length (List.filter (fun v => negb (is_nan v)) (concat g2)))%nat.
Proof.
  induction 1 as [|r1 r2 g1 g2 Hr _ IH]; simpl; [lia|].
  rewrite !List.filter_app, !length_app.
  assert ((length (List.filter (fun v => negb (is_nan v)) r1)
           <= length (List.filter (fun v => negb (is_nan v)) r2))%nat); [|lia].
  clear IH. induction Hr as [|a b r1 r2 Hab _ IHr]; simpl; [lia|].
  unfold keeps in Hab. destruct (is_nan a), (is_nan b); simpl; lia.
Qed.

(** Relaxing the tolerance never turns a valid pixel into NaN: the count
    of valid pixels of the clipped day layer does not decrease. *)
Theorem valid_pixel_count_mono (t1 t2 : Z) (qc_day : option (list (list Z)))
    (lst_day : list (list fval)) (shape : nat * nat) (mask : list (list bool)) :
  t1 <= t2 ->
  (valid_pixel_count t1 qc_day lst_day shape mask
   <= valid_pixel_count t2 qc_day lst_day shape mask)%nat.
Proof.
  intros Ht. unfold valid_pixel_count. apply count_keeps.
  destruct (window shape mask) as [w|].
  - apply isel_keeps, day_temperature_keeps, Ht.
  - apply day_temperature_keeps, Ht.
Qed.

Lemma valid_pixel_count_mono_witness :
  1 <= 2 /\
  (valid_pixel_count 1 (Some qc_day_sample) lst_sample (2%nat, 2%nat) [[true; true]; [true; true]]
   <= valid_pixel_count 2 (Some qc_day_sample) lst_sample (2%nat, 2%nat)
        [[true; true]; [true; true]])%nat.
Proof.
  split; [lia|].
  apply (valid_pixel_count_mono 1 2 (Some qc_day_sample) lst_sample (2%nat, 2%nat)
           [[true; true]; [true; true]]).
  lia.
Defined.

Example valid_pixel_counts_by_tolerance :
  map (fun t => valid_pixel_count t (Some qc_day_sample) lst_sample (2%nat, 2%nat)
                  [[true; true]; [true; true]]) [1; 2; 3]
  = [1%nat; 2%nat; 2%nat].
Proof. reflexivity. Qed.

End LstFacts.

Module ModisFetchFacts.
Import ModisFetch.

Section Fetch.
Context {Dataset Processed : Type}.
Context (process : Dataset -> string -> Z -> result Processed).
Context (valid : Processed -> Z).

Lemma scan_app (l1 l2 : list (result (@attempt Dataset))) :
  scan process valid (l1 ++ l2)
  = (r ← scan process valid l1;
     match r with
     | Some p => Ok (Some p)
     | None => scan process valid l2
     end).
Proof.
  induction l1 as [|a l1 IH]; simpl; [reflexivity|].
  destruct (run process a) as [p|e]; simpl; [|reflexivity].
  destruct (Z.ltb 1000 (valid p)); [reflexivity | exact IH].
Qed.

Lemma try_tolerances_scan (ds : Dataset) (name : string) (tols : list Z) :
  try_tolerances process valid ds name tols
  = scan process valid (map (fun t => Ok (ds, name, t)) tols).
Proof.
  induction tols as [|t tols IH]; simpl; [reflexivity|].
  unfold run. simpl.
  destruct (process ds name t) as [p|e]; simpl; [|reflexivity].
  destruct (Z.ltb 1000 (valid p)); [reflexivity | exact IH].
Qed.

Lemma try_candidates_scan (results : list (@candidate Dataset)) :
  try_candidates process valid results
  = scan process valid (map Ok (concat (map attempts_of results))).
Proof.
  induction results as [|[[ds name]|] results IH]; [reflexivity| |exact IH].
  cbn [try_candidates map concat]. rewrite map_app, scan_app, <- IH.
  rewrite (try_tolerances_scan ds name [1; 2; 3]).
  unfold attempts_of. rewrite map_map. reflexivity.
Qed.

Lemma try_windows_scan (windows : list (result (list (@candidate Dataset)))) :
  fetch_lst_data process valid windows
  = match scan process valid (schedule windows) with
    | Ok r => r
    | Raise _ => None
    end.
Proof.
  unfold fetch_lst_data, schedule.
  induction windows as [|[results|e] windows IH]; [reflexivity| |reflexivity].
  cbn [try_windows map concat mbind result_bind].
  rewrite scan_app, try_candidates_scan.
  destruct (scan process valid (map Ok (concat (map attempts_of results)))) as [[p|]|e];
    cbn [mbind result_bind]; [reflexivity | exact IH | reflexivity].
Qed.

Lemma scan_Some (l : list (result (@attempt Dataset))) (p : Processed) :
  scan process valid l = Ok (Some p) <->
  exists pre a post, l = pre ++ a :: post
    /\ Forall (rejected process valid) pre /\ usable process valid a p.
Proof.
  induction l as [|a l IH]; simpl.
  - split; [discriminate|]. intros (pre & b & post & H & _). destruct pre; discriminate.
  - destruct (run process a) as [q|e] eqn:Ea; simpl.
    + destruct (Z.ltb_spec 1000 (valid q)) as [Hq|Hq].
      * split.
        -- intros [= <-]. exists [], a, l. split; [reflexivity|].
           split; [constructor|]. split; [exact Ea | lia].
        -- intros ([|b pre] & c & post & H & Hpre & Hc & Hv); simplify_eq/=.
           ++ congruence.
           ++ inversion Hpre as [|? ? (q' & Hq' & Hle) _]; simplify_eq.
              rewrite Ea in Hq'. simplify_eq. lia.
      * rewrite IH. split.
        -- intros (pre & c & post & -> & Hpre & Hc).
           exists (a :: pre), c, post. split; [reflexivity|]. split; [|exact Hc].
           constructor; [exists q; auto | exact Hpre].
        -- intros ([|b pre] & c & post & H & Hpre & Hc & Hv); simplify_eq/=.
           ++ rewrite Ea in Hc. simplify_eq. lia.
           ++ inversion Hpre; subst.
              exists pre, c, post. repeat split; auto.
    + split; [discriminate|].
      intros ([|b pre] & c & post & H & Hpre & Hc & Hv); simplify_eq/=.
      * congruence.
      * inversion Hpre as [|? ? (q' & Hq' & Hle) _]; simplify_eq. congruence.
Qed.

(** The granule returned is the outcome of the first call, in the order
    of the three loops, that yields more than 1000 valid pixels, and every
    call before it returned a dataset with at most 1000. *)
Theorem fetch_lst_data_first_usable
    (windows : list (result (list (@candidate Dataset)))) (p : Processed) :
  fetch_lst_data process valid windows = Some p <->
  exists pre a post, schedule windows = pre ++ a :: post
    /\ Forall (rejected process valid) pre /\ usable process valid a p.
Proof.
  rewrite try_windows_scan, <- scan_Some.
  destruct (scan process valid (schedule windows)) as [r|e].
  - split; congruence.
  - split; discriminate.
Qed.

(** An exception of a search or of [process_modis_lst] ends the whole
    fetch: nothing is returned, whatever the granules after it hold. *)
Theorem fetch_lst_data_aborts
    (windows : list (result (list (@candidate Dataset))))
    (pre post : list (result (@attempt Dataset))) (a : result attempt) (e : string) :
  schedule windows = pre ++ a :: post ->
  Forall (rejected process valid) pre ->
  run process a = Raise e ->
  fetch_lst_data process valid windows = None.
Proof.
  intros Hs Hpre Ha. rewrite try_windows_scan, Hs, scan_app.
  assert (Hscan : scan process valid pre = Ok None).
  { clear Hs. induction Hpre as [|b pre (q & Hq & Hle) _ IH]; simpl; [reflexivity|].
    rewrite Hq. simpl. destruct (Z.ltb_spec 1000 (valid q)); [lia | exact IH]. }
  rewrite Hscan. simpl. rewrite Ha. reflexivity.
Qed.

End Fetch.

Lemma fetch_lst_data_aborts_witness :
  fetch_lst_data process_sample id windows_sample = None.
Proof.
  apply (fetch_lst_data_aborts process_sample id windows_sample []
           (map Ok [(0, "MOD11A1.A2023365.h25v06.061.hdf", 2);
                    (0, "MOD11A1.A2023365.h25v06.061.hdf", 3);
                    (5000, "MOD11A1.A2023364.h25v06.061.hdf", 1);
                    (5000, "MOD11A1.A2023364.h25v06.061.hdf", 2);
                    (5000, "MOD11A1.A2023364.h25v06.061.hdf", 3)])
           (Ok (0, "MOD11A1.A2023365.h25v06.061.hdf", 1)) "ValueError").
  - reflexivity.
  - constructor.
  - reflexivity.
Defined.

End ModisFetchFacts.

Module NormalizerFacts.
Import Num NumFacts DataNormalizer DataNormalizerFacts Ndvi Tables.

Lemma py_int_mono (x y : Q) : (0 <= x)%Q -> (x <= y)%Q -> py_int x <= py_int y.
Proof.
  intros Hx Hxy.
  destruct (py_int_nonneg x Hx) as [H1 _].
  destruct (py_int_nonneg y) as [_ H2]; [lra|].
  assert (H : (inject_Z (py_int x) < inject_Z (py_int y + 1))%Q) by lra.
  rewrite <- Zlt_Qlt in H. lia.
Qed.

Lemma py_int_inject (z : Z) : py_int (inject_Z z) = z.
Proof. unfold py_int, inject_Z. simpl. apply Z.quot_1_r. Qed.

Lemma py_int_between (x : Q) (lo hi : Z) :
  0 <= lo -> (inject_Z lo <= x)%Q -> (x <= inject_Z hi)%Q -> lo <= py_int x <= hi.
Proof.
  intros Hlo H1 H2.
  assert (H0 : (0 <= inject_Z lo)%Q) by (change 0%Q with (inject_Z 0); rewrite <- Zle_Qle; lia).
  split.
  - rewrite <- (py_int_inject lo). apply py_int_mono; assumption.
  - rewrite <- (py_int_inject hi). apply py_int_mono; lra.
Qed.

(** *** NDVI *)

Lemma green_linear (x : Q) : ((x + 1) / 2 * 100 == (x + 1) * 50)%Q.
Proof. field. Qed.

Lemma green_argument (v : Q) :
  (0 <= (np_clip v (-1) 1 + 1) / 2 * 100 <= 100)%Q.
Proof.
  assert (H : (-1 <= np_clip v (-1) 1 <= 1)%Q) by (apply np_clip_bounds; lra).
  rewrite green_linear. lra.
Qed.

Lemma np_clip_mono (x y lo hi : Q) : (x <= y)%Q -> (np_clip x lo hi <= np_clip y lo hi)%Q.
Proof.
  intros H. unfold np_clip, np_minimum, np_maximum. q_cases; lra.
Qed.

(** The green score is an integer from 0 to 100, does not decrease with
    the index, and is 0 from -1 downwards, 50 at 0 and 100 from 1 upwards. *)
Theorem normalize_ndvi_scale :
  (forall ndvi_values, length (normalize_ndvi ndvi_values) = length ndvi_values) /\
  (forall v, 0 <= green_score v <= 100) /\
  (forall v w, (v <= w)%Q -> green_score v <= green_score w) /\
  (forall v, (v <= -1)%Q -> green_score v = 0) /\
  green_score 0 = 50 /\
  (forall v, (1 <= v)%Q -> green_score v = 100).
Proof.
  split; [intros l; apply length_map|].
  assert (Hrange : forall v, 0 <= green_score v <= 100).
  { intros v. unfold green_score.
    apply py_int_between; [lia | apply green_argument | apply green_argument]. }
  assert (Hmono : forall v w, (v <= w)%Q -> green_score v <= green_score w).
  { intros v w H. unfold green_score. apply py_int_mono; [apply green_argument|].
    pose proof (np_clip_mono v w (-1) 1 H). rewrite !green_linear. lra. }
  split; [exact Hrange|]. split; [exact Hmono|]. split; [|split].
  - intros v Hv. pose proof (Hmono v (-1)%Q Hv) as H. pose proof (Hrange v).
    change (green_score (-1)) with 0 in H. lia.
  - reflexivity.
  - intros v Hv. pose proof (Hmono 1%Q v Hv) as H. pose proof (Hrange v).
    change (green_score 1) with 100 in H. lia.
Qed.

Lemma normalize_ndvi_scale_witness :
  (3 # 10 <= 7 # 10)%Q /\ green_score (3 # 10) <= green_score (7 # 10).
Proof.
  split; [discriminate|].
  apply (proj1 (proj2 (proj2 normalize_ndvi_scale)) (3 # 10)%Q (7 # 10)%Q). discriminate.
Defined.

(** *** Temperature *)




(** *** Air quality index *)

Lemma Qmult_le_nonneg_l (s a b : Q) : (0 <= s)%Q -> (a <= b)%Q -> (s * a <= s * b)%Q.
Proof.
  intros Hs Hab. rewrite (Qmult_comm s a), (Qmult_comm s b).
  apply Qmult_le_compat_r; assumption.
Qed.

Lemma piece_value_bounds (bp : breakpoint) (c : Q) :
  well_formed bp -> in_piece bp c = true ->
  (inject_Z (aqi_low bp) <= piece_value bp c <= inject_Z (aqi_high bp))%Q.
Proof.
  destruct bp as [[[lo hi] al] ah]. unfold well_formed, c_low, c_high, aqi_low, aqi_high.
  simpl. intros [Hlh [Hal Hah]] Hin.
  apply andb_prop in Hin as [H1 H2]. apply Qleb_spec in H1, H2.
  assert (Hd : (0 <= inject_Z (ah - al))%Q)
    by (change 0%Q with (inject_Z 0); rewrite <- Zle_Qle; lia).
  assert (Hw : (0 < inject_Z (hi - lo))%Q)
    by (change 0%Q with (inject_Z 0); rewrite <- Zlt_Qlt; lia).
  assert (Hs : (0 <= inject_Z (ah - al) / inject_Z (hi - lo))%Q).
  { apply Qle_shift_div_l; [assumption|]. lra. }
  assert (Hc : (0 <= c - inject_Z lo)%Q) by lra.
  pose proof (Qmult_le_0_compat _ _ Hs Hc) as Hlow.
  split; [lra|].
  assert (Hc2 : (c - inject_Z lo <= inject_Z (hi - lo))%Q).
  { unfold Z.sub. rewrite inject_Z_plus, inject_Z_opp. lra. }
  assert (Hm : (inject_Z (ah - al) / inject_Z (hi - lo) * (c - inject_Z lo)
                <= inject_Z (ah - al) / inject_Z (hi - lo) * inject_Z (hi - lo))%Q).
  { apply Qmult_le_nonneg_l; assumption. }
  assert (He : (inject_Z (ah - al) / inject_Z (hi - lo) * inject_Z (hi - lo)
                == inject_Z (ah - al))%Q) by (field; lra).
  rewrite He in Hm.
  assert (Hsub : (inject_Z (ah - al) == inject_Z ah - inject_Z al)%Q).
  { unfold Z.sub. rewrite inject_Z_plus, inject_Z_opp. ring. }
  lra.
Qed.

Lemma piece_value_mono (bp : breakpoint) (c1 c2 : Q) :
  well_formed bp -> (c1 <= c2)%Q -> (piece_value bp c1 <= piece_value bp c2)%Q.
Proof.
  destruct bp as [[[lo hi] al] ah]. unfold well_formed, c_low, c_high, aqi_low, aqi_high.
  simpl. intros [Hlh [Hal Hah]] Hc.
  assert (Hd : (0 <= inject_Z (ah - al))%Q)
    by (change 0%Q with (inject_Z 0); rewrite <- Zle_Qle; lia).
  assert (Hw : (0 < inject_Z (hi - lo))%Q)
    by (change 0%Q with (inject_Z 0); rewrite <- Zlt_Qlt; lia).
  assert (Hs : (0 <= inject_Z (ah - al) / inject_Z (hi - lo))%Q).
  { apply Qle_shift_div_l; [assumption|]. lra. }
  assert (Hm : (inject_Z (ah - al) / inject_Z (hi - lo) * (c1 - inject_Z lo)
                <= inject_Z (ah - al) / inject_Z (hi - lo) * (c2 - inject_Z lo))%Q).
  { apply Qmult_le_nonneg_l; [assumption | lra]. }
  lra.
Qed.

Lemma tables_ordered (p : string) (bps : list breakpoint) :
  aqi_breakpoints !! p = Some bps -> ordered bps.
Proof.
  intros H. table_cases H;
    unfold ordered, well_formed, c_low, c_high, aqi_low, aqi_high; simpl; lia.
Qed.

Lemma aqi_piece_range (bp : breakpoint) (c : Q) :
  well_formed bp -> in_piece bp c = true ->
  aqi_low bp <= py_int (piece_value bp c) <= aqi_high bp.
Proof.
  intros Hwf Hin. pose proof (piece_value_bounds bp c Hwf Hin) as [H1 H2].
  apply py_int_between; [apply Hwf | exact H1 | exact H2].
Qed.

Lemma aqi_loop_lower (bp : breakpoint) (rest : list breakpoint) (c : Q) :
  ordered (bp :: rest) -> aqi_low bp <= aqi_loop (bp :: rest) c <= 400.
Proof.
  revert bp. induction rest as [|next rest IH]; intros bp (Hwf & H400 & Hnext & Hrest).
  - simpl. destruct (in_piece bp c) eqn:E.
    + pose proof (aqi_piece_range bp c Hwf E). lia.
    + destruct Hwf as [_ Hwf]. lia.
  - cbn [aqi_loop]. destruct (in_piece bp c) eqn:E.
    + pose proof (aqi_piece_range bp c Hwf E). lia.
    + specialize (IH next Hrest). cbn [aqi_loop] in IH.
      destruct Hwf as [_ Hwf]. destruct Hnext as [_ Hnext]. lia.
Qed.

Lemma aqi_loop_mono (bps : list breakpoint) (c1 c2 : Q) :
  ordered bps ->
  match bps with
  | [] => True
  | bp :: _ => (inject_Z (c_low bp) <= c1)%Q
  end ->
  (c1 <= c2)%Q -> aqi_loop bps c1 <= aqi_loop bps c2.
Proof.
  intros Hord Hlow Hc. induction bps as [|bp rest IH]; [reflexivity|].
  pose proof Hord as (Hwf & H400 & Hnext & Hrest).
  cbn [aqi_loop].
  destruct (in_piece bp c1) eqn:E1.
  - destruct (in_piece bp c2) eqn:E2.
    + apply py_int_mono.
      * pose proof (piece_value_bounds bp c1 Hwf E1) as [H1 _].
        assert ((0 <= inject_Z (aqi_low bp))%Q)
          by (change 0%Q with (inject_Z 0); rewrite <- Zle_Qle; apply Hwf).
        lra.
      * apply piece_value_mono; assumption.
    + pose proof (aqi_piece_range bp c1 Hwf E1) as [_ H1].
      destruct rest as [|next rest]; [simpl; lia|].
      pose proof (aqi_loop_lower next rest c2 Hrest). destruct Hnext as [_ Hnext]. lia.
  - assert (Hhi : (inject_Z (c_high bp) < c1)%Q).
    { destruct bp as [[[lo hi] al] ah]. apply in_piece_false in E1.
      unfold c_low, c_high in *. simpl in *. destruct E1; [lra | assumption]. }
    assert (E2 : in_piece bp c2 = false).
    { destruct bp as [[[lo hi] al] ah]. apply in_piece_false.
      unfold c_high in Hhi. simpl in Hhi. right. lra. }
    rewrite E2. apply IH; [exact Hrest|].
    destruct rest as [|next rest]; [exact I|].
    destruct Hnext as [Hnext _]. rewrite Hnext. lra.
Qed.

Lemma calculate_aqi_range (c : Q) (pollutant : string) :
  0 <= calculate_aqi c pollutant <= 400.
Proof.
  unfold calculate_aqi. destruct (aqi_breakpoints !! pollutant) as [bps|] eqn:E; [|lia].
  pose proof (tables_ordered _ _ E) as Hord.
  destruct bps as [|bp rest]; [simpl; lia|].
  pose proof (aqi_loop_lower bp rest c Hord). destruct Hord as [[_ Hwf] _]. lia.
Qed.

(** Every sub-index lies between 0 and 400, and from concentration 0 on
    it does not decrease with the concentration. *)
Theorem calculate_aqi_range_monotone (pollutant : string) (c1 c2 : Q) :
  0 <= calculate_aqi c1 pollutant <= 400 /\
  ((0 <= c1)%Q -> (c1 <= c2)%Q ->
   calculate_aqi c1 pollutant <= calculate_aqi c2 pollutant).
Proof.
  split; [apply calculate_aqi_range|].
  unfold calculate_aqi. destruct (aqi_breakpoints !! pollutant) as [bps|] eqn:E; [|lia].
  pose proof (tables_ordered _ _ E) as Hord.
  intros H0 Hc. apply aqi_loop_mono; [exact Hord | | exact Hc].
  table_cases E; exact H0.
Qed.

Lemma calculate_aqi_range_monotone_witness :
  (0 <= 35)%Q /\ (35 <= 95)%Q /\ calculate_aqi 35 "pm25" <= calculate_aqi 95 "pm25".
Proof.
  split; [discriminate|]. split; [discriminate|].
  apply (proj2 (calculate_aqi_range_monotone "pm25" 35 95)); discriminate.
Defined.

(** *** Flood risk *)


Lemma precip_linear (p : Q) : (p / 50 == p * (1 # 50))%Q.
Proof. field. Qed.

Lemma flood_risk_pixel_range (p : Q) (soil : option Q) :
  (0 <= flood_risk_pixel p soil <= 1)%Q.
Proof.
  unfold flood_risk_pixel. destruct soil as [m|].
  - assert (H1 : (0 <= np_clip (p / 50) 0 1 <= 1)%Q) by (apply np_clip_bounds; lra).
    assert (H2 : (0 <= np_clip (m / (1 # 2)) 0 1 <= 1)%Q) by (apply np_clip_bounds; lra).
    revert H1 H2. generalize (np_clip (p / 50) 0 1) (np_clip (m / (1 # 2)) 0 1).
    intros x y H1 H2. unfold np_minimum. q_cases; lra.
  - apply np_clip_bounds. lra.
Qed.





End NormalizerFacts.

Module AirQualityFacts.
Import Num NumFacts DataNormalizer DataNormalizerFacts Omi AirQuality.

Lemma get_set_item (k : string) (v : entry) (d : results) :
  get_item k (set_item k v d) = Some v.
Proof.
  induction d as [|[k' v'] d IH]; simpl.
  - rewrite String.eqb_refl. reflexivity.
  - destruct (String.eqb k k') eqn:E; simpl; rewrite ?E, ?String.eqb_refl; auto.
Qed.

Lemma get_set_item_other (k k' : string) (v : entry) (d : results) :
  k <> k' -> get_item k (set_item k' v d) = get_item k d.
Proof.
  intros Hne. induction d as [|[k0 v0] d IH]; simpl.
  - apply String.eqb_neq in Hne. rewrite Hne. reflexivity.
  - destruct (String.eqb k' k0) eqn:E; simpl.
    + apply String.eqb_eq in E. subst k0. apply String.eqb_neq in Hne. rewrite Hne. reflexivity.
    + destruct (String.eqb k k0); auto.
Qed.

Lemma add_pollutant_indices (data : list (string * list fval)) (state : results * list (list Z)) :
  (foldl add_pollutant state data).2 = state.2 ++ sub_indices data.
Proof.
  revert state. induction data as [|item data IH]; intros state; simpl.
  - unfold sub_indices. simpl. rewrite app_nil_r. reflexivity.
  - rewrite IH. unfold sub_indices. cbn [List.filter]. unfold add_pollutant.
    destruct (aqi_breakpoints !! item.1) as [bps|] eqn:E.
    + rewrite bool_decide_true by eauto. cbn [map snd]. rewrite <- app_assoc. reflexivity.
    + rewrite bool_decide_false by (intros [x Hx]; congruence). reflexivity.
Qed.

Lemma maximum_fold (n : nat) (rest : list (list Z)) (a : list Z) :
  length a = n -> Forall (fun b => length b = n) rest ->
  length (foldl (zip_with Z.max) a rest) = n /\
  forall (i : nat) (o : Z),
    foldl (zip_with Z.max) a rest !! i = Some o ->
    (forall b, In b (a :: rest) -> exists x, b !! i = Some x /\ x <= o) /\
    (exists b, In b (a :: rest) /\ b !! i = Some o).
Proof.
  intros Ha Hrest. revert a Ha. induction Hrest as [|b rest Hb _ IH]; intros a Ha; simpl.
  - split; [exact Ha|]. intros i o Ho. split.
    + intros c [<-|[]]. exists o. split; [exact Ho | lia].
    + exists a. auto.
  - assert (Hlen : length (zip_with Z.max a b) = n)
      by (rewrite length_zip_with; lia).
    destruct (IH _ Hlen) as [Hl Hmax]. split; [exact Hl|].
    intros i o Ho. destruct (Hmax i o Ho) as [Hall (c & Hc & Hco)]. split.
    + pose proof (Hall _ (or_introl eq_refl)) as (m & Hm & Hmo).
      apply lookup_zip_with_Some in Hm as (x & y & -> & Hx & Hy).
      intros d [<-|[<-|Hd]].
      * exists x. split; [exact Hx | lia].
      * exists y. split; [exact Hy | lia].
      * apply Hall. right. exact Hd.
    + destruct Hc as [<-|Hc].
      * apply lookup_zip_with_Some in Hco as (x & y & -> & Hx & Hy).
        destruct (Z.max_spec x y) as [[_ ->]|[_ ->]].
        -- exists b. simpl. auto.
        -- exists a. simpl. auto.
      * exists c. simpl. auto.
Qed.

Lemma calculate_aqi_value_range (v : fval) (p : string) :
  0 <= calculate_aqi_value v p <= 400.
Proof.
  destruct v as [|c]; simpl.
  - destruct (aqi_breakpoints !! p); lia.
  - apply NormalizerFacts.calculate_aqi_range.
Qed.

Lemma sub_indices_length (n : nat) (data : list (string * list fval)) :
  Forall (fun item : string * list fval => length item.2 = n) data ->
  Forall (fun a => length a = n) (sub_indices data).
Proof.
  intros H. unfold sub_indices. apply List.Forall_forall. intros a Ha.
  apply in_map_iff in Ha as (item & <- & Hitem). apply filter_In in Hitem as [Hitem _].
  rewrite length_map. exact (proj1 (List.Forall_forall _ _) H item Hitem).
Qed.

Lemma sub_indices_range (data : list (string * list fval)) (a : list Z) (i : nat) (x : Z) :
  In a (sub_indices data) -> a !! i = Some x -> 0 <= x <= 400.
Proof.
  unfold sub_indices. intros Ha Hx. apply in_map_iff in Ha as (item & <- & _).
  rewrite list_lookup_fmap in Hx. destruct (item.2 !! i) as [v|]; [|discriminate].
  injection Hx; intros <-. apply calculate_aqi_value_range.
Qed.

(** When some pollutant has a table and all arrays hold the same
    positive number of values, the result has an overall index and its
    categories, and nothing is logged: at every position the overall index
    is the largest of the sub-indices of the pollutants with a table (it
    bounds each of them and is one of them), so it lies between 0 and
    400, and the category is the one of that index. *)
Theorem normalize_air_quality_overall (pollutant_data : list (string * list fval)) (n : nat) :
  (0 < n)%nat ->
  sub_indices pollutant_data <> [] ->
  Forall (fun item : string * list fval => length item.2 = n) pollutant_data ->
  exists overall,
    (normalize_air_quality pollutant_data).2 = []
    /\ get_item "overall_aqi" (normalize_air_quality pollutant_data).1 = Some (Index overall)
    /\ get_item "aqi_category" (normalize_air_quality pollutant_data).1
       = Some (Category (map classify_aqi overall))
    /\ length overall = n
    /\ forall (i : nat) (o : Z),
         overall !! i = Some o ->
         0 <= o <= 400
         /\ (forall a, In a (sub_indices pollutant_data) -> exists x, a !! i = Some x /\ x <= o)
         /\ (exists a, In a (sub_indices pollutant_data) /\ a !! i = Some o).
Proof.
  intros Hn Hne Hlen. unfold normalize_air_quality.
  rewrite add_pollutant_indices. cbn [snd app].
  pose proof (sub_indices_length n pollutant_data Hlen) as Hsub.
  pose proof (sub_indices_range pollutant_data) as Hrange.
  destruct (sub_indices pollutant_data) as [|a rest]; [congruence|].
  inversion Hsub as [|? ? Ha Hrest]; subst.
  cbn [maximum_reduce].
  assert (Hall : forallb (fun b => Nat.eqb (length b) (length a)) rest = true).
  { apply forallb_forall. intros b Hb. apply Nat.eqb_eq.
    rewrite (proj1 (List.Forall_forall _ _) Hrest b Hb). reflexivity. }
  rewrite Hall. cbn [mbind result_bind].
  destruct (maximum_fold (length a) rest a eq_refl Hrest) as [Hl Hmax].
  set (overall := foldl (zip_with Z.max) a rest) in *.
  unfold np_vectorize. destruct overall as [|o0 overall'] eqn:Eo; [simpl in Hl; lia|].
  cbn [mbind result_bind fst snd]. rewrite <- Eo in *. clear Eo.
  exists overall. split; [reflexivity|]. split; [|split; [|split]].
  - rewrite get_set_item_other by discriminate. apply get_set_item.
  - apply get_set_item.
  - exact Hl.
  - intros i o Ho. destruct (Hmax i o Ho) as [H1 (b & Hb & Hbo)].
    split; [exact (Hrange b i o Hb Hbo)|]. split; [exact H1|]. eauto.
Qed.

Lemma normalize_air_quality_overall_witness :
  exists overall,
    (normalize_air_quality [("no2", [Fin 40; Fin 90]); ("so2", [Fin 500; NaN])]).2 = []
    /\ get_item "overall_aqi"
         (normalize_air_quality [("no2", [Fin 40; Fin 90]); ("so2", [Fin 500; NaN])]).1
       = Some (Index overall)
    /\ get_item "aqi_category"
         (normalize_air_quality [("no2", [Fin 40; Fin 90]); ("so2", [Fin 500; NaN])]).1
       = Some (Category (map classify_aqi overall))
    /\ length overall = 2%nat
    /\ forall (i : nat) (o : Z),
         overall !! i = Some o ->
         0 <= o <= 400
         /\ (forall a, In a (sub_indices [("no2", [Fin 40; Fin 90]); ("so2", [Fin 500; NaN])])
                       -> exists x, a !! i = Some x /\ x <= o)
         /\ (exists a, In a (sub_indices [("no2", [Fin 40; Fin 90]); ("so2", [Fin 500; NaN])])
                       /\ a !! i = Some o).
Proof.
  apply (normalize_air_quality_overall
           [("no2", [Fin 40; Fin 90]); ("so2", [Fin 500; NaN])] 2).
  - lia.
  - vm_compute. discriminate.
  - repeat constructor.
Defined.

Example normalize_air_quality_sample :
  normalize_air_quality [("no2", [Fin 40; Fin 90]); ("so2", [Fin 500; NaN])]
  = ([("no2_aqi", Index [50; 110]); ("no2", Values [Fin 40; Fin 90]);
      ("so2_aqi", Index [229; 400]); ("so2", Values [Fin 500; NaN]);
      ("overall_aqi", Index [229; 400]); ("aqi_category", Category ["Very Poor"; "Severe"])],
     []).
Proof. vm_compute. reflexivity. Qed.

(** *** The conversion of the NO2 column *)

Lemma py_int_unique (x : Q) (z : Z) :
  (0 <= x)%Q -> (inject_Z z <= x)%Q -> (x < inject_Z z + 1)%Q -> py_int x = z.
Proof.
  intros H0 H1 H2. destruct (py_int_nonneg x H0) as [H3 H4].
  assert (Hz : (inject_Z (z + 1) == inject_Z z + 1)%Q) by (rewrite inject_Z_plus; reflexivity).
  assert (Hp : (inject_Z (py_int x + 1) == inject_Z (py_int x) + 1)%Q)
    by (rewrite inject_Z_plus; reflexivity).
  assert (Ha : (inject_Z z < inject_Z (py_int x + 1))%Q) by lra.
  assert (Hb : (inject_Z (py_int x) < inject_Z (z + 1))%Q) by lra.
  rewrite <- Zlt_Qlt in Ha, Hb. lia.
Qed.

Lemma calculate_aqi_no2 (c : Q) :
  calculate_aqi c "no2"
  = aqi_loop [(0, 40, 0, 50); (40, 80, 51, 100); (80, 180, 101, 200);
              (180, 280, 201, 300); (280, 400, 301, 400)] c.
Proof. reflexivity. Qed.

Lemma calculate_aqi_no2_at_cap (c : Q) : (c == 200)%Q -> calculate_aqi c "no2" = 220.
Proof.
  intros Hc. rewrite calculate_aqi_no2.
  unfold aqi_loop, in_piece, piece_value. unfold inject_Z.
  q_cases; try lra. simpl andb. cbv iota.
  assert (Es : ((300 - 201 # 1) / (280 - 180 # 1) == 99 # 100)%Q) by reflexivity.
  apply py_int_unique; unfold inject_Z; rewrite Es; lra.
Qed.

Lemma calculate_aqi_no2_at_zero (c : Q) : (c == 0)%Q -> calculate_aqi c "no2" = 0.
Proof.
  intros Hc. rewrite calculate_aqi_no2.
  unfold aqi_loop, in_piece, piece_value. unfold inject_Z.
  q_cases; try lra. simpl andb. cbv iota.
  assert (Es : ((50 - 0 # 1) / (40 - 0 # 1) == 5 # 4)%Q) by reflexivity.
  apply py_int_unique; unfold inject_Z; rewrite Es; lra.
Qed.

Lemma no2_scale (v : Q) : (v * (inject_Z (10 ^ 15) / 50) == v * inject_Z (2 * 10 ^ 13))%Q.
Proof.
  assert (E : (inject_Z (10 ^ 15) / 50 == inject_Z (2 * 10 ^ 13))%Q) by (vm_compute; reflexivity).
  rewrite E. reflexivity.
Qed.

(** The NO2 column is multiplied by 1e15, not divided: every column of
    at least 1e-11 molecules per square centimetre, so every real one, is
    converted to the cap of 200 and gets the sub-index 220, Very Poor; a
    column that is not positive gets 0 and a NaN gets 400. *)
Theorem no2_conversion_saturates (v : Q) :
  ((1 # 100000000000 <= v)%Q ->
   calculate_aqi_value (no2_concentration (Fin v)) "no2" = 220) /\
  ((v <= 0)%Q -> calculate_aqi_value (no2_concentration (Fin v)) "no2" = 0) /\
  calculate_aqi_value (no2_concentration NaN) "no2" = 400 /\
  classify_aqi 220 = "Very Poor".
Proof.
  unfold no2_concentration, fmul, fclip, calculate_aqi_value.
  pose proof (no2_scale v) as E. revert E.
  generalize (v * (inject_Z (10 ^ 15) / 50))%Q. intros x E.
  assert (Hk : (inject_Z (2 * 10 ^ 13) == 20000000000000)%Q) by reflexivity.
  rewrite Hk in E. clear Hk.
  split; [|split; [|split; reflexivity]].
  - intros Hv. apply calculate_aqi_no2_at_cap.
    unfold np_clip, np_minimum, np_maximum. q_cases; lra.
  - intros Hv. apply calculate_aqi_no2_at_zero.
    unfold np_clip, np_minimum, np_maximum. q_cases; lra.
Qed.

Lemma no2_conversion_saturates_witness :
  (1 # 100000000000 <= inject_Z (3 * 10 ^ 15))%Q /\
  calculate_aqi_value (no2_concentration (Fin (inject_Z (3 * 10 ^ 15)))) "no2" = 220.
Proof.
  split; [discriminate|].
  apply (proj1 (no2_conversion_saturates (inject_Z (3 * 10 ^ 15)))). discriminate.
Defined.

Lemma no2_at_cap (q : Q) :
  (1 # 100000000000 <= q)%Q ->
  calculate_aqi_value (no2_concentration (Fin q)) "no2" = 220.
Proof.
  intros Hq. unfold no2_concentration, fmul, fclip, calculate_aqi_value.
  apply calculate_aqi_no2_at_cap.
  pose proof (no2_scale q) as E. revert E.
  generalize (q * (inject_Z (10 ^ 15) / 50))%Q. intros x E.
  assert (Hk : (inject_Z (2 * 10 ^ 13) == 20000000000000)%Q) by reflexivity.
  rewrite Hk in E.
  unfold np_clip, np_minimum, np_maximum. q_cases; lra.
Qed.

Lemma normalize_air_quality_single (p : string) (vals : list fval) :
  is_Some (aqi_breakpoints !! p) -> vals <> [] ->
  get_item "overall_aqi" (normalize_air_quality [(p, vals)]).1
  = Some (Index (map (fun v => calculate_aqi_value v p) vals))
  /\ get_item "aqi_category" (normalize_air_quality [(p, vals)]).1
     = Some (Category (map classify_aqi (map (fun v => calculate_aqi_value v p) vals))).
Proof.
  intros Hp Hne. unfold normalize_air_quality.
  rewrite add_pollutant_indices. unfold sub_indices.
  cbn [List.filter fst snd app]. rewrite bool_decide_true by exact Hp.
  cbn [map maximum_reduce forallb foldl fst snd mbind result_bind].
  destruct vals as [|v vals]; [congruence|].
  cbn [map np_vectorize mbind result_bind fst snd].
  split; [|apply get_set_item].
  rewrite get_set_item_other by discriminate. apply get_set_item.
Qed.

(** For the dataset of the NO2 product, whose grid holds columns of at
    least 1e-11 molecules per square centimetre, the overall index added
    to the dataset is 220 in every cell and the category is Very Poor
    everywhere: the map of the air quality does not depend on the
    measured columns. *)
Theorem process_air_quality_no2_constant (ds : dataset) (grid : list (list fval)) :
  data_vars ds = omi_data_vars "OMNO2" grid ->
  flatten grid <> [] ->
  (forall v, In v (flatten grid) -> exists q, v = Fin q /\ (1 # 100000000000 <= q)%Q) ->
  get_item "overall_aqi" (_process_air_quality_data ds)
  = Some (Index (map (fun _ => 220) (flatten grid)))
  /\ get_item "aqi_category" (_process_air_quality_data ds)
     = Some (Category (map (fun _ => "Very Poor") (flatten grid))).
Proof.
  intros Hds Hne Hall.
  unfold _process_air_quality_data, pollutant_data_of, data_var. rewrite Hds.
  cbn [omi_data_vars String.eqb Ascii.eqb Bool.eqb List.find fst snd fmap option_fmap
       option_map app].
  assert (Hno2 : is_Some (aqi_breakpoints !! "no2")) by (vm_compute; eauto).
  assert (Hvals : map no2_concentration (flatten grid) <> []).
  { intros E. apply Hne. destruct (flatten grid); [reflexivity | discriminate]. }
  destruct (normalize_air_quality_single "no2" _ Hno2 Hvals) as [H1 H2].
  rewrite H1, H2, !map_map. split; do 2 f_equal.
  - apply map_ext_in. intros v Hv. destruct (Hall v Hv) as (q & -> & Hq).
    apply no2_at_cap, Hq.
  - apply map_ext_in. intros v Hv. destruct (Hall v Hv) as (q & -> & Hq).
    rewrite (no2_at_cap q Hq). reflexivity.
Qed.

Lemma process_air_quality_no2_constant_witness :
  get_item "overall_aqi"
    (_process_air_quality_data
       {| lat := [19]%Q; lon := [728 # 10]%Q;
          data_vars := omi_data_vars "OMNO2"
                         [[Fin (inject_Z (10 ^ 15)); Fin (inject_Z (6 * 10 ^ 15))]] |})
  = Some (Index [220; 220]).
Proof.
  apply (process_air_quality_no2_constant
           {| lat := [19]%Q; lon := [728 # 10]%Q;
              data_vars := omi_data_vars "OMNO2"
                             [[Fin (inject_Z (10 ^ 15)); Fin (inject_Z (6 * 10 ^ 15))]] |}
           [[Fin (inject_Z (10 ^ 15)); Fin (inject_Z (6 * 10 ^ 15))]]).
  - reflexivity.
  - discriminate.
  - intros v [<- | [<- | []]]; eexists; (split; [reflexivity | discriminate]).
Defined.

End AirQualityFacts.

Module ReportFacts.
Import Num NumFacts Engine EngineFacts Report.

Lemma calculate_scores_shape_witness :
  exists a h f hc g o,
    air_scores = scores_shape a h f hc g o /\
    (o == (a + h + f + hc + g) / 5)%Q /\
    in_range a /\ in_range h /\
    (0 <= f)%Q /\ (is_Some (air_city !! "flood_zones") -> (f <= 100)%Q) /\
    (hc <= 100)%Q /\ (is_Some (air_city !! "healthcare_gaps") -> (0 <= hc)%Q) /\
    (is_Some (air_city !! "green_space_deficits") \/ g = 50%Q).
Proof.
  apply (calculate_scores_shape air_city air_scores). vm_compute. reflexivity.
Defined.

Example air_city_scores :
  Forall2 (fun x y => x.1 = y.1 /\ (x.2 == y.2)%Q) air_scores (scores_shape 80 50 50 50 50 56).
Proof. repeat constructor; reflexivity. Qed.

(** *** The [except] branch *)

Ltac raise_cases H :=
  repeat match type of H with
  | context [match ?m !! ?k with _ => _ end] => destruct (m !! k) eqn:?
  | context [if df_empty ?d then _ else _] => destruct (df_empty d)
  | context [if Nat.ltb ?a ?b then _ else _] => destruct (Nat.ltb a b)
  | context [mbind _ ?r] => destruct r eqn:?; cbn [mbind result_bind] in H
  end; try discriminate.

Ltac same_raise :=
  repeat match goal with
  | H : ?x = _ |- context [?x] => rewrite H
  end; cbn [mbind result_bind]; try reflexivity.

Lemma score_air_raises ar s s' e : score_air ar s = Raise e -> score_air ar s' = Raise e.
Proof. unfold score_air. intros H. raise_cases H. same_raise. exact H. Qed.

Lemma score_heat_never_raises ar s e : score_heat ar s <> Raise e.
Proof. unfold score_heat. intros H. raise_cases H. Qed.

Lemma score_healthcare_raises ar s s' e :
  score_healthcare ar s = Raise e -> score_healthcare ar s' = Raise e.
Proof. unfold score_healthcare. intros H. raise_cases H; same_raise; exact H. Qed.

Lemma score_green_raises ar s s' e : score_green ar s = Raise e -> score_green ar s' = Raise e.
Proof. unfold score_green. intros H. raise_cases H. same_raise. exact H. Qed.

Lemma score_flood_raises ar s s' e : score_flood ar s = Raise e -> score_flood ar s' = Raise e.
Proof. unfold score_flood. intros H. raise_cases H; same_raise; exact H. Qed.

Lemma calculate_scores_raises (ar : gmap string DataFrame) :
  block_raises ar <-> exists e, calculate_scores ar = Raise e.
Proof.
  unfold block_raises, calculate_scores. split.
  - intros (s & e & H).
    destruct (score_air ar initial_scores) as [s1|e1] eqn:E1; cbn [mbind result_bind]; [|eauto].
    destruct (score_heat ar s1) as [s2|e2] eqn:E2; cbn [mbind result_bind]; [|eauto].
    destruct (score_healthcare ar s2) as [s3|e3] eqn:E3; cbn [mbind result_bind]; [|eauto].
    destruct (score_green ar s3) as [s4|e4] eqn:E4; cbn [mbind result_bind]; [|eauto].
    destruct (score_flood ar s4) as [s5|e5] eqn:E5; cbn [mbind result_bind]; [|eauto].
    exfalso. destruct H as [H | [H | [H | [H | H]]]].
    + apply (score_air_raises ar s initial_scores) in H. congruence.
    + exact (score_heat_never_raises ar s e H).
    + apply (score_healthcare_raises ar s s2) in H. congruence.
    + apply (score_green_raises ar s s3) in H. congruence.
    + apply (score_flood_raises ar s s4) in H. congruence.
  - intros [e H].
    destruct (score_air ar initial_scores) as [s1|e1] eqn:E1; cbn [mbind result_bind] in H;
      [|exists initial_scores, e1; auto].
    destruct (score_heat ar s1) as [s2|e2] eqn:E2; cbn [mbind result_bind] in H;
      [|exists s1, e2; auto].
    destruct (score_healthcare ar s2) as [s3|e3] eqn:E3; cbn [mbind result_bind] in H;
      [|exists s2, e3; auto].
    destruct (score_green ar s3) as [s4|e4] eqn:E4; cbn [mbind result_bind] in H;
      [|exists s3, e4; auto].
    destruct (score_flood ar s4) as [s5|e5] eqn:E5; cbn [mbind result_bind] in H;
      [|exists s4, e5; auto 10].
    discriminate.
Qed.

(** The scores are all or nothing: as soon as one block raises, which
    it does whatever the scores so far are, the report holds nothing but
    an overall score of 50, without the other scores, the summary and the
    status; in every other case the report has all of them. *)
Theorem resilience_report_all_or_nothing
    (analysis_results : gmap string DataFrame) (recommendations : list Recommendation) :
  (block_raises analysis_results <->
   calculate_city_resilience_score analysis_results recommendations = fallback_report) /\
  (~ block_raises analysis_results ->
   exists scores,
     calculate_scores analysis_results = Ok scores
     /\ calculate_city_resilience_score analysis_results recommendations
        = {| resilience_scores := scores;
             summary := Some (summarize recommendations);
             city_status :=
               Some (_determine_city_status
                       (default 0%Q (dict_get "overall_resilience_score" scores))) |}).
Proof.
  rewrite calculate_scores_raises. unfold calculate_city_resilience_score, fallback_report.
  destruct (calculate_scores analysis_results) as [scores|e].
  - split.
    + split; [intros [e H]; discriminate | discriminate].
    + intros _. exists scores. auto.
  - split.
    + split; [reflexivity | eauto].
    + intros H. exfalso. apply H. eauto.
Qed.

Lemma resilience_report_all_or_nothing_witness :
  calculate_city_resilience_score
    {[ "ward_air_quality" := air_frame; "green_space_deficits" := frame_without_scores ]} []
  = fallback_report.
Proof.
  apply (proj1 (proj1 (resilience_report_all_or_nothing
                         {[ "ward_air_quality" := air_frame;
                            "green_space_deficits" := frame_without_scores ]} []))).
  exists initial_scores, "KeyError". right. right. right. left.
  vm_compute. reflexivity.
Defined.

(** *** Without data *)

(** When every frame that is given is empty, no score is computed: the
    five scores keep their initial value 50, the overall score is 50 and
    the status is Developing Resilience. *)
Theorem resilience_report_without_data
    (analysis_results : gmap string DataFrame) (recommendations : list Recommendation) :
  (forall name df, analysis_results !! name = Some df -> df_empty df = true) ->
  exists o,
    (o == 50)%Q /\
    calculate_city_resilience_score analysis_results recommendations
    = {| resilience_scores := scores_shape 50 50 50 50 50 o;
         summary := Some (summarize recommendations);
         city_status := Some "Developing Resilience" |}.
Proof.
  intros Hempty.
  assert (Hblock : forall name (k : DataFrame -> result dict) (s : dict),
            match analysis_results !! name with
            | Some df => if df_empty df then Ok s else k df
            | None => Ok s
            end = Ok s).
  { intros name k s. destruct (analysis_results !! name) as [df|] eqn:E; [|reflexivity].
    rewrite (Hempty name df E). reflexivity. }
  assert (Hscores : calculate_scores analysis_results
                    = Ok (dict_set "overall_resilience_score"
                            (np_mean (removelast (dict_values initial_scores)))
                            initial_scores)).
  { unfold calculate_scores, score_air, score_heat, score_healthcare, score_green, score_flood.
    rewrite (Hblock "ward_air_quality"). cbn [mbind result_bind].
    rewrite (Hblock "heat_islands"). cbn [mbind result_bind].
    destruct (analysis_results !! "healthcare_gaps") as [df|] eqn:E1.
    - rewrite (Hempty _ df E1). cbn [mbind result_bind].
      rewrite (Hblock "green_space_deficits"). cbn [mbind result_bind].
      destruct (analysis_results !! "flood_zones") as [df2|] eqn:E2.
      + rewrite (Hempty _ df2 E2). reflexivity.
      + rewrite (Hblock "drainage_analysis"). reflexivity.
    - rewrite (Hblock "healthcare_capacity"). cbn [mbind result_bind].
      rewrite (Hblock "green_space_deficits"). cbn [mbind result_bind].
      destruct (analysis_results !! "flood_zones") as [df2|] eqn:E2.
      + rewrite (Hempty _ df2 E2). reflexivity.
      + rewrite (Hblock "drainage_analysis"). reflexivity. }
  unfold calculate_city_resilience_score. rewrite Hscores.
  eexists. split; [|reflexivity]. reflexivity.
Qed.

Lemma resilience_report_without_data_witness :
  exists o,
    (o == 50)%Q /\
    calculate_city_resilience_score {[ "heat_islands" := empty_frame ]} []
    = {| resilience_scores := scores_shape 50 50 50 50 50 o;
         summary := Some (summarize []);
         city_status := Some "Developing Resilience" |}.
Proof.
  apply (resilience_report_without_data {[ "heat_islands" := empty_frame ]} []).
  intros name df H. apply lookup_singleton_Some in H as [_ <-]. reflexivity.
Defined.

(** *** The summary of the recommendations *)

Lemma count_priority_cons (p : Priority) (rec : Recommendation) (l : list Recommendation) :
  count_priority p (rec :: l)
  = ((if priority_eqb (priority rec) p then 1 else 0) + count_priority p l)%nat.
Proof.
  unfold count_priority. simpl. destruct (priority_eqb (priority rec) p); reflexivity.
Qed.

Lemma summarize_counts_sum (l : list Recommendation) :
  (count_priority CRITICAL l + count_priority HIGH l
   + count_priority MEDIUM l + count_priority LOW l = length l)%nat.
Proof.
  induction l as [|rec l IH]; [reflexivity|].
  rewrite !count_priority_cons. cbn [length].
  revert IH. generalize (count_priority CRITICAL l) (count_priority HIGH l)
    (count_priority MEDIUM l) (count_priority LOW l) (length l).
  intros c h m w n IH.
  destruct (priority rec); simpl; lia.
Qed.


End ReportFacts.

Module WardSummaryFacts.
Import Num NumFacts Engine EngineFacts WardSummary.

Lemma foldl_snoc {A B} (f : A -> B -> A) (a : A) (l : list B) (x : B) :
  foldl f a (l ++ [x]) = f (foldl f a l) x.
Proof. revert a. induction l as [|y l IH]; intros a; simpl; [reflexivity | apply IH]. Qed.

Lemma of_ward_snoc (w : Z) (l : list Recommendation) (rec : Recommendation) :
  of_ward w (l ++ [rec])
  = of_ward w l ++ (if Z.eqb (ward_number rec) w then [rec] else []).
Proof. unfold of_ward. rewrite List.filter_app. reflexivity. Qed.

(** The summary of a ward is the one built from its own recommendations. *)
Lemma create_ward_summary_lookup (recommendations : list Recommendation) (w : Z) :
  create_ward_summary recommendations !! w
  = match of_ward w recommendations with
    | [] => None
    | first :: _ =>
        Some (foldl add_recommendation (new_summary first) (of_ward w recommendations))
    end.
Proof.
  unfold create_ward_summary.
  induction recommendations as [|rec l IH] using rev_ind; [reflexivity|].
  rewrite foldl_snoc, of_ward_snoc. unfold ward_step at 1.
  destruct (Z.eqb_spec (ward_number rec) w) as [E|E].
  - subst w. rewrite lookup_insert_eq, IH.
    destruct (of_ward (ward_number rec) l) as [|first mine]; simpl.
    + reflexivity.
    + rewrite foldl_snoc. reflexivity.
  - rewrite lookup_insert_ne by exact E. rewrite app_nil_r. exact IH.
Qed.

Lemma of_ward_number (w : Z) (l : list Recommendation) (rec : Recommendation) :
  In rec (of_ward w l) -> ward_number rec = w.
Proof. unfold of_ward. intros H. apply filter_In in H as [_ H]. apply Z.eqb_eq, H. Qed.

Lemma summary_fields (s : ward_summary) (l : list Recommendation) :
  let t := foldl add_recommendation s l in
  ws_ward_number t = ws_ward_number s /\
  ws_ward_name t = ws_ward_name s /\
  ws_total_recommendations t = ws_total_recommendations s + Z.of_nat (length l) /\
  ws_critical_priority t = ws_critical_priority s + count_priority_Z CRITICAL l /\
  ws_high_priority t = ws_high_priority s + count_priority_Z HIGH l /\
  ws_medium_priority t = ws_medium_priority s + count_priority_Z MEDIUM l /\
  ws_low_priority t = ws_low_priority s + count_priority_Z LOW l /\
  (ws_total_estimated_cost t
   == ws_total_estimated_cost s + Qsum (map estimated_cost_usd l))%Q /\
  ws_affected_population t
  = foldl Z.max (ws_affected_population s) (map affected_population l) /\
  ws_recommendations t = ws_recommendations s ++ map item_of l.
Proof.
  revert s. induction l as [|rec l IH]; intros s; cbn zeta.
  - simpl. unfold count_priority_Z, count_priority. simpl.
    rewrite !Z.add_0_r, app_nil_r. repeat split; try reflexivity. lra.
  - cbn [foldl]. specialize (IH (add_recommendation s rec)). cbn zeta in IH.
    destruct IH as (H1 & H2 & H3 & H4 & H5 & H6 & H7 & H8 & H9 & H10).
    rewrite H1, H2, H3, H4, H5, H6, H7, H8, H9, H10.
    unfold count_priority_Z. rewrite !ReportFacts.count_priority_cons.
    cbn [add_recommendation ws_ward_number ws_ward_name ws_total_recommendations
         ws_critical_priority ws_high_priority ws_medium_priority ws_low_priority
         ws_total_estimated_cost ws_affected_population ws_recommendations
         map length foldl Qsum fold_right].
    rewrite <- app_assoc.
    repeat split; try reflexivity; try lia; try (unfold Qsum; ring);
      destruct (priority rec);
      cbn [priority_eqb priority_order Z.eqb Pos.eqb]; lia.
Qed.

(** A ward has a summary exactly when some recommendation names it. The
    summary carries the number of the ward, the name given by the first of
    its recommendations, the number of its recommendations, which is the
    sum of the four counts by tier, each the number of its recommendations
    of that tier, the sum of their costs, the largest affected population
    among them (0 if none is positive), and one entry for each of them in
    the order of the list. *)
Theorem create_ward_summary_per_ward (recommendations : list Recommendation) (w : Z) :
  (create_ward_summary recommendations !! w = None <-> of_ward w recommendations = []) /\
  (forall s, create_ward_summary recommendations !! w = Some s ->
     ws_ward_number s = w /\
     Some (ws_ward_name s) = ward_name <$> head (of_ward w recommendations) /\
     ws_total_recommendations s = Z.of_nat (length (of_ward w recommendations)) /\
     ws_critical_priority s = count_priority_Z CRITICAL (of_ward w recommendations) /\
     ws_high_priority s = count_priority_Z HIGH (of_ward w recommendations) /\
     ws_medium_priority s = count_priority_Z MEDIUM (of_ward w recommendations) /\
     ws_low_priority s = count_priority_Z LOW (of_ward w recommendations) /\
     ws_critical_priority s + ws_high_priority s + ws_medium_priority s + ws_low_priority s
     = ws_total_recommendations s /\
     (ws_total_estimated_cost s
      == Qsum (map estimated_cost_usd (of_ward w recommendations)))%Q /\
     ws_affected_population s
     = foldl Z.max 0 (map affected_population (of_ward w recommendations)) /\
     ws_recommendations s = map item_of (of_ward w recommendations)).
Proof.
  rewrite create_ward_summary_lookup. split.
  - destruct (of_ward w recommendations); split; congruence.
  - intros s Hs.
    destruct (of_ward w recommendations) as [|first mine] eqn:E; [discriminate|].
    assert (Hs' : foldl add_recommendation (new_summary first) (first :: mine) = s)
      by congruence.
    clear Hs. subst s.
    pose proof (of_ward_number w recommendations first) as Hw.
    rewrite E in Hw. specialize (Hw (or_introl eq_refl)).
    pose proof (summary_fields (new_summary first) (first :: mine)) as H.
    cbn zeta in H. destruct H as (H1 & H2 & H3 & H4 & H5 & H6 & H7 & H8 & H9 & H10).
    rewrite H1, H2, H3, H4, H5, H6, H7, H8, H9, H10.
    cbn [new_summary ws_ward_number ws_ward_name ws_total_recommendations
         ws_critical_priority ws_high_priority ws_medium_priority ws_low_priority
         ws_total_estimated_cost ws_affected_population ws_recommendations head fmap
         option_fmap option_map app].
    repeat split; try reflexivity; try exact Hw; try lra.
    unfold count_priority_Z.
    pose proof (ReportFacts.summarize_counts_sum (first :: mine)). lia.
Qed.

Lemma create_ward_summary_per_ward_witness :
  exists s,
    create_ward_summary two_wards !! 7 = Some s
    /\ ws_ward_name s = "Ward G"
    /\ ws_total_recommendations s = 2
    /\ ws_affected_population s = 20000.
Proof.
  destruct (create_ward_summary two_wards !! 7) as [s|] eqn:E;
    [|vm_compute in E; discriminate].
  exists s. split; [reflexivity|].
  destruct (proj2 (create_ward_summary_per_ward two_wards 7) s E)
    as (_ & Hname & Htotal & _ & _ & _ & _ & _ & _ & Hpop & _).
  split; [injection Hname; auto|]. split; [exact Htotal | exact Hpop].
Defined.

End WardSummaryFacts.

Module HeatGeneratorFacts.
Import Num NumFacts Engine EngineFacts HeatGenerator.

Lemma area_recommendations_outcome (a : area) :
  area_recommendations a = if Z.leb 3 a.2 then Raise "NameError" else Ok [].
Proof. unfold area_recommendations. destruct (Z.leb 3 a.2); reflexivity. Qed.

Lemma for_each_area (areas : list area) :
  for_each area_recommendations areas
  = if existsb (fun a : area => Z.leb 3 a.2) areas then Raise "NameError" else Ok [].
Proof.
  induction areas as [|a areas IH]; [reflexivity|].
  cbn [for_each existsb]. rewrite area_recommendations_outcome, IH.
  destruct (Z.leb 3 a.2); [reflexivity|].
  cbn [mbind result_bind orb]. destruct (existsb _ areas); reflexivity.
Qed.

(** The heat mitigation generator never returns a recommendation: a
    cluster of three or more heat islands makes the body of the loop
    evaluate the unbound name [index], the exception is caught and the
    empty list returned with an error record; without such a cluster the
    list stays empty. The engine therefore ranks the same list as with a
    generator that returns nothing. *)
Theorem heat_generator_returns_nothing
    (heat_island_areas : DataFrame -> result (list area))
    (heat_islands cooling_analysis ward_data : DataFrame) :
  (heat_generate heat_island_areas heat_islands cooling_analysis ward_data).1 = [] /\
  (forall areas,
     df_empty heat_islands = false -> heat_island_areas heat_islands = Ok areas ->
     (heat_generate heat_island_areas heat_islands cooling_analysis ward_data).2
     = if existsb (fun a : area => Z.leb 3 a.2) areas
       then [(ERROR, "Error generating heat mitigation recommendations: {e}")]
       else [(INFO, "Generated {len(recommendations)} heat mitigation recommendations")]) /\
  (forall air flood health green (analysis_results : gmap string DataFrame),
     generate_all_recommendations air
       (fun h c w => (heat_generate heat_island_areas h c w).1) flood health green
       analysis_results
     = generate_all_recommendations air (fun _ _ _ => []) flood health green
         analysis_results).
Proof.
  assert (Hnothing : forall h c w, (heat_generate heat_island_areas h c w).1 = []).
  { intros h c w. unfold heat_generate. destruct (df_empty h); [reflexivity|].
    destruct (heat_island_areas h) as [areas|e]; cbn [mbind result_bind]; [|reflexivity].
    rewrite for_each_area. destruct (existsb _ areas); reflexivity. }
  split; [apply Hnothing|]. split.
  - intros areas Hne Hareas. unfold heat_generate. rewrite Hne, Hareas.
    cbn [mbind result_bind]. rewrite for_each_area.
    destruct (existsb _ areas); reflexivity.
  - intros air flood health green ar.
    unfold generate_all_recommendations, collect_recommendations.
    destruct (ar !! "heat_islands") as [h|]; [|reflexivity].
    rewrite Hnothing. reflexivity.
Qed.

Lemma heat_generator_returns_nothing_witness :
  (heat_generate (fun _ => Ok cluster_of_six) six_islands empty_frame empty_frame).2
  = [(ERROR, "Error generating heat mitigation recommendations: {e}")].
Proof.
  apply (proj1 (proj2 (heat_generator_returns_nothing
                         (fun _ => Ok cluster_of_six) six_islands empty_frame empty_frame))
           cluster_of_six); reflexivity.
Defined.

End HeatGeneratorFacts.

Module InterpolationFacts.
Import Num NumFacts Omi OmiFacts Interpolation.

Section Swath.
Context (lognormal_unit : list (list fval)).
Context (lognormal_from_stats : fval -> fval -> list (list fval)).
Context (nanstd : list Q -> fval).


(** The outcomes of [_process_omi_hdf_file].  A file without the swath
    group, a group without a swath and a first swath without a chosen
    data variable that holds a value give [None], the first and the last
    with a warning.  A swath whose arrays have one shape, or which lacks a
    coordinate array, gives a dataset on the 25 by 25 grid of the region
    whose variables are named after the product; the log holds
    information records only and ends with the record that real data was
    loaded, whichever branch made the grid.  Every dataset returned is of
    this kind.  A data array shorter than the mask of a swath over the
    city makes the indexing raise: the function logs the error and
    returns [None]. *)
Theorem process_omi_outcomes (f : hdf_file) (product : string) :
  let outcome :=
    _process_omi_hdf_file lognormal_unit lognormal_from_stats nanstd f product in
  (f = None ->
   outcome = (None, [(INFO, "Processing OMI {product} HDF-EOS file...");
                     (WARNING, "Invalid HDF-EOS structure")])) /\
  (f = Some [] ->
   outcome = (None, [(INFO, "Processing OMI {product} HDF-EOS file...");
                     (INFO, "Found swaths: {swath_names}")])) /\
  (forall name sw rest,
     f = Some ((name, sw) :: rest) ->
     let main_data := values <$> (select_variable product (data_fields sw)).1 in
     (main_data = None \/ main_data = Some [] ->
      outcome.1 = None
      /\ last outcome.2
         = Some (WARNING, "No suitable data variables found in {product} file")) /\
     (forall v vs,
        main_data = Some (v :: vs) ->
        match geo_fields sw !! "Latitude", geo_fields sw !! "Longitude" with
        | Some lat_data, Some lon_data =>
            length lon_data = length lat_data /\ length (v :: vs) = length lat_data
        | _, _ => True
        end ->
        exists grid_data,
          outcome.1 = Some {| lat := grid_lats; lon := grid_lons;
                              data_vars := omi_data_vars product grid_data |}
          /\ Forall (fun record => record.1 = INFO) outcome.2
          /\ last outcome.2
             = Some (INFO,
                     "REAL OMI DATA LOADED! Variables: {list(processed_ds.variables.keys())}"))) /\
  (forall ds,
     outcome.1 = Some ds ->
     length (lat ds) = 25%nat /\ length (lon ds) = 25%nat
     /\ (exists grid_data, data_vars ds = omi_data_vars product grid_data)
     /\ last outcome.2
        = Some (INFO,
                "REAL OMI DATA LOADED! Variables: {list(processed_ds.variables.keys())}")) /\
  (_process_omi_hdf_file lognormal_unit lognormal_from_stats nanstd ragged_file "OMNO2").1
  = None /\
  last (_process_omi_hdf_file lognormal_unit lognormal_from_stats nanstd
          ragged_file "OMNO2").2
  = Some (ERROR, "Error processing OMI HDF file: {e}").
Proof.
  intros outcome. subst outcome.
  split; [intros ->; reflexivity|]. split; [intros ->; reflexivity|].
  split; [|split; [|split; vm_compute; reflexivity]].
  - intros name sw rest ->. cbv zeta. unfold _process_omi_hdf_file.
    destruct (select_variable product (data_fields sw)) as [main_data chosen] eqn:Esel.
    cbn [fst]. split.
    + intros Hnone.
      assert (E : match values <$> main_data with Some (_ :: _) => False | _ => True end)
        by (destruct Hnone as [-> | ->]; exact I).
      destruct (values <$> main_data) as [[|v vs]|]; try contradiction;
        (split; [reflexivity|]); cbn [snd]; rewrite !app_assoc; apply last_snoc.
    + intros v vs -> Hshape.
      destruct (region_grid_returns lognormal_unit lognormal_from_stats nanstd
                  (geo_fields sw !! "Latitude") (geo_fields sw !! "Longitude") (v :: vs))
        as (grid_data & log & -> & Hlog).
      { destruct (geo_fields sw !! "Latitude"), (geo_fields sw !! "Longitude"); auto. }
      exists grid_data. cbn [fst snd]. split; [reflexivity|]. split.
      * assert (Hchosen : Forall (fun record : log_record => record.1 = INFO) chosen).
        { unfold select_variable in Esel.
          destruct (List.find _ (preferred_variables product)).
          - injection Esel; intros <- _. repeat constructor.
          - destruct (List.find _ (data_fields sw)); injection Esel; intros <- _;
              repeat constructor. }
        repeat (apply Forall_app; split); try exact Hchosen; try exact Hlog;
          repeat constructor.
      * rewrite !app_assoc. apply last_snoc.
  - intros ds. unfold _process_omi_hdf_file.
    destruct f as [[|[name sw] rest]|]; try discriminate.
    destruct (select_variable product (data_fields sw)) as [main_data chosen].
    destruct (values <$> main_data) as [[|v vs]|]; try discriminate.
    destruct (region_grid lognormal_unit lognormal_from_stats nanstd
                (geo_fields sw !! "Latitude") (geo_fields sw !! "Longitude") (v :: vs))
      as [[grid_data log]|e]; [|discriminate].
    cbn [fst snd]. intros [= <-]. cbn [lat lon data_vars].
    split; [reflexivity|]. split; [reflexivity|]. split; [eauto|].
    rewrite !app_assoc. apply last_snoc.
Qed.

End Swath.

Lemma process_omi_outcomes_witness :
  exists grid_data,
    (_process_omi_hdf_file [] (fun _ _ => []) (fun _ => NaN) atlantic_file "OMNO2").1
    = Some {| lat := grid_lats; lon := grid_lons;
              data_vars := omi_data_vars "OMNO2" grid_data |}
    /\ Forall (fun record => record.1 = INFO)
         (_process_omi_hdf_file [] (fun _ _ => []) (fun _ => NaN) atlantic_file "OMNO2").2
    /\ last (_process_omi_hdf_file [] (fun _ _ => []) (fun _ => NaN) atlantic_file "OMNO2").2
       = Some (INFO, "REAL OMI DATA LOADED! Variables: {list(processed_ds.variables.keys())}").
Proof.
  pose proof (process_omi_outcomes [] (fun _ _ => []) (fun _ => NaN) atlantic_file "OMNO2")
    as H.
  cbv zeta in H. destruct H as (_ & _ & H & _).
  destruct (H _ _ _ eq_refl) as [_ H'].
  apply (H' (Fin (inject_Z (3 * 10 ^ 15))) [Fin (inject_Z (2 * 10 ^ 15))]).
  - reflexivity.
  - vm_compute. split; reflexivity.
Defined.


End InterpolationFacts.

Module AnalyticsFacts.
Import Num NumFacts DataNormalizer HeatGenerator Analytics.

Lemma for_each_In {A B} (body : A -> result (list B)) (xs : list A) (l : list B) (y : B) :
  for_each body xs = Ok l -> In y l ->
  exists x l', In x xs /\ body x = Ok l' /\ In y l'.
Proof.
  revert l. induction xs as [|x xs IH]; intros l H Hy; simpl in H.
  - injection H; intros <-. destruct Hy.
  - destruct (body x) as [l1|e] eqn:E1; cbn [mbind result_bind] in H; [|discriminate].
    destruct (for_each body xs) as [l2|e] eqn:E2; cbn [mbind result_bind] in H; [|discriminate].
    injection H; intros <-. apply in_app_or in Hy as [Hy|Hy].
    + exists x, l1. simpl. auto.
    + destruct (IH l2 eq_refl Hy) as (x' & l' & Hx & Hb & Hl). exists x', l'. simpl. auto.
Qed.

(** *** Flood zones *)

Lemma adjust_risk_le_1 (r e : Q) : (adjust_risk r e <= 1)%Q.
Proof. unfold adjust_risk, py_min. q_cases; lra. Qed.

Lemma zone_labels (a : Q) :
  (1 # 4 <= a)%Q -> (a <= 1)%Q ->
  ((a < 1)%Q ->
   risk_band risk_thresholds a "Low" = zone_priority_of a
   /\ risk_band risk_thresholds a "Low" <> "Low") /\
  ((a == 1)%Q ->
   risk_band risk_thresholds a "Low" = "Low" /\ zone_priority_of a = "Critical").
Proof.
  intros Hlo Hhi. unfold risk_band, risk_thresholds, zone_priority_of.
  q_cases; cbn [andb]; split; intros H; try lra;
    (split; [reflexivity || (exfalso; lra) | try discriminate; try reflexivity; exfalso; lra]).
Qed.

Lemma pixel_zone_labels risk_values elevation_data precipitation_mm i lat j lon l z :
  pixel_zone risk_values elevation_data precipitation_mm i lat j lon = Ok l -> In z l ->
  (1 # 4 <= zone_risk_score z)%Q /\ (zone_risk_score z <= 1)%Q /\
  ((zone_risk_score z < 1)%Q ->
   zone_risk_category z = zone_priority z /\ zone_risk_category z <> "Low") /\
  ((zone_risk_score z == 1)%Q ->
   zone_risk_category z = "Low" /\ zone_priority z = "Critical").
Proof.
  unfold pixel_zone. intros H Hz.
  destruct (at2 risk_values i j) as [r|]; cbn [mbind result_bind] in H; [|discriminate].
  destruct (at2 elevation_data i j) as [e|]; cbn [mbind result_bind] in H; [|discriminate].
  destruct (Qleb (1 # 4) (adjust_risk r e)) eqn:E.
  - destruct (match precipitation_mm with Some v => at2 v i j | None => Raise "KeyError" end)
      as [p|]; cbn [mbind result_bind] in H; [|discriminate].
    injection H; intros <-. destruct Hz as [<-|[]]. cbn [zone_risk_score zone_risk_category
      zone_priority].
    apply Qleb_spec in E. pose proof (adjust_risk_le_1 r e) as Hle.
    split; [exact E|]. split; [exact Hle|]. apply zone_labels; assumption.
  - injection H; intros <-. destruct Hz.
Qed.

(** Every flood zone has an adjusted risk from 0.25 to 1. Below 1 its
    category is its priority, Medium, High or Critical; at the cap of 1
    the loop over the bands finds none, since the last band ends before 1,
    and the zone is kept with the category Low and the priority Critical.
    A pixel with at least 50 mm of precipitation, whose normalised risk
    is 1, is such a zone whatever its elevation is. *)
Theorem flood_zone_labels (lats lons : list Q) (risk_values : option (list (list Q)))
    (elevation_data : list (list Q)) (precipitation_mm : option (list (list Q)))
    (z : flood_zone) :
  (In z (assess_flood_risk lats lons risk_values elevation_data precipitation_mm) ->
   (1 # 4 <= zone_risk_score z)%Q /\ (zone_risk_score z <= 1)%Q /\
   ((zone_risk_score z < 1)%Q ->
    zone_risk_category z = zone_priority z /\ zone_risk_category z <> "Low") /\
   ((zone_risk_score z == 1)%Q ->
    zone_risk_category z = "Low" /\ zone_priority z = "Critical")) /\
  (forall precip soil elevation,
     (50 <= precip)%Q ->
     adjust_risk (flood_risk_pixel precip soil) elevation = 1%Q
     /\ risk_band risk_thresholds (adjust_risk (flood_risk_pixel precip soil) elevation) "Low"
        = "Low"
     /\ zone_priority_of (adjust_risk (flood_risk_pixel precip soil) elevation)
        = "Critical").
Proof.
  split.
  - unfold assess_flood_risk. destruct risk_values as [risk|]; [|intros []].
    destruct (for_each _ (enumerate lats)) as [zones|] eqn:E; [|intros []].
    intros Hz.
    destruct (for_each_In _ _ _ _ E Hz) as (row & l1 & _ & Hrow & Hz1).
    destruct (for_each_In _ _ _ _ Hrow Hz1) as (col & l2 & _ & Hcol & Hz2).
    exact (pixel_zone_labels _ _ _ _ _ _ _ _ _ Hcol Hz2).
  - intros precip soil elevation Hp.
    assert (Hr : (flood_risk_pixel precip soil == 1)%Q).
    { pose proof (NormalizerFacts.flood_risk_pixel_range precip soil) as [_ Hle].
      assert (Hge : (1 <= flood_risk_pixel precip soil)%Q); [|lra].
      assert (Hc : (1 <= np_clip (precip / 50) 0 1)%Q).
      { pose proof (NormalizerFacts.precip_linear precip) as El. revert El.
        generalize (precip / 50)%Q. intros x El.
        unfold np_clip, np_minimum, np_maximum. q_cases; lra. }
      unfold flood_risk_pixel. destruct soil as [m|]; [|exact Hc].
      assert (Hs : (0 <= np_clip (m / (1 # 2)) 0 1)%Q) by (apply np_clip_bounds; lra).
      revert Hc Hs. generalize (np_clip (precip / 50) 0 1) (np_clip (m / (1 # 2)) 0 1).
      intros x y Hc Hs. unfold np_minimum. q_cases; lra. }
    assert (Ha : adjust_risk (flood_risk_pixel precip soil) elevation = 1%Q).
    { unfold adjust_risk. revert Hr. generalize (flood_risk_pixel precip soil). intros r Hr.
      assert (Hf : (0 <= py_max 0 ((20 - elevation) / 20))%Q)
        by (unfold py_max; q_cases; lra).
      revert Hf. generalize (py_max 0 ((20 - elevation) / 20)). intros f Hf.
      unfold py_min. q_cases; [exfalso; lra | reflexivity]. }
    rewrite Ha. repeat split; reflexivity.
Qed.

Lemma flood_zone_labels_witness :
  adjust_risk (flood_risk_pixel 60 (Some (1 # 5))) 35 = 1%Q
  /\ risk_band risk_thresholds (adjust_risk (flood_risk_pixel 60 (Some (1 # 5))) 35) "Low"
     = "Low"
  /\ zone_priority_of (adjust_risk (flood_risk_pixel 60 (Some (1 # 5))) 35) = "Critical".
Proof.
  apply (proj2 (flood_zone_labels [] [] None [] None
                  {| zone_geometry := (0, 0)%Q; zone_risk_score := 1;
                     zone_risk_category := "Low"; zone_priority := "Critical";
                     zone_elevation_m := 0; zone_precipitation_mm := 0;
                     zone_latitude := 0; zone_longitude := 0 |})
           60%Q (Some (1 # 5)%Q) 35%Q).
  discriminate.
Defined.

Example flood_zone_sample :
  assess_flood_risk [19]%Q [728 # 10; 729 # 10]%Q (Some [[1; 3 # 5]]%Q) [[35; 35]]%Q
    (Some [[60; 30]]%Q)
  = [ {| zone_geometry := (728 # 10, 19)%Q; zone_risk_score := 1;
         zone_risk_category := "Low"; zone_priority := "Critical";
         zone_elevation_m := 35; zone_precipitation_mm := 60;
         zone_latitude := 19; zone_longitude := 728 # 10 |};
      {| zone_geometry := (729 # 10, 19)%Q; zone_risk_score := (3 # 5) + 0 * (3 # 10);
         zone_risk_category := "High"; zone_priority := "High";
         zone_elevation_m := 35; zone_precipitation_mm := 30;
         zone_latitude := 19; zone_longitude := 729 # 10 |} ].
Proof. reflexivity. Qed.

(** *** Ward air quality *)

Lemma aqi_band_gaps (m : Q) :
  (aqi_band aqi_thresholds m "Good" = "Good"
   <-> (m <= 50 \/ (50 < m /\ m < 51) \/ (100 < m /\ m < 101) \/ (200 < m /\ m < 201)
        \/ (300 < m /\ m < 301) \/ 500 < m)%Q).
Proof.
  unfold aqi_band, aqi_thresholds.
  q_cases; cbn [andb]; split; intros H; try reflexivity; try discriminate;
    try (exfalso; lra);
    try (repeat match goal with H : _ \/ _ |- _ => destruct H end;
         repeat match goal with H : _ /\ _ |- _ => destruct H end; exfalso; lra);
    first [ left; lra
          | right; left; split; lra
          | right; right; left; split; lra
          | right; right; right; left; split; lra
          | right; right; right; right; left; split; lra
          | right; right; right; right; right; lra ].
Qed.

(** For every row of the ward air quality frame: the affected
    population is the population of the ward when the mean index exceeds
    100 and 0 otherwise; the category is Good exactly when the mean is at
    most 50 or falls between two bands (between 50 and 51, 100 and 101,
    200 and 201, 300 and 301) or above 500. A ward with a mean between 100
    and 101 is therefore labelled Good while its whole population counts
    as affected. *)
Theorem ward_air_quality_rows (lats lons : list Q) (overall_aqi : option (list (list Q)))
    (wards : list ward) (s : ward_stat) :
  In s (analyze_ward_air_quality lats lons overall_aqi wards) ->
  (stat_affected_population s
   = if Qltb 100 (stat_mean_aqi s) then stat_population s else 0) /\
  (stat_aqi_category s = "Good"
   <-> (stat_mean_aqi s <= 50 \/ (50 < stat_mean_aqi s /\ stat_mean_aqi s < 51)
        \/ (100 < stat_mean_aqi s /\ stat_mean_aqi s < 101)
        \/ (200 < stat_mean_aqi s /\ stat_mean_aqi s < 201)
        \/ (300 < stat_mean_aqi s /\ stat_mean_aqi s < 301) \/ 500 < stat_mean_aqi s)%Q) /\
  ((100 < stat_mean_aqi s)%Q -> (stat_mean_aqi s < 101)%Q ->
   stat_aqi_category s = "Good" /\ stat_affected_population s = stat_population s).
Proof.
  unfold analyze_ward_air_quality. destruct overall_aqi as [aqi|]; [|intros []].
  destruct (for_each _ wards) as [rows|] eqn:E; [|intros []].
  intros Hs. destruct (for_each_In _ _ _ _ E Hs) as (w & l & _ & Hw & Hl).
  destruct (ward_aqi_values w lats lons aqi) as [values|]; cbn [mbind result_bind] in Hw;
    [|discriminate].
  injection Hw; intros <-. unfold ward_row in Hl.
  destruct values as [|v rest]; [destruct Hl|]. destruct Hl as [<-|[]].
  cbn [stat_affected_population stat_mean_aqi stat_population stat_aqi_category].
  split; [reflexivity|]. split; [apply aqi_band_gaps|].
  intros H1 H2. split.
  - apply aqi_band_gaps. right. right. left. split; assumption.
  - apply Qltb_spec in H1. rewrite H1. reflexivity.
Qed.

Lemma ward_air_quality_rows_witness :
  In whole_city_row
     (analyze_ward_air_quality [19]%Q [728 # 10; 729 # 10]%Q (Some [[100; 101]]%Q)
        [whole_city])
  /\ stat_aqi_category whole_city_row = "Good"
  /\ stat_affected_population whole_city_row = stat_population whole_city_row.
Proof.
  assert (Hin : In whole_city_row
                  (analyze_ward_air_quality [19]%Q [728 # 10; 729 # 10]%Q
                     (Some [[100; 101]]%Q) [whole_city]))
    by (left; reflexivity).
  split; [exact Hin|].
  apply (proj2 (proj2 (ward_air_quality_rows [19]%Q [728 # 10; 729 # 10]%Q
                         (Some [[100; 101]]%Q) [whole_city] whole_city_row Hin)));
    reflexivity.
Defined.

End AnalyticsFacts.

Module AirGeneratorFacts.
Import Num NumFacts Engine HeatGenerator AirGenerator.

Lemma row_recommendations_group (ward : air_row) :
  exists g, row_recommendations ward = Ok g /\ ward_group ward g.
Proof.
  unfold row_recommendations, ward_group, air_plan, air_priority, air_budget.
  destruct (Qltb 100 (row_mean_aqi ward)); [|eauto].
  destruct (Qltb 200 (row_mean_aqi ward)); [|destruct (Qltb 150 (row_mean_aqi ward))];
    (eexists; split; [vm_compute; reflexivity|]);
    (split; [reflexivity|]);
    (split; [repeat constructor|]);
    vm_compute; reflexivity.
Qed.

Lemma for_each_groups (rows : list air_row) :
  exists groups,
    for_each row_recommendations rows = Ok (concat groups)
    /\ Forall2 ward_group rows groups.
Proof.
  induction rows as [|ward rows (groups & IH & Hall)].
  - exists []. split; [reflexivity | constructor].
  - destruct (row_recommendations_group ward) as (g & Hg & Hgroup).
    exists (g :: groups). cbn [for_each concat]. rewrite Hg, IH. split; [reflexivity|].
    constructor; assumption.
Qed.

(** The generator never takes its [except] branch on a frame with the
    columns of the ward analysis: it logs one information record and
    returns, ward after ward in the order of the rows, nothing for a ward
    with a mean index of at most 100 and else three recommendations for
    that ward, of the type air quality, all of the tier of the ward
    (Critical above 200, High above 150, else Medium, never Low), with the
    affected population of the ward, whose costs add up to the budget of
    the tier (500000, 300000 or 150000). *)
Theorem air_generator_per_ward {H} (ward_air_quality : list air_row) (air_hotspots : H) :
  (air_generate ward_air_quality air_hotspots).2
  = [(INFO, "Generated {len(recommendations)} air quality recommendations")]
  /\ exists groups,
       (air_generate ward_air_quality air_hotspots).1 = concat groups
       /\ Forall2 ward_group ward_air_quality groups.
Proof.
  unfold air_generate.
  destruct (for_each_groups ward_air_quality) as (groups & -> & Hall).
  split; [reflexivity|]. exists groups. split; [reflexivity | exact Hall].
Qed.

Example air_generator_sample :
  map (fun rec => (ward_number rec, priority rec, title rec))
      (air_generate three_rows tt).1
  = [(2, MEDIUM, "Air Quality Improvement - Increase urban");
     (2, MEDIUM, "Air Quality Improvement - Promote public");
     (2, MEDIUM, "Air Quality Improvement - Implement dust");
     (3, CRITICAL, "Air Quality Improvement - Implement emergency");
     (3, CRITICAL, "Air Quality Improvement - Deploy air");
     (3, CRITICAL, "Air Quality Improvement - Restrict heavy")].
Proof. reflexivity. Qed.

End AirGeneratorFacts.
